(** * Casgate: directory synchronisation and the login controller

    A shallow embedding of two Go source files of the repository:
    the LDAP connection/synchronisation code of package [object]
    ([SyncLdapUsers], [GetExistUuids], [buildLdapUserName],
    [SyncUserFromLdap], ...) and the login controller of package
    [controllers] ([HandleLoggedIn], [Login], [GetCaptchaStatus]).

    Go code that returns early, panics, and mutates the database or the
    HTTP session is embedded in one small monad: a state monad whose results
    are a value, an early [return] or a panic.  Collaborators that live
    outside the two files (the ORM-backed CRUD functions, the identity
    provider clients, the i18n function, ...) are fields of an interface
    record, so every theorem holds for all their behaviours. *)

From Stdlib Require Import String Ascii List ZArith Bool Lia DecimalString.
Import ListNotations.
Open Scope string_scope.
Open Scope list_scope.

Set Implicit Arguments.

(** ** Go control flow: values, early returns, panics *)

Module Go.

(** A Go [error] value; [None] is [nil]. *)
Definition error := string.

(** Result of running a block inside a function whose result type is [R]:
    the block ran to its end with a value, executed a [return], or
    panicked (nil dereference, explicit [panic]). *)
Inductive Res (R A : Type) : Type :=
| Val (a : A)
| Ret (r : R)
| Panic (why : string).
Arguments Val {R A} a.
Arguments Ret {R A} r.
Arguments Panic {R A} why.

Definition M (S R A : Type) : Type := S -> Res R A * S.

Definition ret {S R A} (a : A) : M S R A := fun s => (Val a, s).
Definition bind {S R A B} (m : M S R A) (k : A -> M S R B) : M S R B :=
  fun s => match m s with
           | (Val a, s') => k a s'
           | (Ret r, s') => (Ret r, s')
           | (Panic w, s') => (Panic w, s')
           end.
(** the Go statement [return r] *)
Definition return_ {S R A} (r : R) : M S R A := fun s => (Ret r, s).
Definition panic {S R A} (why : string) : M S R A := fun s => (Panic why, s).
Definition gets {S R A} (f : S -> A) : M S R A := fun s => (Val (f s), s).
Definition modify {S R} (f : S -> S) : M S R unit := fun s => (Val tt, f s).

(** Calling a function: its [return r] (or falling off the end with the
    value of the named result) becomes the value of the call. *)
Definition call {S R R'} (body : M S R R) : M S R' R :=
  fun s => match body s with
           | (Val r, s') => (Val r, s')
           | (Ret r, s') => (Val r, s')
           | (Panic w, s') => (Panic w, s')
           end.

(** Dereferencing a pointer that may be nil. *)
Definition deref {S R A} (p : option A) (what : string) : M S R A :=
  match p with
  | Some a => ret a
  | None => panic ("nil pointer dereference: " ++ what)%string
  end.

End Go.
Import Go.

Declare Scope go_scope.
Delimit Scope go_scope with go.
Notation "x <- m ;; k" := (bind m (fun x => k))
  (at level 61, m at next level, right associativity) : go_scope.
Notation "' p <- m ;; k" := (bind m (fun x => let p := x in k))
  (at level 61, p pattern, m at next level, right associativity) : go_scope.
Notation "m ;;; k" := (bind m (fun _ => k))
  (at level 61, right associativity) : go_scope.
Open Scope go_scope.

(** ** Go's [strings] helpers used by the synchroniser *)

Module Strings.

(** [strings.Split(s, sep)] for a one-byte separator. *)
Fixpoint Split (s : string) (sep : ascii) : list string :=
  match s with
  | EmptyString => [EmptyString]
  | String c rest =>
      if Ascii.eqb c sep then EmptyString :: Split rest sep
      else match Split rest sep with
           | [] => [String c EmptyString]
           | w :: ws => String c w :: ws
           end
  end.

(** [strings.Contains(s, substr)] *)
Fixpoint Contains (s substr : string) : bool :=
  if String.prefix substr s then true
  else match s with
       | EmptyString => false
       | String _ rest => Contains rest substr
       end.

(** the slice expression [s[n:]]; out of range is a run-time panic *)
Fixpoint slice_from (n : nat) (s : string) : option string :=
  match n, s with
  | O, _ => Some s
  | S _, EmptyString => None
  | S n', String _ rest => slice_from n' rest
  end.

(** [strings.Join(elems, sep)] *)
Definition Join (elems : list string) (sep : string) : string :=
  String.concat sep elems.

End Strings.

(** ** Data model of package [object] (the fields the two files use) *)

Module User.
Record t : Type := mk {
  Owner : string;
  Name : string;
  CreatedTime : string;
  Id : string;
  Type_ : string;
  DisplayName : string;
  Avatar : string;
  Email : string;
  Phone : string;
  CountryCode : string;
  Region : string;
  Address : list string;
  Affiliation : string;
  Tag : string;
  Score : Z;
  IsAdmin : bool;
  IsForbidden : bool;
  IsDeleted : bool;
  SignupApplication : string;
  Ldap : string;
  Properties : list (string * string);
  SigninWrongTimes : Z
}.
(** the assignment [user.SignupApplication = v] *)
Definition with_SignupApplication (v : string) (u : t) : t :=
  mk (Owner u) (Name u) (CreatedTime u) (Id u) (Type_ u) (DisplayName u)
    (Avatar u) (Email u) (Phone u) (CountryCode u) (Region u) (Address u)
    (Affiliation u) (Tag u) (Score u) (IsAdmin u) (IsForbidden u) (IsDeleted u)
    v (Ldap u) (Properties u) (SigninWrongTimes u).
(** the Go zero value [User{}] *)
Definition zero : t :=
  mk "" "" "" "" "" "" "" "" "" "" "" [] "" "" 0 false false false "" "" [] 0.
End User.

Module LdapUser.
Record t : Type := mk {
  UidNumber : string;
  Uid : string;
  Cn : string;
  GidNumber : string;
  Uuid : string;
  UserPrincipalName : string;
  DisplayName : string;
  Mail : string;
  Email : string;
  EmailAddress : string;
  TelephoneNumber : string;
  Mobile : string;
  MobileTelephoneNumber : string;
  RegisteredAddress : string;
  PostalAddress : string;
  GroupId : string;
  Address : string;
  MemberOf : string;
  Roles : list string
}.
Definition zero : t :=
  mk "" "" "" "" "" "" "" "" "" "" "" "" "" "" "" "" "" "" [].
End LdapUser.

Module UserIdProvider.
Record t : Type := mk {
  Owner : string;
  LdapId : string;
  ProviderName : string;
  UsernameFromIdp : string;
  CreatedTime : string;
  LastSignInTime : string;
  UserId : string
}.
End UserIdProvider.

Module Organization.
Record t : Type := mk {
  Name : string;
  DefaultApplication : string;
  DefaultAvatar : string
}.
End Organization.

Module RoleMappingItem.
Record t : Type := mk {
  Attribute : string;
  Values : list string;
  Roles : list string
}.
End RoleMappingItem.

Module AttributeMappingItem.
Record t : Type := mk {
  UserField : string;
  Attribute : string
}.
End AttributeMappingItem.

Module Ldap.
Record t : Type := mk {
  Id : string;
  Host : string;
  Port : Z;
  EnableSsl : bool;
  Username : string;
  Password : string;
  BaseDn : string;
  Filter : string;
  FilterFields : list string;
  Cert : string;
  EnableCryptographicAuth : bool;
  ClientCert : string;
  EnableRoleMapping : bool;
  RoleMappingItems : list RoleMappingItem.t;
  EnableAttributeMapping : bool;
  AttributeMappingItems : list AttributeMappingItem.t
}.
End Ldap.

Definition string_inb (x : string) (l : list string) : bool :=
  existsb (String.eqb x) l.

(** ** Package [object]: the collaborators of the synchroniser

    Everything the synchroniser calls but that is defined elsewhere (the
    CRUD functions of the package, the clock, the random generator) is a
    field of [Store].  [W] is the state of the outside world the package
    works on: the database and whatever else those functions depend on.
    The two ORM queries written in the source file itself are embedded as
    queries over [user_rows], the rows of table [user]. *)

Class Store (W : Type) : Type := {
  (** rows of table [user], in the order the engine scans them *)
  user_rows : W -> list User.t;
  (** a failure of [Engine...Find] for the query of [GetExistUuids] *)
  find_err : W -> string -> list string -> option error;
  (** a failure of [Engine.Where(...).Get] for the query of
      [buildLdapUserName] *)
  get_err : W -> string -> string -> option error;
  getOrganization : string -> string -> W -> option Organization.t * option error;
  GetLdap : string -> W -> option Ldap.t * option error;
  (** the method [GetInitScore] of [Organization], callable on a nil pointer *)
  GetInitScore : option Organization.t -> W -> Z * option error;
  (** [util.GetCurrentTime()] *)
  GetCurrentTime : W -> string;
  (** [AddUser(user *User)]: the new world, the user struct as the callee
      left it (it fills in the id), and the two results *)
  AddUser : User.t -> W -> (User.t * bool * option error) * W;
  AddUserIdProvider : UserIdProvider.t -> W -> (bool * option error) * W;
  SyncRoles : LdapUser.t -> string -> string -> W -> option error * W;
  (** [randstr.Hex(n)], by the number of draws made so far *)
  Hex : nat -> nat -> string
}.

(** What the synchroniser asks of and does to the store, in order. *)
Inductive Event : Type :=
| QExistUuids (owner : string) (uuids : list string)
| QUserByName (name1 name2 : string)
| WAddUser (u : User.t)
| WAddUserIdProvider (p : UserIdProvider.t)
| WSyncRoles (lu : LdapUser.t) (name owner : string).

Definition is_write (e : Event) : bool :=
  match e with
  | WAddUser _ | WAddUserIdProvider _ | WSyncRoles _ _ _ => true
  | _ => false
  end.

Definition is_exist_query (e : Event) : bool :=
  match e with QExistUuids _ _ => true | _ => false end.

Definition is_creation (e : Event) : bool :=
  match e with WAddUser _ | WAddUserIdProvider _ => true | _ => false end.

Module St.
Record t (W : Type) : Type := mk {
  world : W;
  draws : nat;          (* random strings drawn so far *)
  trace : list Event    (* oldest first *)
}.
Arguments mk {W}.
Arguments world {W}.
Arguments draws {W}.
Arguments trace {W}.
End St.

Section ObjectOps.
Context {W : Type} {store : Store W}.

Local Abbreviation St := (St.t W).

Definition emit {R} (e : Event) : M St R unit :=
  modify (fun s => St.mk (St.world s) (St.draws s) (St.trace s ++ [e])).

(** a collaborator that only reads the world *)
Definition query {R A} (f : W -> A) : M St R A :=
  gets (fun s => f (St.world s)).

(** a collaborator that may change the world *)
Definition update {R A} (f : W -> A * W) : M St R A :=
  fun s => let (a, w') := f (St.world s) in
           (Val a, St.mk w' (St.draws s) (St.trace s)).

Definition draw_hex {R} (n : nat) : M St R string :=
  fun s => (Val (Hex n (St.draws s)),
            St.mk (St.world s) (S (St.draws s)) (St.trace s)).

(** [SELECT DISTINCT ldap FROM user WHERE owner = ? AND ldap IN (uuids)] *)
Definition select_distinct_ldap (owner : string) (uuids : list string)
    (rows : list User.t) : list string :=
  nodup string_dec
    (map User.Ldap
       (filter (fun u => String.eqb (User.Owner u) owner
                         && string_inb (User.Ldap u) uuids) rows)).

Definition GetExistUuids {R} (owner : string) (uuids : list string)
    : M St R (list string * option error) :=
  emit (QExistUuids owner uuids) ;;;
  err <- query (fun w => find_err w owner uuids) ;;
  match err with
  | Some e => ret ([], Some e)
  | None =>
      rows <- query user_rows ;;
      ret (select_distinct_ldap owner uuids rows, None)
  end.

(** [Engine.Where("name = ? or name = ?", a, b).Get(&user)]: the first
    matching row, if any *)
Definition get_by_name (a b : string) (rows : list User.t) : option User.t :=
  find (fun u => String.eqb (User.Name u) a || String.eqb (User.Name u) b) rows.

Definition buildLdapUserName {R} (ldapUser : LdapUser.t)
    : M St R (string * option error) :=
  let uidWithNumber :=
    (LdapUser.Uid ldapUser ++ "_" ++ LdapUser.UidNumber ldapUser)%string in
  emit (QUserByName (LdapUser.Uid ldapUser) uidWithNumber) ;;;
  err <- query (fun w => get_err w (LdapUser.Uid ldapUser) uidWithNumber) ;;
  match err with
  | Some e => ret ("", Some e)
  | None =>
      rows <- query user_rows ;;
      match get_by_name (LdapUser.Uid ldapUser) uidWithNumber rows with
      | Some user =>
          if String.eqb (User.Ldap user) (LdapUser.Uuid ldapUser) then
            ret (User.Name user, None)
          else if String.eqb (User.Name user) (LdapUser.Uid ldapUser) then
            ret (uidWithNumber, None)
          else
            h <- draw_hex 6 ;;
            ret ((uidWithNumber ++ "_" ++ h)%string, None)
      | None =>
          if negb (String.eqb (LdapUser.Uid ldapUser) "") then
            ret (LdapUser.Uid ldapUser, None)
          else ret (LdapUser.Cn ldapUser, None)
      end
  end.

Definition buildLdapDisplayName (ldapUser : LdapUser.t) : string :=
  if negb (String.eqb (LdapUser.DisplayName ldapUser) "")
  then LdapUser.DisplayName ldapUser
  else LdapUser.Cn ldapUser.

Definition GetLdapUuid (ldapUser : LdapUser.t) : string :=
  if negb (String.eqb (LdapUser.Uuid ldapUser) "") then LdapUser.Uuid ldapUser
  else if negb (String.eqb (LdapUser.Uid ldapUser) "") then LdapUser.Uid ldapUser
  else LdapUser.Cn ldapUser.

End ObjectOps.

(** ** [SyncLdapUsers] *)

(** the three results [(existUsers, failedUsers, err)]; a nil slice is [[]] *)
Definition SyncResult : Type :=
  (list LdapUser.t * list LdapUser.t * option error)%type.

(** the accumulators [existUsers], [failedUsers] carried round the loop *)
Definition Acc : Type := (list LdapUser.t * list LdapUser.t)%type.

(** [for _, part := range parts { if strings.Contains(part, key) { out =
    append(out, part[3:]) } }] *)
Fixpoint dn_values (parts : list string) (key : string) : option (list string) :=
  match parts with
  | [] => Some []
  | part :: rest =>
      if Strings.Contains part key then
        match Strings.slice_from 3 part, dn_values rest key with
        | Some v, Some vs => Some (v :: vs)
        | _, _ => None
        end
      else dn_values rest key
  end.

(** the inner loop over [existUuids] (source lines 391-399) *)
Fixpoint mark_exist (syncUser : LdapUser.t) (existUuids : list string)
    (existUsers : list LdapUser.t) (found : bool) : list LdapUser.t * bool :=
  match existUuids with
  | [] => (existUsers, found)
  | existUuid :: rest =>
      if String.eqb (LdapUser.Uuid syncUser) existUuid
      then mark_exist syncUser rest (existUsers ++ [syncUser]) true
      else mark_exist syncUser rest existUsers found
  end.

Section SyncLdapUsers.
Context {W : Type} {store : Store W}.

Local Abbreviation St := (St.t W).

(** source lines 457-467: re-read the directory settings and, when role
    mapping is on, synchronise the record's roles *)
Definition sync_roles_step (owner ldapId : string) (syncUser : LdapUser.t)
    (name : string) (acc : Acc) : M St SyncResult Acc :=
  '(ldap, err) <- query (GetLdap ldapId) ;;
  match err with
  | Some e => return_ (fst acc, snd acc, Some e)
  | None =>
      l <- deref ldap "ldap.EnableRoleMapping" ;;
      if Ldap.EnableRoleMapping l then
        emit (WSyncRoles syncUser name owner) ;;;
        err <- update (SyncRoles syncUser name owner) ;;
        match err with
        | Some e => return_ (fst acc, snd acc, Some e)
        | None => ret acc
        end
      else ret acc
  end.

(** the struct literal of source lines 412-432 *)
Definition new_ldap_user (owner name now : string) (syncUser : LdapUser.t)
    (organization : Organization.t) (affiliation tag : string) (score : Z)
    : User.t :=
  let newUser :=
    {| User.Owner := owner;
       User.Name := name;
       User.CreatedTime := now;
       User.Id := "";
       User.Type_ := "normal-user";
       User.DisplayName := buildLdapDisplayName syncUser;
       User.Avatar := Organization.DefaultAvatar organization;
       User.Email := LdapUser.Email syncUser;
       User.Phone := LdapUser.Mobile syncUser;
       User.CountryCode := "";
       User.Region := "";
       User.Address := [LdapUser.Address syncUser];
       User.Affiliation := affiliation;
       User.Tag := tag;
       User.Score := score;
       User.IsAdmin := false;
       User.IsForbidden := false;
       User.IsDeleted := false;
       User.SignupApplication := Organization.DefaultApplication organization;
       User.Ldap := LdapUser.Uuid syncUser;
       User.Properties := [];
       User.SigninWrongTimes := 0 |} in
  if negb (String.eqb (Organization.DefaultApplication organization) "")
  then
    User.with_SignupApplication
      (Organization.DefaultApplication organization) newUser
  else newUser.

(** the body of the loop over [syncUsers] (source lines 386-468); the
    value is the pair of accumulators the next iteration starts from *)
Definition sync_one (owner ldapId : string)
    (organization : option Organization.t) (affiliation tag : string)
    (uuids : list string) (acc : Acc) (syncUser : LdapUser.t)
    : M St SyncResult Acc :=
  '(existUuids, err) <- GetExistUuids owner uuids ;;
  match err with
  | Some e => return_ ([], [], Some e)
  | None =>
      let '(existUsers, found) :=
        mark_exist syncUser existUuids (fst acc) false in
      let failedUsers := snd acc in
      '(name, err) <- buildLdapUserName syncUser ;;
      match err with
      | Some e => return_ ([], [], Some e)
      | None =>
          if negb found then
            '(score, err) <- query (GetInitScore organization) ;;
            match err with
            | Some e => return_ ([], [], Some e)
            | None =>
                now <- query GetCurrentTime ;;
                org <- deref organization "organization.DefaultApplication" ;;
                let newUser :=
                  new_ldap_user owner name now syncUser org affiliation tag score in
                emit (WAddUser newUser) ;;;
                '(newUser', affected, err) <- update (AddUser newUser) ;;
                match err with
                | Some e => return_ ([], [], Some e)
                | None =>
                    if negb affected then
                      (* failedUsers = append(failedUsers, syncUser); continue *)
                      ret (existUsers, failedUsers ++ [syncUser])
                    else
                      now' <- query GetCurrentTime ;;
                      let userIdProvider :=
                        {| UserIdProvider.Owner := Organization.Name org;
                           UserIdProvider.LdapId := ldapId;
                           UserIdProvider.ProviderName := "";
                           UserIdProvider.UsernameFromIdp := LdapUser.Uuid syncUser;
                           UserIdProvider.CreatedTime := now';
                           UserIdProvider.LastSignInTime := "";
                           UserIdProvider.UserId := User.Id newUser' |} in
                      emit (WAddUserIdProvider userIdProvider) ;;;
                      '(_, err) <- update (AddUserIdProvider userIdProvider) ;;
                      match err with
                      | Some e => return_ ([], [], Some e)
                      | None =>
                          sync_roles_step owner ldapId syncUser name
                            (existUsers, failedUsers)
                      end
                end
            end
          else
            sync_roles_step owner ldapId syncUser name (existUsers, failedUsers)
      end
  end.

Fixpoint sync_loop (owner ldapId : string)
    (organization : option Organization.t) (affiliation tag : string)
    (uuids : list string) (syncUsers : list LdapUser.t) (acc : Acc)
    : M St SyncResult Acc :=
  match syncUsers with
  | [] => ret acc
  | syncUser :: rest =>
      acc' <- sync_one owner ldapId organization affiliation tag uuids acc syncUser ;;
      sync_loop owner ldapId organization affiliation tag uuids rest acc'
  end.

Definition SyncLdapUsers (owner : string) (syncUsers : list LdapUser.t)
    (ldapId : string) : M St SyncResult SyncResult :=
  let uuids := map LdapUser.Uuid syncUsers in
  '(organization, err) <- query (getOrganization "admin" owner) ;;
  match err with
  | Some e => panic e
  | None =>
      '(ldap, err) <- query (GetLdap ldapId) ;;
      l <- deref ldap "ldap.BaseDn" ;;
      dc <- deref (dn_values (Strings.Split (Ldap.BaseDn l) ",") "dc=")
              "slice bounds out of range" ;;
      let affiliation := Strings.Join dc "." in
      ou <- deref (dn_values (Strings.Split (Ldap.Username l) ",") "ou=")
              "slice bounds out of range" ;;
      let tag := Strings.Join ou "." in
      acc <- sync_loop owner ldapId organization affiliation tag uuids
               syncUsers ([], []) ;;
      ret (fst acc, snd acc, err)
  end.

(** running the function from a state: its results and the final state *)
Definition run_SyncLdapUsers (owner : string) (syncUsers : list LdapUser.t)
    (ldapId : string) (s : St) : Res SyncResult SyncResult * St :=
  call (R' := SyncResult) (SyncLdapUsers owner syncUsers ldapId) s.

End SyncLdapUsers.

(** ** The directory connection ([GetLdapConn], [GetLdapUsers]) *)

Module Entry.
(** [goldap.EntryAttribute] and [goldap.Entry] *)
Record Attribute : Type := mkAttribute {
  Name : string;
  Values : list string
}.
Record t : Type := mk {
  Attributes : list Attribute
}.
End Entry.

Module SearchRequest.
Inductive Scope : Type := ScopeBaseObject | ScopeWholeSubtree.
(** [goldap.NewSearchRequest(base, scope, NeverDerefAliases, 0, 0, false,
    filter, attributes, nil)] *)
Record t : Type := mk {
  BaseDN : string;
  Scope_ : Scope;
  Filter : string;
  Attributes : list string
}.
End SearchRequest.

Module Cert.
Record t : Type := mk {
  Scope : string;
  Certificate : string;
  PrivateKey : string
}.
End Cert.

(** The network side of the package and the helpers of the directory code
    that are defined in other files.  Network calls read the world; they do
    not change the store. *)
Class Directory (W : Type) : Type := {
  Conn : Type;                    (* [*goldap.Conn] *)
  TlsConfig : Type;               (* [*tls.Config] *)
  TlsCertificate : Type;          (* [tls.Certificate] *)
  empty_tls : TlsConfig;          (* [&tls.Config{}] *)
  set_Certificates : list TlsCertificate -> TlsConfig -> TlsConfig;
  GetTlsConfigForCert : string -> W -> option TlsConfig * option error;
  getCertByName : string -> W -> option Cert.t * option error;
  X509KeyPair : string -> string -> TlsCertificate * option error;
  scopeClientCert : string;
  ErrCertDoesNotExist : error;
  ErrCertInvalidScope : error;
  DialTLS : string -> option TlsConfig -> W -> option Conn * option error;
  Dial : string -> W -> option Conn * option error;
  ExternalBind : Conn -> W -> option error;
  Bind : Conn -> string -> string -> W -> option error;
  Search : Conn -> SearchRequest.t -> W -> option (list Entry.t) * option error;
  SearchWithPaging :
    Conn -> SearchRequest.t -> Z -> W -> option (list Entry.t) * option error;
  GetLdaps : string -> W -> list Ldap.t * option error;
  CheckLdapUserPassword : User.t -> string -> string -> W -> string * option error;
  (** [util.ReturnAnyNotEmpty] *)
  ReturnAnyNotEmpty : list string -> string;
  (** [buildAttributeMappingMap(items).Keys()] *)
  attribute_mapping_keys : list AttributeMappingItem.t -> list string;
  MapAttributeToUser :
    Entry.Attribute -> LdapUser.t -> list AttributeMappingItem.t -> LdapUser.t;
  (** [buildRoleMappingMap(items)[name][value].StrRoles()], [None] when one
      of the two map look-ups misses *)
  role_mapping_roles :
    list RoleMappingItem.t -> string -> string -> option (list string)
}.

Module LdapConn.
Record t (C : Type) : Type := mk {
  Conn_ : C;
  IsAD : bool
}.
Arguments mk {C}.
Arguments Conn_ {C}.
Arguments IsAD {C}.
End LdapConn.

(** [attribute.Values[0]]: index out of range on an attribute without
    values *)
Definition first_value (a : Entry.Attribute) : option string :=
  match Entry.Values a with
  | v :: _ => Some v
  | [] => None
  end.

Module ServerType.
(** the local struct [ldapServerType] of [isMicrosoftAD] *)
Record t : Type := mk {
  Vendorname : string;
  Vendorversion : string;
  IsGlobalCatalogReady : string;
  ForestFunctionality : string
}.
End ServerType.

(** the [switch attribute.Name] of [isMicrosoftAD] *)
Definition server_type_attribute (a : Entry.Attribute) (t : ServerType.t)
    : option ServerType.t :=
  let n := Entry.Name a in
  if String.eqb n "vendorname" then
    option_map (fun v => ServerType.mk v (ServerType.Vendorversion t)
                           (ServerType.IsGlobalCatalogReady t)
                           (ServerType.ForestFunctionality t)) (first_value a)
  else if String.eqb n "vendorversion" then
    option_map (fun v => ServerType.mk (ServerType.Vendorname t) v
                           (ServerType.IsGlobalCatalogReady t)
                           (ServerType.ForestFunctionality t)) (first_value a)
  else if String.eqb n "isGlobalCatalogReady" then
    option_map (fun v => ServerType.mk (ServerType.Vendorname t)
                           (ServerType.Vendorversion t) v
                           (ServerType.ForestFunctionality t)) (first_value a)
  else if String.eqb n "forestFunctionality" then
    option_map (fun v => ServerType.mk (ServerType.Vendorname t)
                           (ServerType.Vendorversion t)
                           (ServerType.IsGlobalCatalogReady t) v) (first_value a)
  else Some t.

(** a [for ... range] loop whose body may panic *)
Fixpoint fold_may_panic {A B} (f : A -> B -> option B) (l : list A) (b : B)
    : option B :=
  match l with
  | [] => Some b
  | a :: rest =>
      match f a b with
      | Some b' => fold_may_panic f rest b'
      | None => None
      end
  end.

(** the [switch attribute.Name] of [GetLdapUsers] *)
Definition ldap_user_attribute (a : Entry.Attribute) (u : LdapUser.t)
    : option LdapUser.t :=
  let n := Entry.Name a in
  let upd (f : string -> LdapUser.t) := option_map f (first_value a) in
  let '(LdapUser.mk uidNumber uid cn gidNumber uuid upn displayName mail email
          emailAddress telephoneNumber mobile mobileTelephoneNumber
          registeredAddress postalAddress groupId address memberOf roles) := u in
  if String.eqb n "uidNumber" then
    upd (fun v => LdapUser.mk v uid cn gidNumber uuid upn displayName mail email emailAddress telephoneNumber mobile mobileTelephoneNumber registeredAddress postalAddress groupId address memberOf roles)
  else if String.eqb n "uid" then
    upd (fun v => LdapUser.mk uidNumber v cn gidNumber uuid upn displayName mail email emailAddress telephoneNumber mobile mobileTelephoneNumber registeredAddress postalAddress groupId address memberOf roles)
  else if String.eqb n "sAMAccountName" then
    upd (fun v => LdapUser.mk uidNumber v cn gidNumber uuid upn displayName mail email emailAddress telephoneNumber mobile mobileTelephoneNumber registeredAddress postalAddress groupId address memberOf roles)
  else if String.eqb n "cn" then
    upd (fun v => LdapUser.mk uidNumber uid v gidNumber uuid upn displayName mail email emailAddress telephoneNumber mobile mobileTelephoneNumber registeredAddress postalAddress groupId address memberOf roles)
  else if String.eqb n "gidNumber" then
    upd (fun v => LdapUser.mk uidNumber uid cn v uuid upn displayName mail email emailAddress telephoneNumber mobile mobileTelephoneNumber registeredAddress postalAddress groupId address memberOf roles)
  else if String.eqb n "entryUUID" then
    upd (fun v => LdapUser.mk uidNumber uid cn gidNumber v upn displayName mail email emailAddress telephoneNumber mobile mobileTelephoneNumber registeredAddress postalAddress groupId address memberOf roles)
  else if String.eqb n "objectGUID" then
    upd (fun v => LdapUser.mk uidNumber uid cn gidNumber v upn displayName mail email emailAddress telephoneNumber mobile mobileTelephoneNumber registeredAddress postalAddress groupId address memberOf roles)
  else if String.eqb n "userPrincipalName" then
    upd (fun v => LdapUser.mk uidNumber uid cn gidNumber uuid v displayName mail email emailAddress telephoneNumber mobile mobileTelephoneNumber registeredAddress postalAddress groupId address memberOf roles)
  else if String.eqb n "displayName" then
    upd (fun v => LdapUser.mk uidNumber uid cn gidNumber uuid upn v mail email emailAddress telephoneNumber mobile mobileTelephoneNumber registeredAddress postalAddress groupId address memberOf roles)
  else if String.eqb n "mail" then
    upd (fun v => LdapUser.mk uidNumber uid cn gidNumber uuid upn displayName v email emailAddress telephoneNumber mobile mobileTelephoneNumber registeredAddress postalAddress groupId address memberOf roles)
  else if String.eqb n "email" then
    upd (fun v => LdapUser.mk uidNumber uid cn gidNumber uuid upn displayName mail v emailAddress telephoneNumber mobile mobileTelephoneNumber registeredAddress postalAddress groupId address memberOf roles)
  else if String.eqb n "emailAddress" then
    upd (fun v => LdapUser.mk uidNumber uid cn gidNumber uuid upn displayName mail email v telephoneNumber mobile mobileTelephoneNumber registeredAddress postalAddress groupId address memberOf roles)
  else if String.eqb n "telephoneNumber" then
    upd (fun v => LdapUser.mk uidNumber uid cn gidNumber uuid upn displayName mail email emailAddress v mobile mobileTelephoneNumber registeredAddress postalAddress groupId address memberOf roles)
  else if String.eqb n "mobile" then
    upd (fun v => LdapUser.mk uidNumber uid cn gidNumber uuid upn displayName mail email emailAddress telephoneNumber v mobileTelephoneNumber registeredAddress postalAddress groupId address memberOf roles)
  else if String.eqb n "mobileTelephoneNumber" then
    upd (fun v => LdapUser.mk uidNumber uid cn gidNumber uuid upn displayName mail email emailAddress telephoneNumber mobile v registeredAddress postalAddress groupId address memberOf roles)
  else if String.eqb n "registeredAddress" then
    upd (fun v => LdapUser.mk uidNumber uid cn gidNumber uuid upn displayName mail email emailAddress telephoneNumber mobile mobileTelephoneNumber v postalAddress groupId address memberOf roles)
  else if String.eqb n "postalAddress" then
    upd (fun v => LdapUser.mk uidNumber uid cn gidNumber uuid upn displayName mail email emailAddress telephoneNumber mobile mobileTelephoneNumber registeredAddress v groupId address memberOf roles)
  else if String.eqb n "memberOf" then
    upd (fun v => LdapUser.mk uidNumber uid cn gidNumber uuid upn displayName mail email emailAddress telephoneNumber mobile mobileTelephoneNumber registeredAddress postalAddress groupId address v roles)
  else Some u.

Definition add_roles (rs : list string) (u : LdapUser.t) : LdapUser.t :=
  let '(LdapUser.mk uidNumber uid cn gidNumber uuid upn displayName mail email
          emailAddress telephoneNumber mobile mobileTelephoneNumber
          registeredAddress postalAddress groupId address memberOf roles) := u in
  LdapUser.mk uidNumber uid cn gidNumber uuid upn displayName mail email
    emailAddress telephoneNumber mobile mobileTelephoneNumber
    registeredAddress postalAddress groupId address memberOf (roles ++ rs).

(** the method [getFieldFromLdapAttribute] of [User] *)
Definition getFieldFromLdapAttribute (user : User.t) (attribute : string)
    : string :=
  if String.eqb attribute "uid" then User.Name user
  else if String.eqb attribute "sAMAccountName" then User.Name user
  else if String.eqb attribute "mail" then User.Email user
  else if String.eqb attribute "mobile" then User.Phone user
  else if String.eqb attribute "userPrincipalName" then User.Email user
  else "".

(** the method [buildAuthFilterString] of [Ldap] *)
Definition buildAuthFilterString (ldap : Ldap.t) (user : User.t) : string :=
  match Ldap.FilterFields ldap with
  | [] => ("(&" ++ Ldap.Filter ldap ++ "(uid=" ++ User.Name user ++ "))")%string
  | fields =>
      let filter := ("(&" ++ Ldap.Filter ldap ++ "(|")%string in
      let filter :=
        fold_left
          (fun filter field =>
             (filter ++ "(" ++ field ++ "="
                ++ getFieldFromLdapAttribute user field ++ ")")%string)
          fields filter in
      (filter ++ "))")%string
  end.

Section DirectoryOps.
Context {W : Type} {store : Store W} {dir : Directory W}.

Local Abbreviation St := (St.t W).
Local Abbreviation LdapConnT := (LdapConn.t Conn).

(** [fmt.Sprintf("%s:%d", ldap.Host, ldap.Port)] *)
Definition host_port (ldap : Ldap.t) : string :=
  (Ldap.Host ldap ++ ":" ++ NilZero.string_of_int (Z.to_int (Ldap.Port ldap)))%string.

Definition isMicrosoftAD_body (conn : Conn)
    : M St (bool * option error) (bool * option error) :=
  let SearchFilter := "(objectClass=*)" in
  let SearchAttributes :=
    ["vendorname"; "vendorversion"; "isGlobalCatalogReady"; "forestFunctionality"] in
  let searchReq :=
    SearchRequest.mk "" SearchRequest.ScopeBaseObject SearchFilter SearchAttributes in
  '(searchResult, err) <- query (Search conn searchReq) ;;
  match err with
  | Some e => return_ (false, Some e)
  | None =>
      entries <- deref searchResult "searchResult.Entries" ;;
      if Nat.eqb (length entries) 0 then return_ (false, None)
      else
        ldapServerTypes <-
          deref (fold_may_panic
                   (fun entry t =>
                      fold_may_panic server_type_attribute
                        (Entry.Attributes entry) t)
                   entries (ServerType.mk "" "" "" ""))
            "index out of range" ;;
        let isMicrosoft :=
          String.eqb (ServerType.Vendorname ldapServerTypes) ""
          && String.eqb (ServerType.Vendorversion ldapServerTypes) ""
          && String.eqb (ServerType.IsGlobalCatalogReady ldapServerTypes) "TRUE"
          && negb (String.eqb (ServerType.ForestFunctionality ldapServerTypes) "") in
        return_ (isMicrosoft, err)
  end.

Definition isMicrosoftAD {R} (conn : Conn) : M St R (bool * option error) :=
  call (isMicrosoftAD_body conn).

Definition GetLdapConn_body (ldap : Ldap.t)
    : M St (option LdapConnT * option error) (option LdapConnT * option error) :=
  '(conn, err) <-
    (if Ldap.EnableSsl ldap then
       tlsConf <-
         (if negb (String.eqb (Ldap.Cert ldap) "") then
            '(tlsConf, err) <- query (GetTlsConfigForCert (Ldap.Cert ldap)) ;;
            match err with
            | Some e => return_ (None, Some e)
            | None => ret tlsConf
            end
          else ret (Some empty_tls)) ;;
       tlsConf <-
         (if Ldap.EnableCryptographicAuth ldap then
            clientCerts <-
              (if negb (String.eqb (Ldap.ClientCert ldap) "") then
                 '(cert, err) <- query (getCertByName (Ldap.ClientCert ldap)) ;;
                 match err with
                 | Some e => return_ (None, Some e)
                 | None =>
                     match cert with
                     | None => return_ (None, Some ErrCertDoesNotExist)
                     | Some cert =>
                         if negb (String.eqb (Cert.Scope cert) scopeClientCert)
                         then return_ (None, Some ErrCertInvalidScope)
                         else
                           let '(clientCert, err) :=
                             X509KeyPair (Cert.Certificate cert)
                               (Cert.PrivateKey cert) in
                           match err with
                           | Some e => return_ (None, Some e)
                           | None => ret [clientCert]
                           end
                     end
                 end
               else ret []) ;;
            t <- deref tlsConf "tlsConf.Certificates" ;;
            ret (Some (set_Certificates clientCerts t))
          else ret tlsConf) ;;
       query (DialTLS (host_port ldap) tlsConf)
     else query (Dial (host_port ldap))) ;;
  match err with
  | Some e => return_ (None, Some e)
  | None =>
      c <- deref conn "conn" ;;
      err <-
        (if Ldap.EnableSsl ldap && Ldap.EnableCryptographicAuth ldap
         then query (ExternalBind c)
         else query (Bind c (Ldap.Username ldap) (Ldap.Password ldap))) ;;
      match err with
      | Some e => return_ (None, Some e)
      | None =>
          '(isAD, err) <- isMicrosoftAD c ;;
          match err with
          | Some e => return_ (None, Some e)
          | None => return_ (Some (LdapConn.mk c isAD), None)
          end
      end
  end.

Definition GetLdapConn {R} (ldap : Ldap.t)
    : M St R (option LdapConnT * option error) :=
  call (GetLdapConn_body ldap).

(** what the loop over [entry.Attributes] does for one attribute *)
Definition entry_attribute (ldapServer : Ldap.t) (attribute : Entry.Attribute)
    (user : LdapUser.t) : option LdapUser.t :=
  let user :=
    if Ldap.EnableRoleMapping ldapServer then
      fold_left
        (fun u value =>
           match role_mapping_roles (Ldap.RoleMappingItems ldapServer)
                   (Entry.Name attribute) value with
           | Some roles => add_roles roles u
           | None => u
           end)
        (Entry.Values attribute) user
    else user in
  if Ldap.EnableAttributeMapping ldapServer then
    Some (MapAttributeToUser attribute user (Ldap.AttributeMappingItems ldapServer))
  else ldap_user_attribute attribute user.

(** [for _, entry := range searchResult.Entries { ... ldapUsers =
    append(ldapUsers, user) }] *)
Fixpoint entries_to_users (ldapServer : Ldap.t) (entries : list Entry.t)
    : option (list LdapUser.t) :=
  match entries with
  | [] => Some []
  | entry :: rest =>
      match fold_may_panic (entry_attribute ldapServer)
              (Entry.Attributes entry) LdapUser.zero with
      | None => None
      | Some user =>
          option_map (cons user) (entries_to_users ldapServer rest)
      end
  end.

Definition GetLdapUsers_body (l : LdapConnT) (ldapServer : Ldap.t)
    (selectedUser : option User.t)
    : M St (list LdapUser.t * option error) (list LdapUser.t * option error) :=
  let SearchAttributes :=
    ["uidNumber"; "cn"; "sn"; "gidNumber"; "entryUUID"; "displayName"; "mail";
     "email"; "emailAddress"; "telephoneNumber"; "mobile";
     "mobileTelephoneNumber"; "registeredAddress"; "postalAddress"] in
  let SearchAttributes :=
    if LdapConn.IsAD l
    then SearchAttributes ++ ["sAMAccountName"] ++ ["userPrincipalName"]
    else SearchAttributes ++ ["uid"] in
  let SearchAttributes :=
    SearchAttributes
      ++ map RoleMappingItem.Attribute (Ldap.RoleMappingItems ldapServer) in
  let SearchAttributes :=
    if Ldap.EnableAttributeMapping ldapServer
    then SearchAttributes
           ++ attribute_mapping_keys (Ldap.AttributeMappingItems ldapServer)
    else SearchAttributes in
  let ldapFilter :=
    match selectedUser with
    | Some u => buildAuthFilterString ldapServer u
    | None => Ldap.Filter ldapServer
    end in
  let searchReq :=
    SearchRequest.mk (Ldap.BaseDn ldapServer) SearchRequest.ScopeWholeSubtree
      ldapFilter SearchAttributes in
  '(searchResult, err) <-
    query (SearchWithPaging (LdapConn.Conn_ l) searchReq 100) ;;
  match err with
  | Some e => return_ ([], Some e)
  | None =>
      entries <- deref searchResult "searchResult.Entries" ;;
      if Nat.eqb (length entries) 0 then return_ ([], Some "no result")
      else
        ldapUsers <- deref (entries_to_users ldapServer entries)
                       "index out of range" ;;
        return_ (ldapUsers, None)
  end.

Definition GetLdapUsers {R} (l : LdapConnT) (ldapServer : Ldap.t)
    (selectedUser : option User.t) : M St R (list LdapUser.t * option error) :=
  call (GetLdapUsers_body l ldapServer selectedUser).

Definition AutoAdjustLdapUser (users : list LdapUser.t) : list LdapUser.t :=
  map (fun user =>
         {| LdapUser.UidNumber := LdapUser.UidNumber user;
            LdapUser.Uid := LdapUser.Uid user;
            LdapUser.Cn := LdapUser.Cn user;
            LdapUser.GidNumber := "";
            LdapUser.Uuid := GetLdapUuid user;
            LdapUser.UserPrincipalName := "";
            LdapUser.DisplayName := LdapUser.DisplayName user;
            LdapUser.Mail := "";
            LdapUser.Email :=
              ReturnAnyNotEmpty [LdapUser.Email user; LdapUser.EmailAddress user;
                                 LdapUser.Mail user];
            LdapUser.EmailAddress := "";
            LdapUser.TelephoneNumber := "";
            LdapUser.Mobile :=
              ReturnAnyNotEmpty [LdapUser.Mobile user;
                                 LdapUser.MobileTelephoneNumber user;
                                 LdapUser.TelephoneNumber user];
            LdapUser.MobileTelephoneNumber := LdapUser.MobileTelephoneNumber user;
            LdapUser.RegisteredAddress :=
              ReturnAnyNotEmpty [LdapUser.PostalAddress user;
                                 LdapUser.RegisteredAddress user];
            LdapUser.PostalAddress := "";
            LdapUser.GroupId := LdapUser.GidNumber user;
            LdapUser.Address := LdapUser.Address user;
            LdapUser.MemberOf := "";
            LdapUser.Roles := LdapUser.Roles user |})
      users.

(** the two results of [SyncUserFromLdap]; a nil pointer is [None] *)
Definition LdapLookup : Type := (option LdapUser.t * option error)%type.

(** the loop over the configured servers (source lines 571-595) *)
Fixpoint try_servers (organization ldapId : string) (user : User.t)
    (password lang : string) (ldaps : list Ldap.t)
    : M St LdapLookup unit :=
  match ldaps with
  | [] => ret tt
  | ldapServer :: rest =>
      let next := try_servers organization ldapId user password lang rest in
      if Nat.ltb 0 (String.length ldapId)
         && negb (String.eqb (Ldap.Id ldapServer) ldapId)
      then next
      else
        '(conn, err) <- GetLdapConn ldapServer ;;
        match err with
        | Some _ => next
        | None =>
            c <- deref conn "conn" ;;
            '(res, _) <- GetLdapUsers c ldapServer (Some user) ;;
            if Nat.eqb (length res) 0 then next   (* conn.Close(); continue *)
            else
              '(_, err) <- query (CheckLdapUserPassword user password lang) ;;
              match err with
              | Some e => return_ (None, Some e)
              | None =>
                  '(_, _, err) <-
                    call (SyncLdapUsers organization (AutoAdjustLdapUser res)
                            (Ldap.Id ldapServer)) ;;
                  return_ (hd_error res, err)
              end
        end
  end.

Definition SyncUserFromLdap (organization ldapId userName password lang : string)
    : M St LdapLookup LdapLookup :=
  '(ldaps, err) <- query (GetLdaps organization) ;;
  match err with
  | Some e => return_ (None, Some e)
  | None =>
      let user :=
        {| User.Owner := ""; User.Name := userName; User.CreatedTime := "";
           User.Id := ""; User.Type_ := ""; User.DisplayName := "";
           User.Avatar := ""; User.Email := ""; User.Phone := "";
           User.CountryCode := ""; User.Region := ""; User.Address := [];
           User.Affiliation := ""; User.Tag := ""; User.Score := 0;
           User.IsAdmin := false; User.IsForbidden := false;
           User.IsDeleted := false; User.SignupApplication := "";
           User.Ldap := ""; User.Properties := [];
           User.SigninWrongTimes := 0 |} in
      try_servers organization ldapId user password lang ldaps ;;;
      return_ (None, None)
  end.

End DirectoryOps.

(** * Package [controllers]: the login controller *)

(** ** Data model *)

Module Application.
Record t : Type := mk {
  Name : string;
  Organization : string;
  Tags : list string;
  GrantTypes : list string;
  EnableSigninSession : bool
}.
End Application.

Module Provider.
Record t : Type := mk {
  Name : string;
  Category : string;
  Type_ : string
}.
End Provider.

Module UserInfo.
(** [idp.UserInfo] *)
Record t : Type := mk {
  Id : string;
  Username : string;
  DisplayName : string;
  Email : string;
  Phone : string;
  CountryCode : string;
  AvatarUrl : string;
  AdditionalInfo : list (string * string)
}.
Definition zero : t := mk "" "" "" "" "" "" "" [].
End UserInfo.

Module AuthForm.
(** [form.AuthForm], the decoded request body *)
Record t : Type := mk {
  Type_ : string;
  SigninMethod : string;
  Organization : string;
  Username : string;
  Password : string;
  Application : string;
  ClientId : string;
  Provider : string;
  Code : string;
  State : string;
  RedirectUri : string;
  Method : string;
  AutoSignin : bool;
  SamlRequest : string;
  SamlResponse : string;
  MfaType : string;
  Passcode : string;
  RecoveryCode : string;
  LdapId : string
}.
End AuthForm.

Module Code.
(** [object.Code] *)
Record t : Type := mk {
  Code_ : string;
  Message : string
}.
End Code.

Module Token.
(** [object.Token] *)
Record t : Type := mk {
  AccessToken : string;
  RefreshToken : string
}.
End Token.

Module Session.
(** [object.Session] *)
Record t : Type := mk {
  Owner : string;
  Name : string;
  Application : string;
  SessionId : list string
}.
End Session.

(** Modelled from the spec: the response-type constants [ResponseTypeLogin],
    [ResponseTypeCode], ... are declared in another file of package
    [controllers]; section 4.5 of the spec names the response types
    [login], [code], [token], [id_token], [saml] and [cas]. *)
Definition ResponseTypeLogin : string := "login".
Definition ResponseTypeCode : string := "code".
Definition ResponseTypeToken : string := "token".
Definition ResponseTypeIdToken : string := "id_token".
Definition ResponseTypeSaml : string := "saml".
Definition ResponseTypeCas : string := "cas".

(** the [interface{}] values the controller puts into a response *)
Inductive Value : Type :=
| VNil
| VString (s : string)
| VBool (b : bool)
| VPairs (kv : list (string * string))
| VUserInfo (u : UserInfo.t)
| VObject (kind : string) (json : string).

Module Response.
(** the JSON envelope [{status, msg, data, data2}] *)
Record t : Type := mk {
  Status : string;
  Msg : string;
  Data : Value;
  Data2 : Value
}.
End Response.

(** What a request handler writes to the client: the helper methods of the
    controller ([ResponseOk], [ResponseError], ...) are defined in another
    file and are kept as constructors; [ServeJSON r] is [c.Data["json"] = r;
    c.ServeJSON()] with [None] for a nil [*Response]. *)
Inductive Reply : Type :=
| ResponseOk (data : list Value)
| ResponseError (msg : string) (data : list Value)
| ResponseInternalServerError (msg : string)
| ResponseBadRequest (msg : string)
| ResponseUnprocessableEntity (msg : string)
| ServeJSON (resp : option Response.t).

(** a reply that reports a failure *)
Definition is_error_reply (r : Reply) : bool :=
  match r with
  | ResponseError _ _ | ResponseInternalServerError _
  | ResponseBadRequest _ | ResponseUnprocessableEntity _ => true
  | ResponseOk _ => false
  | ServeJSON (Some resp) => String.eqb (Response.Status resp) "error"
  | ServeJSON None => false
  end.

(** calls to collaborators that act on the outside world, with the
    arguments the properties talk about *)
Inductive Op : Type :=
| OpGetOAuthCode (userId clientId redirectUri scope state nonce challenge : string)
| OpGetTokenByUser (userId scope : string)
| OpGetSamlResponse (userId : string)
| OpGenerateCasToken (userId service : string)
| OpAddSession (sess : Session.t)
| OpGetToken (code : string)
| OpGetUserInfo
| OpSetUserOAuthProperties (user : option User.t) (providerType : string)
| OpLinkUserAccount (user : option User.t) (providerType externalId : string)
| OpMfaVerify (passcode : string)
| OpMfaRecover (recoveryCode : string).

(** what a request handler does, in order *)
Inductive Effect : Type :=
| Replied (r : Reply)
| AddReason (reason : string)          (* [record.AddReason] *)
| WithUsername (name : string)         (* [record.WithUsername] *)
| WithOrganization (name : string)     (* [record.WithOrganization] *)
| LogInfo (msg : string)               (* [util.LogInfo] *)
| Called (op : Op).

Definition is_reply (e : Effect) : bool :=
  match e with Replied _ => true | _ => false end.

Definition is_GetOAuthCode (e : Effect) : bool :=
  match e with Called (OpGetOAuthCode _ _ _ _ _ _ _) => true | _ => false end.

Definition is_GetToken (e : Effect) : bool :=
  match e with Called (OpGetToken _) => true | _ => false end.

Definition is_LinkUserAccount (e : Effect) : bool :=
  match e with Called (OpLinkUserAccount _ _ _) => true | _ => false end.

Module Request.
(** the part of the HTTP request the handlers read *)
Record t : Type := mk {
  (** [json.Unmarshal(c.Ctx.Input.RequestBody, &authForm)]; [None] when
      the body does not decode *)
  Body : option AuthForm.t;
  (** [c.Input().Get(key)] *)
  Input : string -> string;
  (** [c.Ctx.Request.Host] *)
  Host : string;
  (** [c.GetAcceptLanguage()] *)
  AcceptLanguage : string;
  (** [c.Ctx.Input.CruSession.SessionID()] *)
  SessionID : string
}.
End Request.

(** ** Collaborators of the controller *)

(** The server-side session of the request.  The accessors are methods of
    the controller defined in another file; the session is opaque. *)
Class WebSession (Sess : Type) : Type := {
  GetSessionUsername : Sess -> string;
  SetSessionUsername : string -> Sess -> Sess;
  getMfaUserSession : Sess -> string;
  setMfaUserSession : string -> Sess -> Sess;
  getChangePasswordUserSession : Sess -> string;
  setChangePasswordUserSession : string -> Sess -> Sess;
  setExpireForSession : Sess -> Sess;
  getSid : string -> Sess -> string * Sess
}.

(** a claims map ([map[string]interface{}]); [None] is the nil map *)
Definition AuthData : Type := option (list (string * string)).

(** [maps.Copy(dst, src)]: writing into a nil map panics *)
Definition maps_Copy (dst : AuthData) (src : list (string * string))
    : option AuthData :=
  match dst, src with
  | _, [] => Some dst
  | None, _ :: _ => None
  | Some d, _ =>
      Some (Some (filter (fun kv => negb (string_inb (fst kv) (map fst src))) d
                    ++ src))
  end.

(** Functions of packages [object], [idp], [conf], [util] and [jwt] that
    the controller calls.  A function that can change the outside world
    takes and returns it; the others only read it. *)
Class Backend (W : Type) : Type := {
  (** [c.T(key)] for a request language, and [fmt.Sprintf] with a format
      that is only known at run time *)
  T : string -> string -> string;
  Sprintf : string -> list string -> string;
  User_GetId : User.t -> string;
  util_GetId : string -> string -> string;
  StructToJson : AuthForm.t -> string;
  GetConfigString : string -> string;
  EqualFold : string -> string -> bool;
  InSlice : list string -> string -> bool;
  IsGlobalAdmin : User.t -> bool;
  IsPasswordChangeRequired : User.t -> bool;
  HasPromptPage : Application.t -> bool;
  IsGrantTypeValid : string -> list string -> bool;
  wrapErrorResponse : option error -> Response.t;
  SigninWrongTimesLimit : Z;
  NextChangePasswordForm : string;
  (* subscriptions *)
  Subscription : Type;
  Subscription_State : Subscription -> string;
  Subscription_json : Subscription -> string;
  SubStateActive : string;
  SubStatePending : string;
  Pricing : Type;
  Pricing_json : Pricing -> string;
  GetSubscriptionsByUser : string -> string -> W -> list Subscription * option error;
  GetApplicationDefaultPricing : string -> string -> W -> option Pricing * option error;
  (* users, applications, providers *)
  CheckLoginPermission : string -> Application.t -> W -> bool * option error;
  GetApplication : string -> W -> option Application.t * option error;
  GetApplicationByClientId : string -> W -> option Application.t * option error;
  GetOrganization : string -> W -> option Organization.t * option error;
  GetProvider : string -> W -> option Provider.t * option error;
  GetUser : string -> W -> option User.t * option error;
  GetUserByField : string -> string -> string -> W -> option User.t * option error;
  GetUserByFields : string -> string -> W -> option User.t * option error;
  ProviderItem : Type;
  GetProviderItem : Application.t -> string -> option ProviderItem;
  IsProviderVisible : option ProviderItem -> bool;
  (* completion artifacts *)
  GetOAuthCode :
    string -> string -> string -> string -> string -> string -> string ->
    string -> string -> string -> string -> W ->
    (option Code.t * option error) * W;
  GetTokenByUser :
    Application.t -> User.t -> string -> string -> string -> W ->
    (option Token.t * option error) * W;
  GetSamlResponse :
    Application.t -> User.t -> string -> string -> W ->
    (string * string * string * option error) * W;
  GenerateCasToken : string -> string -> W -> (string * option error) * W;
  AddSession : Session.t -> W -> (bool * option error) * W;
  (* external identity providers *)
  IdpInfo : Type;
  IdpInfo_Type : IdpInfo -> string;
  IdProvider : Type;
  HttpClient : Type;
  OAuthToken : Type;
  Jwt : Type;
  FromProviderToIdpInfo : Provider.t -> W -> IdpInfo;
  GetIdProvider : IdpInfo -> string -> option IdProvider;
  SetHttpClient : HttpClient -> IdProvider -> IdProvider;
  ProxyHttpClient : HttpClient;
  GetProviderHttpClient : IdpInfo -> W -> HttpClient * option error;
  GetToken : IdProvider -> string -> W -> (option OAuthToken * option error) * W;
  Token_Valid : option OAuthToken -> bool;
  Token_AccessToken : OAuthToken -> string;
  Token_id_token : OAuthToken -> string;
  GetUserInfo :
    IdProvider -> option OAuthToken -> W -> (option UserInfo.t * option error) * W;
  ParseSigned : string -> option Jwt;
  UnsafeClaimsWithoutVerification : Jwt -> AuthData -> AuthData * option error;
  ParseSamlResponse :
    string -> Provider.t -> string -> W ->
    option UserInfo.t * AuthData * option error;
  SetUserOAuthProperties :
    option Organization.t -> option User.t -> string -> UserInfo.t -> W ->
    (bool * option error) * W;
  LinkUserAccount :
    option User.t -> string -> string -> W -> (bool * option error) * W;
  (* multi-factor authentication *)
  MfaProps : Type;
  MfaUtil : Type;
  GetPreferredMfaProps : User.t -> bool -> MfaProps;
  GetMfaUtil : string -> MfaProps -> option MfaUtil;
  MfaVerify : MfaUtil -> string -> W -> option error * W;
  MfaRecover : User.t -> string -> W -> option error * W
}.

Module CSt.
(** the state a request handler works on *)
Record t (W Sess : Type) : Type := mk {
  world : W;
  sess : Sess;
  effects : list Effect    (* oldest first *)
}.
Arguments mk {W Sess}.
Arguments world {W Sess}.
Arguments sess {W Sess}.
Arguments effects {W Sess}.
End CSt.

Section ControllerMonad.
Context {W Sess : Type}.

Local Abbreviation CSt := (CSt.t W Sess).

Definition effect {R} (e : Effect) : M CSt R unit :=
  modify (fun s => CSt.mk (CSt.world s) (CSt.sess s) (CSt.effects s ++ [e])).

Definition reply {R} (r : Reply) : M CSt R unit := effect (Replied r).

(** answer the request and [return] *)
Definition reject {R A} (r : Reply) (result : R) : M CSt R A :=
  reply r ;;; return_ result.

(** a collaborator that only reads the outside world *)
Definition ask {R A} (f : W -> A) : M CSt R A :=
  gets (fun s => f (CSt.world s)).

(** a collaborator that may change the outside world; the call is logged *)
Definition act {R A} (op : Op) (f : W -> A * W) : M CSt R A :=
  effect (Called op) ;;;
  (fun s => let (a, w') := f (CSt.world s) in
            (Val a, CSt.mk w' (CSt.sess s) (CSt.effects s))).

Definition session_get {R A} (f : Sess -> A) : M CSt R A :=
  gets (fun s => f (CSt.sess s)).

Definition session_set {R} (f : Sess -> Sess) : M CSt R unit :=
  modify (fun s => CSt.mk (CSt.world s) (f (CSt.sess s)) (CSt.effects s)).

Definition session_do {R A} (f : Sess -> A * Sess) : M CSt R A :=
  fun s => let (a, se') := f (CSt.sess s) in
           (Val a, CSt.mk (CSt.world s) se' (CSt.effects s)).

Definition when {R} (b : bool) (m : M CSt R unit) : M CSt R unit :=
  if b then m else ret tt.

End ControllerMonad.

(** ** [HandleLoggedIn] *)

Definition codeToResponse (code : Code.t) : Response.t :=
  if String.eqb (Code.Code_ code) "" then
    Response.mk "error" (Code.Message code) (VString (Code.Code_ code)) VNil
  else Response.mk "ok" "" (VString (Code.Code_ code)) VNil.

Definition tokenToResponse (token : Token.t) : Response.t :=
  if String.eqb (Token.AccessToken token) "" then
    Response.mk "error" "fail to get accessToken"
      (VString (Token.AccessToken token)) VNil
  else
    Response.mk "ok" "" (VString (Token.AccessToken token))
      (VString (Token.RefreshToken token)).

Section HandleLoggedIn.
Context {W Sess : Type} {backend : Backend W} {web : WebSession Sess}.
Variable req : Request.t.

Local Abbreviation CSt := (CSt.t W Sess).
(** [HandleLoggedIn] has the named result [resp *Response] *)
Local Abbreviation Resp := (option Response.t).

Definition tr (key : string) : string := T (Request.AcceptLanguage req) key.

(** source lines 84-90: the tag check *)
Definition check_tag (application : Application.t) (user : User.t)
    : M CSt Resp unit :=
  if negb (IsGlobalAdmin user) && negb (User.IsAdmin user)
     && Nat.ltb 0 (length (Application.Tags application))
  then
    if negb (InSlice (Application.Tags application) (User.Tag user)) then
      reject
        (ResponseError
           (Sprintf (tr "auth:User's tag: %s is not listed in the application's tags")
              [User.Tag user]) [])
        None
    else ret tt
  else ret tt.

(** source lines 93-130: a paid user needs an active subscription *)
Definition check_subscription (application : Application.t) (user : User.t)
    : M CSt Resp unit :=
  if String.eqb (User.Type_ user) "paid-user" then
    '(subscriptions, err) <-
      ask (GetSubscriptionsByUser (User.Owner user) (User.Name user)) ;;
    match err with
    | Some _ => reject (ResponseInternalServerError "internal server error") None
    | None =>
        let existActiveSubscription :=
          existsb (fun sub => String.eqb (Subscription_State sub) SubStateActive)
            subscriptions in
        if negb existActiveSubscription then
          match find (fun sub => String.eqb (Subscription_State sub) SubStatePending)
                  subscriptions with
          | Some sub =>
              reject
                (ResponseOk [VString "BuyPlanResult";
                             VObject "Subscription" (Subscription_json sub)])
                None
          | None =>
              '(pricing, err) <-
                ask (GetApplicationDefaultPricing
                       (Application.Organization application)
                       (Application.Name application)) ;;
              match err with
              | Some _ =>
                  reject (ResponseInternalServerError "internal server error") None
              | None =>
                  match pricing with
                  | None =>
                      reject
                        (ResponseError
                           (Sprintf
                              (tr "auth:paid-user %s does not have active or pending subscription and the application: %s does not have default pricing")
                              [User.Name user; Application.Name application]) [])
                        None
                  | Some p =>
                      reject
                        (ResponseOk [VString "SelectPlan";
                                     VObject "Pricing" (Pricing_json p)])
                        None
                  end
              end
          end
        else ret tt
    end
  else ret tt.

(** [if application.EnableSigninSession || application.HasPromptPage() {
    c.SetSessionUsername(userId) }] *)
Definition sign_in_for_prompt (application : Application.t) (userId : string)
    : M CSt Resp unit :=
  when (Application.EnableSigninSession application || HasPromptPage application)
    (session_set (SetSessionUsername userId)).

(** source lines 136-161: the authorization-code completion *)
Definition complete_code (application : Application.t) (userId sid : string)
    : M CSt Resp Response.t :=
  let clientId := Request.Input req "clientId" in
  let responseType := Request.Input req "responseType" in
  let redirectUri := Request.Input req "redirectUri" in
  let scope := Request.Input req "scope" in
  let state := Request.Input req "state" in
  let nonce := Request.Input req "nonce" in
  let challengeMethod := Request.Input req "code_challenge_method" in
  let codeChallenge := Request.Input req "code_challenge" in
  if negb (String.eqb challengeMethod "S256")
     && negb (String.eqb challengeMethod "null")
     && negb (String.eqb challengeMethod "")
  then
    reject (ResponseError (tr "auth:Challenge method should be S256") []) None
  else
    '(code, err) <-
      act (OpGetOAuthCode userId clientId redirectUri scope state nonce codeChallenge)
        (GetOAuthCode userId clientId responseType redirectUri scope state nonce
           codeChallenge (Request.Host req) sid (Request.AcceptLanguage req)) ;;
    match err with
    | Some e => reject (ResponseError e [VNil]) None
    | None =>
        c <- deref code "code.Code" ;;
        let resp := codeToResponse c in
        sign_in_for_prompt application userId ;;;
        ret resp
    end.

(** source lines 132-201: the fan-out by response type; the value is the
    response assigned to [resp] *)
Definition complete (application : Application.t) (user : User.t)
    (form : AuthForm.t) (userId sid : string) : M CSt Resp Response.t :=
  let ty := AuthForm.Type_ form in
  if String.eqb ty ResponseTypeLogin then
    session_set (SetSessionUsername userId) ;;;
    effect (LogInfo ("API: [" ++ userId ++ "] signed in")%string) ;;;
    ret (Response.mk "ok" "" (VString userId) VNil)
  else if String.eqb ty ResponseTypeCode then
    complete_code application userId sid
  else if String.eqb ty ResponseTypeToken || String.eqb ty ResponseTypeIdToken then
    if negb (IsGrantTypeValid ty (Application.GrantTypes application)) then
      ret (Response.mk "error"
             ("error: grant_type: " ++ ty ++ " is not supported in this application")%string
             (VString "") VNil)
    else
      let scope := Request.Input req "scope" in
      '(token, _) <-
        act (OpGetTokenByUser userId scope)
          (GetTokenByUser application user scope (Request.Host req) sid) ;;
      t <- deref token "token.AccessToken" ;;
      ret (tokenToResponse t)
  else if String.eqb ty ResponseTypeSaml then
    '(res, redirectUrl, method, err) <-
      act (OpGetSamlResponse userId)
        (GetSamlResponse application user (AuthForm.SamlRequest form)
           (Request.Host req)) ;;
    match err with
    | Some e => reject (ResponseError e [VNil]) None
    | None =>
        let resp :=
          Response.mk "ok" "" (VString res)
            (VPairs [("redirectUrl", redirectUrl); ("method", method)]) in
        sign_in_for_prompt application userId ;;;
        ret resp
    end
  else if String.eqb ty ResponseTypeCas then
    let service := Request.Input req "service" in
    let resp := wrapErrorResponse None in
    resp <-
      (if negb (String.eqb service "") then
         '(st, err) <-
           act (OpGenerateCasToken userId service)
             (GenerateCasToken userId service) ;;
         match err with
         | Some e => ret (wrapErrorResponse (Some e))
         | None =>
             ret (Response.mk (Response.Status resp) (Response.Msg resp)
                    (VString st) (Response.Data2 resp))
         end
       else ret resp) ;;
    sign_in_for_prompt application userId ;;;
    ret resp
  else
    ret (wrapErrorResponse (Some ("unknown response type: " ++ ty)%string)).

(** source lines 203-221: session expiry and the session entry *)
Definition record_session (application : Application.t) (user : User.t)
    (form : AuthForm.t) (resp : Response.t) : M CSt Resp Resp :=
  when (String.eqb (Response.Status resp) "ok" && negb (AuthForm.AutoSignin form))
    (session_set setExpireForSession) ;;;
  (if String.eqb (Response.Status resp) "ok" then
     let session :=
       {| Session.Owner := User.Owner user;
          Session.Name := User.Name user;
          Session.Application := Application.Name application;
          Session.SessionId := [Request.SessionID req] |} in
     '(_, err) <- act (OpAddSession session) (AddSession session) ;;
     match err with
     | Some e =>
         (* a bare [return]: the named result keeps the response *)
         reject (ResponseError e [VNil]) (Some resp)
     | None => ret tt
     end
   else ret tt) ;;;
  return_ (Some resp).

Definition HandleLoggedIn_body (application : Application.t) (user : User.t)
    (form : AuthForm.t) : M CSt Resp Resp :=
  let userId := User_GetId user in
  sid <- session_do (getSid userId) ;;
  if String.eqb (User.Type_ user) "invited-user" then
    reject (ResponseError (tr "auth:Unauthorized operation") []) None
  else
    '(allowed, err) <- ask (CheckLoginPermission userId application) ;;
    match err with
    | Some e => reject (ResponseError e [VNil]) None
    | None =>
        if negb allowed then
          reject (ResponseError (tr "auth:Unauthorized operation") []) None
        else
          check_tag application user ;;;
          check_subscription application user ;;;
          resp <- complete application user form userId sid ;;
          record_session application user form resp
    end.

Definition HandleLoggedIn {R} (application : Application.t) (user : User.t)
    (form : AuthForm.t) : M CSt R Resp :=
  call (HandleLoggedIn_body application user form).

End HandleLoggedIn.

(** ** [Login] *)

(** the controller method [getCurrentUser], defined in another file *)
Class CurrentUser (W Sess : Type) : Type := {
  getCurrentUser : Sess -> W -> option User.t
}.

Section Login.
Context {W Sess : Type} {backend : Backend W} {web : WebSession Sess}
  {current : CurrentUser W Sess}.
Variable req : Request.t.

Local Abbreviation CSt := (CSt.t W Sess).

Definition isProxyProviderType (providerType : string) : bool :=
  existsb (fun v => EqualFold v providerType)
    ["GitHub"; "Google"; "Facebook"; "LinkedIn"; "Steam"; "Line"; "Amazon";
     "Instagram"; "TikTok"; "Twitter"; "Uber"; "Yahoo"].

(** [setHttpClient]; the provider is returned as the call leaves it *)
Definition setHttpClient {R} (idProvider : IdProvider) (providerInfo : IdpInfo)
    : M CSt R (IdProvider * option error) :=
  if isProxyProviderType (IdpInfo_Type providerInfo) then
    ret (SetHttpClient ProxyHttpClient idProvider, None)
  else
    '(client, err) <- ask (GetProviderHttpClient providerInfo) ;;
    match err with
    | Some e => ret (idProvider, Some e)
    | None => ret (SetHttpClient client idProvider, None)
    end.

(** what the provider branch has established when it reaches the
    sign-up / link decision of source line 706 *)
Record ProviderCtx : Type := mkProviderCtx {
  ctx_application : Application.t;
  ctx_organization : option Organization.t;
  ctx_provider : Provider.t;
  ctx_providerItem : option ProviderItem;
  ctx_userInfo : option UserInfo.t;
  ctx_authData : AuthData
}.

Definition internal_error {A} (reason : string) : M CSt unit A :=
  effect (AddReason reason) ;;;
  reject (ResponseInternalServerError "internal server error") tt.

(** source lines 625-703: the OAuth / Web3 exchange *)
Definition oauth_exchange (authForm : AuthForm.t) (application : Application.t)
    (provider : Provider.t) : M CSt unit (option UserInfo.t * AuthData) :=
  let authData : AuthData := None in
  idpInfo <- ask (FromProviderToIdpInfo provider) ;;
  match GetIdProvider idpInfo (AuthForm.RedirectUri authForm) with
  | None =>
      effect (AddReason ("Login error: provider type is not supported: "
                           ++ Provider.Type_ provider)%string) ;;;
      reject (ResponseError
                (Sprintf (tr req "storage:The provider type: %s is not supported")
                   [Provider.Type_ provider]) []) tt
  | Some idProvider =>
      '(idProvider, err) <- setHttpClient idProvider idpInfo ;;
      match err with
      | Some e => internal_error ("Login error: " ++ e)%string
      | None =>
          if negb (String.eqb (AuthForm.State authForm) (GetConfigString "authState"))
             && negb (String.eqb (AuthForm.State authForm) (Application.Name application))
          then
            effect (AddReason ("Login error: mismatch state: "
                                 ++ GetConfigString "authState" ++ " got: "
                                 ++ AuthForm.State authForm)%string) ;;;
            reject (ResponseError
                      (Sprintf (tr req "auth:State expected: %s, but got: %s")
                         [GetConfigString "authState"; AuthForm.State authForm]) [])
              tt
          else
            '(token, err) <-
              act (OpGetToken (AuthForm.Code authForm))
                (GetToken idProvider (AuthForm.Code authForm)) ;;
            match err with
            | Some e => internal_error ("Login error: " ++ e)%string
            | None =>
                if negb (Token_Valid token) then
                  effect (AddReason "Login error: invalid token") ;;;
                  reject (ResponseError (tr req "auth:Invalid token") []) tt
                else
                  '(userInfo, err) <-
                    act OpGetUserInfo (GetUserInfo idProvider token) ;;
                  match err with
                  | Some e =>
                      effect (AddReason ("Login error: " ++ e)%string) ;;;
                      reject (ResponseError
                                (Sprintf (tr req "auth:Failed to login in: %s") [e])
                                []) tt
                  | None =>
                      if String.eqb (Provider.Category provider) "OAuth" then
                        tok <- deref token "token.AccessToken" ;;
                        authData <-
                          match ParseSigned (Token_AccessToken tok) with
                          | Some jwtToken =>
                              let '(authData, err) :=
                                UnsafeClaimsWithoutVerification jwtToken authData in
                              match err with
                              | Some _ =>
                                  effect (AddReason "Login error: invalid token") ;;;
                                  reject (ResponseError (tr req "auth:Invalid token") [])
                                    tt
                              | None => ret authData
                              end
                          | None => ret authData
                          end ;;
                        if String.eqb (Provider.Type_ provider) "OpenID" then
                          ui <- deref userInfo "userInfo.AdditionalInfo" ;;
                          if Nat.eqb (length (UserInfo.AdditionalInfo ui)) 0
                          then ret (userInfo, authData)
                          else
                          authData <-
                            deref (maps_Copy authData (UserInfo.AdditionalInfo ui))
                              "assignment to entry in nil map" ;;
                          jwtIdToken <-
                            deref (ParseSigned (Token_id_token tok)) "jwtIdToken" ;;
                          let '(authData, err) :=
                            UnsafeClaimsWithoutVerification jwtIdToken authData in
                          match err with
                          | Some _ =>
                              effect (AddReason "Login error: invalid id token") ;;;
                              reject (ResponseError (tr req "auth:Invalid id token") [])
                                tt
                          | None => ret (userInfo, authData)
                          end
                        else ret (userInfo, authData)
                      else ret (userInfo, authData)
                  end
            end
      end
  end.

(** source lines 565-704: resolve application, organization and provider,
    then obtain the external identity *)
Definition provider_prelude (authForm : AuthForm.t) : M CSt unit ProviderCtx :=
  '(application, err) <-
    (if negb (String.eqb (AuthForm.ClientId authForm) "")
     then ask (GetApplicationByClientId (AuthForm.ClientId authForm))
     else ask (GetApplication ("admin/" ++ AuthForm.Application authForm)%string)) ;;
  match err with
  | Some e => internal_error ("Login error: " ++ e)%string
  | None =>
      (* [err] is nil here, so [err.Error()] of source line 585 panics *)
      application <- deref application "err.Error" ;;
      '(organization, err) <-
        ask (GetOrganization
               (util_GetId "admin" (Application.Organization application))) ;;
      match err with
      | Some e =>
          effect (AddReason ("Login error: " ++ e)%string) ;;;
          reply (ResponseError (tr req e) [])
      | None => ret tt
      end ;;;
      '(provider, err) <-
        ask (GetProvider (util_GetId "admin" (AuthForm.Provider authForm))) ;;
      match err with
      | Some e => internal_error ("Login error: " ++ e)%string
      | None =>
          provider <- deref provider "provider.Name" ;;
          let providerItem := GetProviderItem application (Provider.Name provider) in
          if negb (IsProviderVisible providerItem) then
            effect (AddReason
                      ("Login error: provider is not enabled for the application: "
                         ++ Provider.Name provider)%string) ;;;
            reject (ResponseError
                      (Sprintf
                         (tr req "auth:The provider: %s is not enabled for the application")
                         [Provider.Name provider]) []) tt
          else
            let category := Provider.Category provider in
            if String.eqb category "SAML" then
              '(userInfo, authData, err) <-
                ask (ParseSamlResponse (AuthForm.SamlResponse authForm) provider
                       (Request.Host req)) ;;
              match err with
              | Some e => internal_error ("SAML login error: " ++ e)%string
              | None =>
                  ret (mkProviderCtx application organization provider
                         providerItem userInfo authData)
              end
            else if String.eqb category "OAuth" || String.eqb category "Web3" then
              '(userInfo, authData) <- oauth_exchange authForm application provider ;;
              ret (mkProviderCtx application organization provider providerItem
                     userInfo authData)
            else
              ret (mkProviderCtx application organization provider providerItem
                     (Some UserInfo.zero) None)
      end
  end.

(** source lines 931-985: a provider login that is not a sign-up links the
    external identity to the user of the current session *)
Definition link_branch (ctx : ProviderCtx) : M CSt unit Response.t :=
  let application := ctx_application ctx in
  let provider := ctx_provider ctx in
  userId <- session_get GetSessionUsername ;;
  if String.eqb userId "" then
    effect (AddReason "Login error: invalid username or password") ;;;
    userInfo <- deref (ctx_userInfo ctx) "userInfo.Id" ;;
    reject (ResponseError
              (Sprintf (tr req "general:Invalid username or password/code")
                 [util_GetId (Application.Organization application)
                    (UserInfo.Id userInfo)])
              [VUserInfo userInfo]) tt
  else
    userInfo <- deref (ctx_userInfo ctx) "userInfo.Id" ;;
    '(oldUser, err) <-
      ask (GetUserByField (Application.Organization application)
             (Provider.Type_ provider) (UserInfo.Id userInfo)) ;;
    match err with
    | Some e => internal_error ("Login error: " ++ e)%string
    | None =>
        match oldUser with
        | Some oldUser =>
            effect (AddReason
                      ("Login error: provider: " ++ Provider.Type_ provider
                         ++ " and username: " ++ UserInfo.Username userInfo
                         ++ " (" ++ UserInfo.DisplayName userInfo
                         ++ ") is already linked to another account "
                         ++ User.Name oldUser ++ " (" ++ User.DisplayName oldUser
                         ++ ")")%string) ;;;
            reject (ResponseError
                      (Sprintf
                         (tr req "auth:The account for provider: %s and username: %s (%s) is already linked to another account: %s (%s)")
                         [Provider.Type_ provider; UserInfo.Username userInfo;
                          UserInfo.DisplayName userInfo; User.Name oldUser;
                          User.DisplayName oldUser]) []) tt
        | None =>
            '(user, err) <- ask (GetUser userId) ;;
            match err with
            | Some e => internal_error ("Login error: " ++ e)%string
            | None =>
                '(_, err) <-
                  act (OpSetUserOAuthProperties user (Provider.Type_ provider))
                    (SetUserOAuthProperties (ctx_organization ctx) user
                       (Provider.Type_ provider) userInfo) ;;
                match err with
                | Some e => internal_error ("Login error: " ++ e)%string
                | None =>
                    '(isLinked, err) <-
                      act (OpLinkUserAccount user (Provider.Type_ provider)
                             (UserInfo.Id userInfo))
                        (LinkUserAccount user (Provider.Type_ provider)
                           (UserInfo.Id userInfo)) ;;
                    match err with
                    | Some e => internal_error ("Login error: " ++ e)%string
                    | None =>
                        if isLinked then
                          ret (Response.mk "ok" "" (VBool isLinked) VNil)
                        else
                          ret (Response.mk "error" "Failed to link user account"
                                 (VBool isLinked) VNil)
                    end
                end
            end
        end
    end.

End Login.

Section LoginBranches.
Context {W Sess : Type} {backend : Backend W} {web : WebSession Sess}
  {current : CurrentUser W Sess}.
Variable req : Request.t.

(** The two parts of [Login] that are not embedded: the branch for a form
    with a user name (password or verification code, source lines 344-563)
    and the sign-up half of the provider branch (source lines 706-930).
    Each yields the response that [Login] serves at its end, or returns. *)
Variable password_branch : AuthForm.t -> M (CSt.t W Sess) unit (option Response.t).
Variable signup_branch :
  AuthForm.t -> ProviderCtx -> M (CSt.t W Sess) unit (option Response.t).

Local Abbreviation CSt := (CSt.t W Sess).

(** [GetApplication("admin/" + authForm.Application)] with the two failure
    replies that follow it in the MFA, change-password and quick sign-in
    branches *)
Definition load_application (authForm : AuthForm.t) (missing : string)
    : M CSt unit Application.t :=
  '(application, err) <-
    ask (GetApplication ("admin/" ++ AuthForm.Application authForm)%string) ;;
  match err with
  | Some e => internal_error ("Login error: " ++ e)%string
  | None =>
      match application with
      | None =>
          effect (AddReason missing) ;;;
          reject (ResponseError
                    (Sprintf (tr req "auth:The application: %s does not exist")
                       [AuthForm.Application authForm]) []) tt
      | Some application => ret application
      end
  end.

(** source lines 1001-1030: the second factor *)
Definition check_second_factor (authForm : AuthForm.t) (user : User.t)
    : M CSt unit unit :=
  if negb (String.eqb (AuthForm.Passcode authForm) "") then
    match GetMfaUtil (AuthForm.MfaType authForm) (GetPreferredMfaProps user false) with
    | None =>
        effect (AddReason "Login error: invalid multi-factor authentication type") ;;;
        reject (ResponseError "Invalid multi-factor authentication type" []) tt
    | Some mfaUtil =>
        err <- act (OpMfaVerify (AuthForm.Passcode authForm))
                 (MfaVerify mfaUtil (AuthForm.Passcode authForm)) ;;
        match err with
        | Some _ =>
            effect (AddReason "OTP was wrong") ;;;
            reject (ResponseUnprocessableEntity "OTP was wrong") tt
        | None => ret tt
        end
    end
  else if negb (String.eqb (AuthForm.RecoveryCode authForm) "") then
    err <- act (OpMfaRecover (AuthForm.RecoveryCode authForm))
             (MfaRecover user (AuthForm.RecoveryCode authForm)) ;;
    match err with
    | Some e => internal_error ("Login error: " ++ e)%string
    | None => ret tt
    end
  else
    effect (AddReason "missing passcode or recovery code") ;;;
    reject (ResponseError "missing passcode or recovery code" []) tt.

(** source lines 1032-1057: what the MFA branch does once the second
    factor is accepted *)
Definition mfa_complete (authForm : AuthForm.t) (user : User.t)
    : M CSt unit (option Response.t) :=
  application <-
    load_application authForm
      ("Login error: application: " ++ AuthForm.Application authForm
         ++ " doens not exists")%string ;;
  if IsPasswordChangeRequired user then
    session_set (setChangePasswordUserSession (User_GetId user)) ;;;
    session_set (setMfaUserSession "") ;;;
    reject (ResponseOk [VString NextChangePasswordForm]) tt
  else
    resp <- HandleLoggedIn req application user authForm ;;
    session_set (setMfaUserSession "") ;;;
    effect (WithOrganization (Application.Organization application)) ;;;
    effect (WithUsername (User.Name user)) ;;;
    effect (AddReason "MFA success") ;;;
    ret resp.

(** source lines 986-1057: the branch taken when the session carries the
    MFA-pending marker *)
Definition mfa_branch (authForm : AuthForm.t) : M CSt unit (option Response.t) :=
  mfaUser <- session_get getMfaUserSession ;;
  '(user, err) <- ask (GetUser mfaUser) ;;
  match err with
  | Some e => internal_error ("Login error: " ++ e)%string
  | None =>
      match user with
      | None =>
          effect (AddReason "Login error: expired user session") ;;;
          reject (ResponseError "expired user session" []) tt
      | Some user =>
          check_second_factor authForm user ;;;
          mfa_complete authForm user
      end
  end.

(** source lines 1058-1096 *)
Definition change_password_branch (authForm : AuthForm.t)
    : M CSt unit (option Response.t) :=
  cpUser <- session_get getChangePasswordUserSession ;;
  '(user, err) <- ask (GetUser cpUser) ;;
  match err with
  | Some e => internal_error ("Login error: " ++ e)%string
  | None =>
      match user with
      | None =>
          effect (AddReason "expired user session") ;;;
          reject (ResponseError "expired user session" []) tt
      | Some user =>
          if IsPasswordChangeRequired user then
            reject (ResponseOk [VString NextChangePasswordForm]) tt
          else
            application <-
              load_application authForm
                ("Login error: application " ++ AuthForm.Application authForm
                   ++ " does not exist")%string ;;
            resp <- HandleLoggedIn req application user authForm ;;
            session_set (setChangePasswordUserSession "") ;;;
            effect (WithOrganization (Application.Organization application)) ;;;
            effect (WithUsername (User.Name user)) ;;;
            effect (AddReason "Changed password") ;;;
            ret resp
      end
  end.

(** source lines 1097-1125 *)
Definition quick_branch (authForm : AuthForm.t) : M CSt unit (option Response.t) :=
  sessionUser <- session_get GetSessionUsername ;;
  if negb (String.eqb sessionUser "") then
    application <-
      load_application authForm
        ("Login error: application " ++ AuthForm.Application authForm
           ++ " does not exist")%string ;;
    user <- (fun s => (Val (getCurrentUser (CSt.sess s) (CSt.world s)), s)) ;;
    user <- deref user "user.GetId" ;;
    resp <- HandleLoggedIn req application user authForm ;;
    effect (WithOrganization (Application.Organization application)) ;;;
    effect (WithUsername (User.Name user)) ;;;
    effect (AddReason "Quick sign in") ;;;
    ret resp
  else
    effect (AddReason
              "Login error: Unknown authentication type (not password or provider)") ;;;
    reject (ResponseError
              (Sprintf
                 (tr req "auth:Unknown authentication type (not password or provider), form = %s")
                 [StructToJson authForm]) []) tt.

(** source lines 564-985 *)
Definition provider_branch (authForm : AuthForm.t)
    : M CSt unit (option Response.t) :=
  ctx <- provider_prelude req authForm ;;
  if String.eqb (AuthForm.Method authForm) "signup" then signup_branch authForm ctx
  else
    resp <- link_branch req ctx ;;
    ret (Some resp).

Definition Login_body : M CSt unit unit :=
  match Request.Body req with
  | None => reject (ResponseBadRequest "read request body error") tt
  | Some authForm =>
      resp <-
        (if negb (String.eqb (AuthForm.Username authForm) "") then
           password_branch authForm
         else if negb (String.eqb (AuthForm.Provider authForm) "") then
           provider_branch authForm
         else
           mfaUser <- session_get getMfaUserSession ;;
           if negb (String.eqb mfaUser "") then mfa_branch authForm
           else
             cpUser <- session_get getChangePasswordUserSession ;;
             if negb (String.eqb cpUser "") then change_password_branch authForm
             else quick_branch authForm) ;;
      reply (ServeJSON resp)
  end.

(** running the handler: the state it leaves, and whether it panicked *)
Definition Login (s : CSt) : Res unit unit * CSt :=
  call (R' := unit) Login_body s.

(** ** [GetCaptchaStatus] *)

Definition GetCaptchaStatus_body : M CSt unit unit :=
  let organization := Request.Input req "organization" in
  let userId := Request.Input req "user_id" in
  '(user, err) <- ask (GetUserByFields organization userId) ;;
  match err with
  | Some _ => reject (ResponseInternalServerError "internal server error") tt
  | None =>
      let captchaEnabled :=
        match user with
        | Some user => Z.leb SigninWrongTimesLimit (User.SigninWrongTimes user)
        | None => false
        end in
      reply (ResponseOk [VBool captchaEnabled])
  end.

Definition GetCaptchaStatus (s : CSt) : Res unit unit * CSt :=
  call (R' := unit) GetCaptchaStatus_body s.

End LoginBranches.

(** ** The WeChat webhook ([HandleOfficialAccountEvent], [GetWebhookEventType])

    The two handlers share the package variable [wechatScanType].  Each of
    them takes the package lock before it touches the variable and holds
    it to its end, and what [HandleOfficialAccountEvent] does before
    taking the lock (reading and decoding the body) does not touch the
    variable; so every handler run is one atomic step on the variable,
    and concurrent requests behave like some sequence of such steps. *)

Module Hook.
(** the fields the handler decodes from the XML body *)
Record Data : Type := mkData {
  MsgType : string;
  Event : string;
  EventKey : string
}.

(** what a handler writes to its client *)
Inductive Output : Type :=
| Reply_ (r : Reply)
| WriteString (content : string)          (* [c.Ctx.WriteString] *)
| Redirect (url : string) (status : Z).   (* [c.Redirect], [c.Ctx.Redirect] *)

(** the package variable, and the outputs of all requests so far, oldest
    first *)
Record t : Type := mk {
  wechatScanType : string;
  outputs : list Output
}.
End Hook.

Section Webhook.
(** [ioutil.ReadAll(c.Ctx.Request.Body)] yields the bytes or fails;
    [xml.Unmarshal] is the library's decoder *)
Variable Unmarshal : string -> option Hook.Data.

Definition hook_write {R} (o : Hook.Output) : M Hook.t R unit :=
  modify (fun g => Hook.mk (Hook.wechatScanType g) (Hook.outputs g ++ [o])).

Definition HandleOfficialAccountEvent_body (body : option string)
    : M Hook.t unit unit :=
  match body with
  | None =>
      hook_write (Hook.Reply_ (ResponseBadRequest "read body error")) ;;;
      return_ tt
  | Some respBytes =>
      match Unmarshal respBytes with
      | None =>
          hook_write (Hook.Reply_ (ResponseBadRequest "unmarshall body error")) ;;;
          return_ tt
      | Some data =>
          if negb (String.eqb (Hook.EventKey data) "") then
            modify (fun g => Hook.mk (Hook.Event data) (Hook.outputs g)) ;;;
            hook_write (Hook.WriteString "")
          else ret tt
      end
  end.

Definition HandleOfficialAccountEvent (body : option string) (g : Hook.t)
    : Res unit unit * Hook.t :=
  call (R' := unit) (HandleOfficialAccountEvent_body body) g.

Definition GetWebhookEventType_body : M Hook.t unit unit :=
  scan <- gets Hook.wechatScanType ;;
  let resp := Response.mk "ok" "" (VString scan) VNil in
  modify (fun g => Hook.mk "" (Hook.outputs g)) ;;;
  hook_write (Hook.Reply_ (ServeJSON (Some resp))).

Definition GetWebhookEventType (g : Hook.t) : Res unit unit * Hook.t :=
  call (R' := unit) GetWebhookEventType_body g.

End Webhook.

(** ** The SAML relay ([HandleSamlLogin]) *)

Section SamlRelay.
(** [base64.StdEncoding.DecodeString] and [url.QueryEscape] *)
Variable DecodeString : string -> option string.
Variable QueryEscape : string -> string.
Variable req : Request.t.

Definition HandleSamlLogin_body : M (list Hook.Output) unit unit :=
  let relayState := Request.Input req "RelayState" in
  let samlResponse := Request.Input req "SAMLResponse" in
  match DecodeString relayState with
  | None =>
      modify (fun out =>
                out ++ [Hook.Reply_
                          (ResponseBadRequest "decoding relay state error")]) ;;;
      return_ tt
  | Some decode =>
      let slice := Strings.Split decode "&" in
      let relayState := QueryEscape relayState in
      let samlResponse := QueryEscape samlResponse in
      target <- deref (nth_error slice 4) "index out of range" ;;
      let targetUrl :=
        (target ++ "?relayState=" ++ relayState
           ++ "&samlResponse=" ++ samlResponse)%string in
      modify (fun out => out ++ [Hook.Redirect targetUrl 303])
  end.

Definition HandleSamlLogin (out : list Hook.Output)
    : Res unit unit * list Hook.Output :=
  call (R' := unit) HandleSamlLogin_body out.

End SamlRelay.

(** ** [GetApplicationLogin] *)

(** the functions of package [object] that only this handler calls *)
Class LoginPage (W : Type) : Type := {
  (** [CheckOAuthLogin(clientId, responseType, redirectUri, scope, state,
      lang)] *)
  CheckOAuthLogin :
    string -> string -> string -> string -> string -> string -> W ->
    string * option Application.t * option error;
  CheckCasLogin : Application.t -> string -> string -> W -> option error;
  (** the JSON of [GetMaskedApplication(application, "")] *)
  masked_application : option Application.t -> Value
}.

Section GetApplicationLogin.
Context {W Sess : Type} {backend : Backend W} {page : LoginPage W}.
Variable req : Request.t.

Local Abbreviation CSt := (CSt.t W Sess).

Definition GetApplicationLogin_body : M CSt unit unit :=
  let clientId := Request.Input req "clientId" in
  let responseType := Request.Input req "responseType" in
  let redirectUri := Request.Input req "redirectUri" in
  let scope := Request.Input req "scope" in
  let state := Request.Input req "state" in
  let id := Request.Input req "id" in
  let loginType := Request.Input req "type" in
  '(msg, application) <-
    (if String.eqb loginType "code" then
       '(msg, application, err) <-
         ask (CheckOAuthLogin clientId responseType redirectUri scope state
                (Request.AcceptLanguage req)) ;;
       match err with
       | Some _ =>
           reject (ResponseInternalServerError "internal server error") tt
       | None => ret (msg, application)
       end
     else if String.eqb loginType "cas" then
       '(application, err) <- ask (GetApplication id) ;;
       match err with
       | Some _ =>
           reject (ResponseInternalServerError "internal server error") tt
       | None =>
           match application with
           | None =>
               reject
                 (ResponseError
                    (Sprintf (tr req "auth:The application: %s does not exist")
                       [id]) []) tt
           | Some app =>
               err <- ask (CheckCasLogin app (Request.AcceptLanguage req)
                             redirectUri) ;;
               match err with
               | Some _ =>
                   reject (ResponseInternalServerError "internal server error")
                     tt
               | None => ret ("", application)
               end
           end
       end
     else ret ("", None)) ;;
  let application := masked_application application in
  if negb (String.eqb msg "") then reply (ResponseError msg [application])
  else reply (ResponseOk [application]).

Definition GetApplicationLogin (s : CSt) : Res unit unit * CSt :=
  call (R' := unit) GetApplicationLogin_body s.

End GetApplicationLogin.

(** ** [Login]: the password branch and the sign-up branch

    The two branches of [Login] that the sections above leave open.
    What they call outside the file, and the fields of [Application],
    [Provider], [ProviderItem] and [User] that the record views above do
    not carry, are the fields of [Accounts]; the functions of package
    [object] that the synchroniser uses as well ([AddUser],
    [AddUserIdProvider], [GetInitScore], [util.GetCurrentTime]) are taken
    from [Store], [CheckLdapUserPassword] from [Directory], and
    [SyncUserFromLdap] is the function embedded above. *)

Module PasswordFields.
(** the fields of [form.AuthForm] that only the password branch reads *)
Record t : Type := mk {
  CountryCode : string;
  CaptchaType : string;
  CaptchaToken : string;
  ClientSecret : string
}.
End PasswordFields.

Class Accounts (W : Type) {backend : Backend W} : Type := {
  (* fields and methods of the application, the provider and the user *)
  EnablePassword : Application.t -> bool;
  IsLdapEnabled : Application.t -> bool;
  IsPasswordWithLdapEnabled : Application.t -> bool;
  EnableLinkWithEmail : Application.t -> bool;
  EnableInternalSignUp : Application.t -> bool;
  EnableIdpSignUp : Application.t -> bool;
  CanSignUp : ProviderItem -> bool;
  Provider_EnableRoleMapping : Provider.t -> bool;
  (** [json.Marshal(provider)]; [None] when it fails *)
  Provider_json : Provider.t -> option string;
  IsMfaEnabled : User.t -> bool;
  User_GetCountryCode : User.t -> string -> string;
  (** the JSON of [user.GetPreferredMfaProps(true)] *)
  MfaProps_json : MfaProps -> string;
  User_json : User.t -> string;
  (* verification codes and captcha *)
  GetVerifyType : string -> string;
  VerifyTypePhone : string;
  GetE164Number : string -> string -> string * bool;
  CheckSigninCode :
    User.t -> string -> string -> string -> W -> option error * W;
  DisableVerificationCode : string -> W -> option error * W;
  CheckToEnableCaptcha :
    Application.t -> string -> string -> W -> bool * option error;
  VerifyCaptchaByCaptchaType :
    string -> string -> string -> W -> bool * option error;
  (* passwords *)
  CheckUserPassword :
    string -> string -> string -> string -> bool -> bool -> bool -> W ->
    (option User.t * option error) * W;
  CheckPassErrorToMessage : error -> string -> string;
  GetOrganizationByUser :
    option User.t -> W -> option Organization.t * option error;
  IsNeedPromptMfa : Organization.t -> option User.t -> bool;
  RequiredMfa : string;
  NextMfa : string;
  UpdateUserIdProvider : UserIdProvider.t -> string -> W -> option error * W;
  (* sign-up *)
  (** [uuid.NewRandom()], with the text of the uuid *)
  NewRandom : W -> string * option error;
  GenerateId : W -> string;
  GetUserCount : string -> string -> string -> string -> W -> Z * option error;
  (** the user struct as [SetUserOAuthProperties] and [LinkUserAccount]
      leave it *)
  oauth_properties_set :
    option Organization.t -> User.t -> string -> UserInfo.t -> W -> User.t;
  account_linked : User.t -> string -> string -> W -> User.t;
  (** [role_mapper.NewRoleMapper(category, items, authData)] and the
      roles of the mapper *)
  NewRoleMapper : Provider.t -> AuthData -> list string * option error;
  AddRolesToUser : string -> list string -> W -> option error * W
}.

(** the assignment [authForm.LdapId = v] *)
Definition with_LdapId (v : string) (f : AuthForm.t) : AuthForm.t :=
  {| AuthForm.Type_ := AuthForm.Type_ f;
     AuthForm.SigninMethod := AuthForm.SigninMethod f;
     AuthForm.Organization := AuthForm.Organization f;
     AuthForm.Username := AuthForm.Username f;
     AuthForm.Password := AuthForm.Password f;
     AuthForm.Application := AuthForm.Application f;
     AuthForm.ClientId := AuthForm.ClientId f;
     AuthForm.Provider := AuthForm.Provider f;
     AuthForm.Code := AuthForm.Code f;
     AuthForm.State := AuthForm.State f;
     AuthForm.RedirectUri := AuthForm.RedirectUri f;
     AuthForm.Method := AuthForm.Method f;
     AuthForm.AutoSignin := AuthForm.AutoSignin f;
     AuthForm.SamlRequest := AuthForm.SamlRequest f;
     AuthForm.SamlResponse := AuthForm.SamlResponse f;
     AuthForm.MfaType := AuthForm.MfaType f;
     AuthForm.Passcode := AuthForm.Passcode f;
     AuthForm.RecoveryCode := AuthForm.RecoveryCode f;
     AuthForm.LdapId := v |}.

(** the assignment [userInfo.Username = v] *)
Definition with_Username (v : string) (u : UserInfo.t) : UserInfo.t :=
  UserInfo.mk (UserInfo.Id u) v (UserInfo.DisplayName u) (UserInfo.Email u)
    (UserInfo.Phone u) (UserInfo.CountryCode u) (UserInfo.AvatarUrl u)
    (UserInfo.AdditionalInfo u).

Section OpenBranches.
Context {W Sess : Type} {backend : Backend W} {web : WebSession Sess}
  {accounts : @Accounts W backend} {store : Store W} {dir : Directory W}.
Variable req : Request.t.
(** the other decoded fields of the request body *)
Variable more : PasswordFields.t.
(** [record.WithAction], which the effects above do not name *)
Variable WithAction : string -> M (CSt.t W Sess) unit unit.

Local Abbreviation CSt := (CSt.t W Sess).

(** a collaborator that may change the outside world *)
Definition change {R A} (f : W -> A * W) : M CSt R A :=
  fun s => let (a, w') := f (CSt.world s) in
           (Val a, CSt.mk w' (CSt.sess s) (CSt.effects s)).

(** a call into the functions of package [object] embedded above; the
    events and the random draws of the call are its own *)
Definition object_call {R A} (m : M (St.t W) A A) : M CSt R A :=
  fun s =>
    let (r, st) := call (R' := A) m (St.mk (CSt.world s) 0 []) in
    let s' := CSt.mk (St.world st) (CSt.sess s) (CSt.effects s) in
    match r with
    | Val a | Ret a => (Val a, s')
    | Panic why => (Panic why, s')
    end.

Definition request_lang : string := Request.AcceptLanguage req.

(** source lines 362-403: sign-in with a verification code *)
Definition code_signin (authForm : AuthForm.t) : M CSt unit (option User.t) :=
  effect (AddReason "Empty password") ;;;
  '(user, err) <-
    ask (GetUserByFields (AuthForm.Organization authForm)
           (AuthForm.Username authForm)) ;;
  match err with
  | Some e =>
      effect (AddReason "Login error: please sign out first") ;;;
      reject (ResponseError e [VNil]) tt
  | None =>
      match user with
      | None =>
          effect (AddReason "Login error: User not found") ;;;
          reject (ResponseError
                    (Sprintf (tr req "general:Invalid username or password/code")
                       [util_GetId (AuthForm.Organization authForm)
                          (AuthForm.Username authForm)]) []) tt
      | Some u =>
          let verificationCodeType := GetVerifyType (AuthForm.Username authForm) in
          checkDest <-
            (if String.eqb verificationCodeType VerifyTypePhone then
               let countryCode :=
                 User_GetCountryCode u (PasswordFields.CountryCode more) in
               let '(checkDest, ok) :=
                 GetE164Number (AuthForm.Username authForm) countryCode in
               if negb ok then
                 effect (AddReason "Login error: invalid country code") ;;;
                 reject (ResponseError
                           (Sprintf
                              (tr req "verification:Phone number is invalid in your region %s")
                              [countryCode]) []) tt
               else ret checkDest
             else ret "") ;;
          err <- change (CheckSigninCode u checkDest (AuthForm.Code authForm) request_lang) ;;
          match err with
          | Some e =>
              effect (AddReason ("Login error: " ++ verificationCodeType
                                   ++ " - " ++ e)%string) ;;;
              reject (ResponseError (verificationCodeType ++ " - " ++ e)%string [])
                tt
          | None =>
              err <- change (DisableVerificationCode checkDest) ;;
              match err with
              | Some e =>
                  effect (AddReason ("Login error: " ++ e)%string) ;;;
                  reject (ResponseError e [VNil]) tt
              | None => ret user
              end
          end
      end
  end.

(** source lines 404-478: sign-in with a password; the value is the
    user, the message for the client and the form as the branch leaves
    it *)
Definition password_signin (authForm : AuthForm.t)
    : M CSt unit (option User.t * string * AuthForm.t) :=
  '(application, err) <-
    ask (GetApplication ("admin/" ++ AuthForm.Application authForm)%string) ;;
  match err with
  | Some e =>
      effect (AddReason ("Login error: " ++ e)%string) ;;;
      reject (ResponseError e [VNil]) tt
  | None =>
      match application with
      | None =>
          effect (AddReason ("Login error: application does not exists: "
                               ++ AuthForm.Application authForm)%string) ;;;
          reject (ResponseError
                    (Sprintf (tr req "auth:The application: %s does not exist")
                       [AuthForm.Application authForm]) []) tt
      | Some application =>
          if String.eqb (AuthForm.SigninMethod authForm) "Password"
             && negb (EnablePassword application)
          then
            effect (AddReason
                      "Login error: login with password is not enabled for the application") ;;;
            reject (ResponseError
                      (tr req "auth:The login method: login with password is not enabled for the application")
                      []) tt
          else if String.eqb (AuthForm.SigninMethod authForm) "LDAP"
                  && negb (IsLdapEnabled application)
          then
            reject (ResponseError
                      (tr req "auth:The login method: login with LDAP is not enabled for the application")
                      []) tt
          else
            '(enableCaptcha, err) <-
              ask (CheckToEnableCaptcha application
                     (AuthForm.Organization authForm)
                     (AuthForm.Username authForm)) ;;
            match err with
            | Some e => internal_error ("Login error: " ++ e)%string
            | None =>
                (if enableCaptcha then
                   '(isHuman, err) <-
                     ask (VerifyCaptchaByCaptchaType
                            (PasswordFields.CaptchaType more)
                            (PasswordFields.CaptchaToken more)
                            (PasswordFields.ClientSecret more)) ;;
                   match err with
                   | Some e => internal_error ("Login error: " ++ e)%string
                   | None =>
                       if negb isHuman then
                         effect (AddReason "Login error: turing test filed") ;;;
                         reject (ResponseError
                                   (tr req "verification:Turing test failed.") [])
                           tt
                       else ret tt
                   end
                 else ret tt) ;;;
                let isSigninViaLdap :=
                  String.eqb (AuthForm.SigninMethod authForm) "LDAP" in
                let isPasswordWithLdapEnabled :=
                  if String.eqb (AuthForm.SigninMethod authForm) "Password"
                  then IsPasswordWithLdapEnabled application else false in
                (if isSigninViaLdap then
                   '(user, err) <-
                     ask (GetUserByFields (AuthForm.Organization authForm)
                            (AuthForm.Username authForm)) ;;
                   match err with
                   | Some e => effect (AddReason ("Login error: " ++ e)%string)
                   | None => ret tt
                   end ;;;
                   match user with
                   | None =>
                       '(_, err) <-
                         object_call
                           (SyncUserFromLdap (AuthForm.Organization authForm)
                              (AuthForm.LdapId authForm)
                              (AuthForm.Username authForm)
                              (AuthForm.Password authForm) request_lang) ;;
                       match err with
                       | Some e =>
                           effect (AddReason ("Ldap sync error: " ++ e)%string)
                       | None => ret tt
                       end
                   | Some _ => ret tt
                   end
                 else ret tt) ;;;
                '(user, err) <-
                  change (CheckUserPassword (AuthForm.Organization authForm)
                            (AuthForm.Username authForm)
                            (AuthForm.Password authForm) request_lang enableCaptcha
                            isSigninViaLdap isPasswordWithLdapEnabled) ;;
                msg <-
                  match err with
                  | Some e =>
                      effect (AddReason ("Error: " ++ e)%string) ;;;
                      ret (CheckPassErrorToMessage e request_lang)
                  | None => ret ""
                  end ;;
                '(ldapId, err) <-
                  match user with
                  | Some u =>
                      if negb (String.eqb (User.Ldap u) "")
                         && (isSigninViaLdap || isPasswordWithLdapEnabled)
                      then
                        ask (CheckLdapUserPassword u
                               (AuthForm.Password authForm) request_lang)
                      else ret (AuthForm.LdapId authForm, err)
                  | None => ret (AuthForm.LdapId authForm, err)
                  end ;;
                msg <-
                  match err with
                  | Some e =>
                      effect (AddReason ("Error: " ++ e)%string) ;;;
                      ret (CheckPassErrorToMessage e request_lang)
                  | None => ret msg
                  end ;;
                ret (user, msg, with_LdapId ldapId authForm)
            end
      end
  end.

(** source lines 480-562: the completion of the password branch *)
Definition password_complete (authForm : AuthForm.t) (user : option User.t)
    : M CSt unit (option Response.t) :=
  '(application, err) <-
    ask (GetApplication ("admin/" ++ AuthForm.Application authForm)%string) ;;
  match err with
  | Some e => internal_error ("Login error: " ++ e)%string
  | None =>
      match application with
      | None =>
          effect (AddReason ("Login error: application does not exists: "
                               ++ AuthForm.Application authForm)%string) ;;;
          reject (ResponseError
                    (Sprintf (tr req "auth:The application: %s does not exist")
                       [AuthForm.Application authForm]) []) tt
      | Some application =>
          '(organization, err) <- ask (GetOrganizationByUser user) ;;
          match err with
          | Some e => internal_error ("Login error: " ++ e)%string
          | None =>
              match organization with
              | None =>
                  effect (AddReason "Login error: Organization does not exist") ;;;
                  reject (ResponseInternalServerError
                            (tr req "check:Organization does not exist")) tt
              | Some organization =>
                  if IsNeedPromptMfa organization user then
                    u <- deref user "user.GetId" ;;
                    session_set (SetSessionUsername (User_GetId u)) ;;;
                    reject (ResponseOk [VString RequiredMfa]) tt
                  else
                    u <- deref user "user.IsMfaEnabled" ;;
                    if IsMfaEnabled u then
                      session_set (setMfaUserSession (User_GetId u)) ;;;
                      reject
                        (ResponseOk
                           [VString NextMfa;
                            VObject "MfaProps"
                              (MfaProps_json (GetPreferredMfaProps u true))])
                        tt
                    else if IsPasswordChangeRequired u then
                      session_set (setChangePasswordUserSession (User_GetId u)) ;;;
                      reject (ResponseOk [VString NextChangePasswordForm]) tt
                    else
                      resp <- HandleLoggedIn req application u authForm ;;
                      (if negb (String.eqb (User.Ldap u) "") then
                         now <- ask GetCurrentTime ;;
                         let userIdProvider :=
                           {| UserIdProvider.Owner := Organization.Name organization;
                              UserIdProvider.LdapId := AuthForm.LdapId authForm;
                              UserIdProvider.ProviderName := "";
                              UserIdProvider.UsernameFromIdp := User.Name u;
                              UserIdProvider.CreatedTime := "";
                              UserIdProvider.LastSignInTime := now;
                              UserIdProvider.UserId := "" |} in
                         err <- change (UpdateUserIdProvider userIdProvider
                                          "ldap_id") ;;
                         match err with
                         | Some e => internal_error ("Login error: " ++ e)%string
                         | None => ret tt
                         end
                       else ret tt) ;;;
                      effect (WithUsername (User.Name u)) ;;;
                      effect (WithOrganization
                                (Application.Organization application)) ;;;
                      effect (AddReason "User logged in") ;;;
                      ret resp
              end
          end
      end
  end.

(** source lines 344-563 *)
Definition password_branch (authForm : AuthForm.t)
    : M CSt unit (option Response.t) :=
  (if String.eqb (AuthForm.Type_ authForm) ResponseTypeLogin then
     sessionUser <- session_get GetSessionUsername ;;
     if negb (String.eqb sessionUser "") then
       effect (AddReason "Login error: please sign out first") ;;;
       reject (ResponseError (tr req "account:Please sign out first")
                 [VString sessionUser]) tt
     else ret tt
   else ret tt) ;;;
  effect (WithUsername (AuthForm.Username authForm)) ;;;
  '(user, msg, authForm) <-
    (if String.eqb (AuthForm.Password authForm) "" then
       user <- code_signin authForm ;;
       ret (user, "", authForm)
     else password_signin authForm) ;;
  if negb (String.eqb msg "") then
    ret (Some (Response.mk "error" msg VNil VNil))
  else password_complete authForm user.

(** the categories for which a sign-up looks the user up *)
Definition external_category (category : string) : bool :=
  String.eqb category "OAuth" || String.eqb category "Web3"
  || String.eqb category "SAML".

(** source lines 790-872: create the account of a new user *)
Definition create_account (ctx : ProviderCtx) (userInfo : UserInfo.t)
    : M CSt unit (User.t * UserInfo.t) :=
  let application := ctx_application ctx in
  let provider := ctx_provider ctx in
  if negb (EnableInternalSignUp application) && negb (EnableIdpSignUp application)
  then
    effect (AddReason
              ("Login error: provider: " ++ Provider.Type_ provider
                 ++ ", username: " ++ UserInfo.Username userInfo ++ ", ("
                 ++ UserInfo.DisplayName userInfo
                 ++ ") does not allowed to sign up as new account")%string) ;;;
    reject (ResponseError
              (Sprintf
                 (tr req "auth:The account for provider: %s and username: %s (%s) does not exist and is not allowed to sign up as new account, please contact your IT support")
                 [Provider.Type_ provider; UserInfo.Username userInfo;
                  UserInfo.DisplayName userInfo]) []) tt
  else
    providerItem <- deref (ctx_providerItem ctx) "providerItem.CanSignUp" ;;
    if negb (CanSignUp providerItem) then
      effect (AddReason
                ("Login error: provider: " ++ Provider.Type_ provider
                   ++ ", username: " ++ UserInfo.Username userInfo ++ ", ("
                   ++ UserInfo.DisplayName userInfo
                   ++ ") does not allowed to sign up as new account via "
                   ++ Provider.Type_ provider)%string) ;;;
      reject (ResponseError
                (Sprintf
                   (tr req "auth:The account for provider: %s and username: %s (%s) does not exist and is not allowed to sign up as new account via %%s, please use another way to sign up")
                   [Provider.Type_ provider; UserInfo.Username userInfo;
                    UserInfo.DisplayName userInfo; Provider.Type_ provider]) [])
        tt
    else
      '(tmpUser, err) <-
        ask (GetUser (util_GetId (Application.Organization application)
                        (UserInfo.Username userInfo))) ;;
      match err with
      | Some e => internal_error ("Login error: " ++ e)%string
      | None =>
          userInfo <-
            match tmpUser with
            | Some _ =>
                '(uid, err) <- ask NewRandom ;;
                match err with
                | Some e => internal_error ("Login error: " ++ e)%string
                | None =>
                    part <- deref (nth_error (Strings.Split uid "-") 1)
                              "index out of range" ;;
                    ret (with_Username
                           (UserInfo.Username userInfo ++ "_" ++ part)%string
                           userInfo)
                end
            | None => ret userInfo
            end ;;
          '(count, err) <-
            ask (GetUserCount (Application.Organization application) "" "" "") ;;
          match err with
          | Some e => internal_error ("Login error: " ++ e)%string
          | None =>
              let properties :=
                [("no", NilZero.string_of_int (Z.to_int (count + 2)))] in
              '(initScore, err) <- ask (GetInitScore (ctx_organization ctx)) ;;
              match err with
              | Some e =>
                  effect (AddReason ("Login error: " ++ e)%string) ;;;
                  reject (ResponseError
                            (Sprintf
                               (tr req "account:Get init score failed, error: %w")
                               [e]) []) tt
              | None =>
                  userId <-
                    (let userId :=
                       if negb (String.eqb (Provider.Category provider) "SAML")
                       then UserInfo.Id userInfo else "" in
                     if String.eqb userId "" then ask GenerateId
                     else ret userId) ;;
                  now <- ask GetCurrentTime ;;
                  let user :=
                    {| User.Owner := Application.Organization application;
                       User.Name := UserInfo.Username userInfo;
                       User.CreatedTime := now;
                       User.Id := userId;
                       User.Type_ := "normal-user";
                       User.DisplayName := UserInfo.DisplayName userInfo;
                       User.Avatar := UserInfo.AvatarUrl userInfo;
                       User.Email := UserInfo.Email userInfo;
                       User.Phone := UserInfo.Phone userInfo;
                       User.CountryCode := UserInfo.CountryCode userInfo;
                       User.Region := UserInfo.CountryCode userInfo;
                       User.Address := [];
                       User.Affiliation := "";
                       User.Tag := "";
                       User.Score := initScore;
                       User.IsAdmin := false;
                       User.IsForbidden := false;
                       User.IsDeleted := false;
                       User.SignupApplication := Application.Name application;
                       User.Ldap := "";
                       User.Properties := properties;
                       User.SigninWrongTimes := 0 |} in
                  '(user, affected, err) <- change (AddUser user) ;;
                  match err with
                  | Some e => internal_error ("Login error: " ++ e)%string
                  | None =>
                      if negb affected then
                        effect (AddReason
                                  ("Login error: user information is invalid: "
                                     ++ User_json user)%string) ;;;
                        reject (ResponseError
                                  (Sprintf
                                     (tr req "auth:Failed to create user, user information is invalid")
                                     []) []) tt
                      else ret (user, userInfo)
                  end
              end
          end
      end.

(** source lines 874-929: link the account to the identity and sign in *)
Definition link_and_sign_in (authForm : AuthForm.t) (ctx : ProviderCtx)
    (user : User.t) (userInfo : UserInfo.t) : M CSt unit (option Response.t) :=
  let application := ctx_application ctx in
  let provider := ctx_provider ctx in
  user <-
    (if negb (String.eqb (Provider.Category provider) "SAML") then
       user' <- ask (oauth_properties_set (ctx_organization ctx) user
                       (Provider.Type_ provider) userInfo) ;;
       '(_, err) <-
         act (OpSetUserOAuthProperties (Some user) (Provider.Type_ provider))
           (SetUserOAuthProperties (ctx_organization ctx) (Some user)
              (Provider.Type_ provider) userInfo) ;;
       match err with
       | Some e => internal_error ("Login error: " ++ e)%string
       | None => ret user'
       end
     else ret user) ;;
  user' <- ask (account_linked user (Provider.Type_ provider)
                  (UserInfo.Id userInfo)) ;;
  '(_, err) <-
    act (OpLinkUserAccount (Some user) (Provider.Type_ provider)
           (UserInfo.Id userInfo))
      (LinkUserAccount (Some user) (Provider.Type_ provider)
         (UserInfo.Id userInfo)) ;;
  match err with
  | Some e => internal_error ("Login error: " ++ e)%string
  | None =>
      let user := user' in
      organization <- deref (ctx_organization ctx) "organization.Name" ;;
      now <- ask GetCurrentTime ;;
      now' <- ask GetCurrentTime ;;
      let userIdProvider :=
        {| UserIdProvider.Owner := Organization.Name organization;
           UserIdProvider.LdapId := "";
           UserIdProvider.ProviderName := Provider.Name provider;
           UserIdProvider.UsernameFromIdp := UserInfo.Username userInfo;
           UserIdProvider.CreatedTime := now';
           UserIdProvider.LastSignInTime := now;
           UserIdProvider.UserId := User.Id user |} in
      '(_, err) <- change (AddUserIdProvider userIdProvider) ;;
      match err with
      | Some e => internal_error ("Login error: " ++ e)%string
      | None =>
          (if Provider_EnableRoleMapping provider then
             effect (AddReason "Start role mapping") ;;;
             let '(userRoles, err) := NewRoleMapper provider (ctx_authData ctx) in
             match err with
             | Some e => internal_error ("Role mapping error: " ++ e)%string
             | None =>
                 err <- change (AddRolesToUser (User_GetId user) userRoles) ;;
                 match err with
                 | Some e => internal_error ("Role mapping error: " ++ e)%string
                 | None => effect (AddReason "Finish role mapping")
                 end
             end
           else ret tt) ;;;
          resp <- HandleLoggedIn req application user authForm ;;
          WithAction "signup" ;;;
          effect (WithUsername (User.Name user)) ;;;
          effect (WithOrganization (Application.Organization application)) ;;;
          effect (AddReason "User logged in") ;;;
          ret resp
      end
  end.

(** source lines 706-930: a provider login with method [signup] *)
Definition signup_branch (authForm : AuthForm.t) (ctx : ProviderCtx)
    : M CSt unit (option Response.t) :=
  let application := ctx_application ctx in
  let provider := ctx_provider ctx in
  let category := Provider.Category provider in
  user <-
    (if external_category category then
       userInfo <- deref (ctx_userInfo ctx) "userInfo.Id" ;;
       '(user, err) <-
         ask (GetUserByField (Application.Organization application)
                (Provider.Type_ provider) (UserInfo.Id userInfo)) ;;
       match err with
       | Some e => internal_error ("Login error: " ++ e)%string
       | None => ret user
       end
     else ret (Some User.zero)) ;;
  let signs_in :=
    match user with
    | Some u => negb (User.IsDeleted u)
    | None => false
    end in
  if signs_in then
    u <- deref user "user.IsForbidden" ;;
    if User.IsForbidden u then
      effect (AddReason "Login error: user forbidden to sign in") ;;;
      reject (ResponseError
                (tr req "check:The user is forbidden to sign in, please contact the administrator")
                []) tt
    else
      resp <- HandleLoggedIn req application u authForm ;;
      effect (WithUsername (User.Name u)) ;;;
      effect (WithOrganization (Application.Organization application)) ;;;
      effect (AddReason "User logged in") ;;;
      match Provider_json provider with
      | Some jsonProvider => effect (AddReason ("provider: " ++ jsonProvider)%string)
      | None => ret tt
      end ;;;
      organization <- deref (ctx_organization ctx) "organization.Name" ;;
      userInfo <- deref (ctx_userInfo ctx) "userInfo.Username" ;;
      now <- ask GetCurrentTime ;;
      let userIdProvider :=
        {| UserIdProvider.Owner := Organization.Name organization;
           UserIdProvider.LdapId := "";
           UserIdProvider.ProviderName := Provider.Name provider;
           UserIdProvider.UsernameFromIdp := UserInfo.Username userInfo;
           UserIdProvider.CreatedTime := "";
           UserIdProvider.LastSignInTime := now;
           UserIdProvider.UserId := "" |} in
      err <- change (UpdateUserIdProvider userIdProvider "provider_name") ;;
      match err with
      | Some e =>
          effect (AddReason ("Login error: " ++ e)%string) ;;;
          reject (ResponseInternalServerError e) tt
      | None => ret resp
      end
  else if external_category category then
    userInfo <- deref (ctx_userInfo ctx) "userInfo.Email" ;;
    user <-
      (if EnableLinkWithEmail application then
         user <-
           (if negb (String.eqb (UserInfo.Email userInfo) "") then
              '(user, err) <-
                ask (GetUserByField (Application.Organization application)
                       "email" (UserInfo.Email userInfo)) ;;
              match err with
              | Some e => internal_error ("Login error: " ++ e)%string
              | None => ret user
              end
            else ret user) ;;
         match user with
         | None =>
             if negb (String.eqb (UserInfo.Phone userInfo) "") then
               '(user, err) <-
                 ask (GetUserByField (Application.Organization application)
                        "phone" (UserInfo.Phone userInfo)) ;;
               match err with
               | Some e => internal_error ("Login error: " ++ e)%string
               | None => ret user
               end
             else ret user
         | Some _ => ret user
         end
       else ret user) ;;
    '(user, userInfo) <-
      match user with
      | Some u =>
          if User.IsDeleted u then create_account ctx userInfo
          else ret (u, userInfo)
      | None => create_account ctx userInfo
      end ;;
    link_and_sign_in authForm ctx user userInfo
  else ret (Some (Response.mk "" "" VNil VNil)).

End OpenBranches.

(** ** An in-memory store

    A concrete [Store] on which the model can be run: tables are lists.
    [AddUser] reports [affected = false] for a user without owner or name
    and an engine error when the key (owner, name) is taken; [SyncRoles]
    records the record's roles for the account. *)

Module Mem.

Record t : Type := mk {
  users : list User.t;
  links : list UserIdProvider.t;
  role_rows : list (string * string * list string);
  orgs : list Organization.t;
  ldaps : list Ldap.t;
  clock : string
}.

Definition add_user (u : User.t) (w : t) : (User.t * bool * option error) * t :=
  let u' :=
    if String.eqb (User.Id u) "" then
      {| User.Owner := User.Owner u; User.Name := User.Name u;
         User.CreatedTime := User.CreatedTime u;
         User.Id := ("id-" ++ User.Name u)%string;
         User.Type_ := User.Type_ u; User.DisplayName := User.DisplayName u;
         User.Avatar := User.Avatar u; User.Email := User.Email u;
         User.Phone := User.Phone u; User.CountryCode := User.CountryCode u;
         User.Region := User.Region u; User.Address := User.Address u;
         User.Affiliation := User.Affiliation u; User.Tag := User.Tag u;
         User.Score := User.Score u; User.IsAdmin := User.IsAdmin u;
         User.IsForbidden := User.IsForbidden u;
         User.IsDeleted := User.IsDeleted u;
         User.SignupApplication := User.SignupApplication u;
         User.Ldap := User.Ldap u; User.Properties := User.Properties u;
         User.SigninWrongTimes := User.SigninWrongTimes u |}
    else u in
  if String.eqb (User.Owner u) "" || String.eqb (User.Name u) "" then
    ((u', false, None), w)
  else if existsb (fun v => String.eqb (User.Owner v) (User.Owner u)
                            && String.eqb (User.Name v) (User.Name u)) (users w)
  then ((u', false, Some "duplicate entry for key PRIMARY"), w)
  else ((u', true, None),
        mk (users w ++ [u']) (links w) (role_rows w) (orgs w) (ldaps w) (clock w)).

Definition add_link (p : UserIdProvider.t) (w : t) : (bool * option error) * t :=
  ((true, None),
   mk (users w) (links w ++ [p]) (role_rows w) (orgs w) (ldaps w) (clock w)).

Definition sync_roles (lu : LdapUser.t) (name owner : string) (w : t)
    : option error * t :=
  (None,
   mk (users w) (links w) (role_rows w ++ [(owner, name, LdapUser.Roles lu)])
      (orgs w) (ldaps w) (clock w)).

#[export] Instance store : Store t := {|
  user_rows := users;
  find_err := fun _ _ _ => None;
  get_err := fun _ _ _ => None;
  getOrganization := fun _ name w =>
    (find (fun o => String.eqb (Organization.Name o) name) (orgs w), None);
  GetLdap := fun id w =>
    (find (fun l => String.eqb (Ldap.Id l) id) (ldaps w), None);
  GetInitScore := fun _ _ => (0%Z, None);
  GetCurrentTime := clock;
  AddUser := add_user;
  AddUserIdProvider := add_link;
  SyncRoles := sync_roles;
  Hex := fun _ _ => "a1b2c3d4e5f6"
|}.

(** A network for the in-memory store: the servers whose address is in
    [up] accept connections, and every search returns [found]. *)
Definition network (up : list string) (found : list Entry.t) : Directory t := {|
  Conn := string;
  TlsConfig := unit;
  TlsCertificate := unit;
  empty_tls := tt;
  set_Certificates := fun _ c => c;
  GetTlsConfigForCert := fun _ _ => (Some tt, None);
  getCertByName := fun _ _ => (None, None);
  X509KeyPair := fun _ _ => (tt, None);
  scopeClientCert := "Client";
  ErrCertDoesNotExist := "certificate does not exist";
  ErrCertInvalidScope := "invalid certificate scope";
  DialTLS := fun addr _ _ =>
    if string_inb addr up then (Some addr, None)
    else (None, Some "dial tcp: connection refused");
  Dial := fun addr _ =>
    if string_inb addr up then (Some addr, None)
    else (None, Some "dial tcp: connection refused");
  ExternalBind := fun _ _ => None;
  Bind := fun _ _ _ _ => None;
  Search := fun _ _ _ => (Some [], None);
  SearchWithPaging := fun _ _ _ _ => (Some found, None);
  GetLdaps := fun _ w => (ldaps w, None);
  CheckLdapUserPassword := fun _ _ _ _ => ("", None);
  ReturnAnyNotEmpty := fun l =>
    match filter (fun x => negb (String.eqb x "")) l with
    | x :: _ => x
    | [] => ""
    end;
  attribute_mapping_keys := map AttributeMappingItem.Attribute;
  MapAttributeToUser := fun _ u _ => u;
  role_mapping_roles := fun _ _ _ => None
|}.

Definition start (w : t) : St.t t := St.mk w 0 [].

End Mem.

Module Demo.
Import Mem.

Definition ldap_user (uid uidNumber uuid : string) : LdapUser.t :=
  {| LdapUser.UidNumber := uidNumber; LdapUser.Uid := uid; LdapUser.Cn := "";
     LdapUser.GidNumber := ""; LdapUser.Uuid := uuid;
     LdapUser.UserPrincipalName := ""; LdapUser.DisplayName := "";
     LdapUser.Mail := ""; LdapUser.Email := ""; LdapUser.EmailAddress := "";
     LdapUser.TelephoneNumber := ""; LdapUser.Mobile := "";
     LdapUser.MobileTelephoneNumber := ""; LdapUser.RegisteredAddress := "";
     LdapUser.PostalAddress := ""; LdapUser.GroupId := "";
     LdapUser.Address := ""; LdapUser.MemberOf := ""; LdapUser.Roles := ["dev"] |}.

Definition local_user (owner name ldap : string) : User.t :=
  {| User.Owner := owner; User.Name := name; User.CreatedTime := "";
     User.Id := ("id-" ++ name)%string; User.Type_ := "normal-user";
     User.DisplayName := name; User.Avatar := ""; User.Email := "";
     User.Phone := ""; User.CountryCode := ""; User.Region := "";
     User.Address := []; User.Affiliation := ""; User.Tag := "";
     User.Score := 0; User.IsAdmin := false; User.IsForbidden := false;
     User.IsDeleted := false; User.SignupApplication := "";
     User.Ldap := ldap; User.Properties := []; User.SigninWrongTimes := 0 |}.

Definition directory (roleMapping : bool) : Ldap.t :=
  {| Ldap.Id := "ldap-1"; Ldap.Host := "ldap.example.com"; Ldap.Port := 389;
     Ldap.EnableSsl := false; Ldap.Username := "cn=admin,ou=eng,dc=example,dc=com";
     Ldap.Password := "secret"; Ldap.BaseDn := "ou=people,dc=example,dc=com";
     Ldap.Filter := "(objectClass=posixAccount)"; Ldap.FilterFields := [];
     Ldap.Cert := ""; Ldap.EnableCryptographicAuth := false;
     Ldap.ClientCert := ""; Ldap.EnableRoleMapping := roleMapping;
     Ldap.RoleMappingItems := []; Ldap.EnableAttributeMapping := false;
     Ldap.AttributeMappingItems := [] |}.

Definition acme : Organization.t :=
  {| Organization.Name := "acme"; Organization.DefaultApplication := "app-acme";
     Organization.DefaultAvatar := "" |}.

Definition world (roleMapping : bool) (us : list User.t) : Mem.t :=
  {| users := us; links := []; role_rows := []; orgs := [acme];
     ldaps := [directory roleMapping]; clock := "2024-01-01T00:00:00Z" |}.

(** a second directory, on a host that is down in the examples *)
Definition backup : Ldap.t :=
  {| Ldap.Id := "ldap-2"; Ldap.Host := "backup.example.com"; Ldap.Port := 636;
     Ldap.EnableSsl := true; Ldap.Username := "cn=admin,dc=example,dc=com";
     Ldap.Password := "secret"; Ldap.BaseDn := "dc=example,dc=com";
     Ldap.Filter := "(objectClass=person)"; Ldap.FilterFields := ["uid"; "mail"];
     Ldap.Cert := ""; Ldap.EnableCryptographicAuth := false;
     Ldap.ClientCert := ""; Ldap.EnableRoleMapping := false;
     Ldap.RoleMappingItems := []; Ldap.EnableAttributeMapping := false;
     Ldap.AttributeMappingItems := [] |}.

Definition two_servers : Mem.t :=
  {| users := []; links := []; role_rows := []; orgs := [acme];
     ldaps := [directory false; backup]; clock := "2024-01-01T00:00:00Z" |}.

(** the directory entry of dave *)
Definition dave_entry : Entry.t :=
  Entry.mk [Entry.mkAttribute "uid" ["dave"];
            Entry.mkAttribute "uidNumber" ["1003"];
            Entry.mkAttribute "entryUUID" ["uuid-dave"];
            Entry.mkAttribute "cn" ["Dave"];
            Entry.mkAttribute "mail" ["dave@example.com"; "d@example.com"]].

Definition alice := ldap_user "alice" "1000" "uuid-alice".
Definition bob := ldap_user "bob" "1001" "uuid-bob".
Definition carol := ldap_user "carol" "1002" "uuid-carol".
(** a directory record without uid and common name: its derived user name
    is empty *)
Definition nameless := ldap_user "" "" "uuid-nameless".
(** two further directory records that share bob's uid and uidNumber *)
Definition bob2 := ldap_user "bob" "1001" "uuid-bob-2".
Definition bob3 := ldap_user "bob" "1001" "uuid-bob-3".

Definition jdoe := ldap_user "jdoe" "1001" "uuid-jdoe".

(** a local [jdoe] that belongs to another directory entry *)
Definition taken : St.t Mem.t :=
  start (world false [local_user "acme" "jdoe" "uuid-somebody-else"]).

(** the first server is up and has no entry for dave, the second is down *)
Definition nobody : Directory Mem.t := network ["ldap.example.com:389"] [].
(** both servers are down *)
Definition all_down : Directory Mem.t := network [] [dave_entry].
(** the first server is up and has dave *)
Definition has_dave : Directory Mem.t :=
  network ["ldap.example.com:389"] [dave_entry].

Definition alice_local := local_user "acme" "alice" "uuid-alice".

(** the outcome of a call, with the final store *)
Definition outcome (roleMapping : bool) (us : list User.t)
    (batch : list LdapUser.t) : Res SyncResult SyncResult * St.t Mem.t :=
  run_SyncLdapUsers "acme" batch "ldap-1" (start (world roleMapping us)).

End Demo.

(** ** An in-memory site for the controller

    A concrete [Backend], [WebSession] and [CurrentUser] on which the
    handlers can be run.  Accounts live in the in-memory store; a linked
    external identity is kept among the account's properties; the second
    factor of an account is a fixed passcode. *)

Module Site.

Record t : Type := mk {
  db : Mem.t;
  apps : list Application.t;
  providers : list Provider.t;
  sessions : list Session.t
}.

Record Sess : Type := mkSess {
  username : string;
  mfaUser : string;
  changePasswordUser : string;
  expires : bool
}.

(** replace each [%s] of the format by the next argument *)
Fixpoint sprintf (fmt : string) (args : list string) : string :=
  match fmt with
  | String "%" (String "s" rest) =>
      (hd "%!s(MISSING)" args ++ sprintf rest (tl args))%string
  | String c rest => String c (sprintf rest args)
  | EmptyString => EmptyString
  end.

(** the text of an i18n key [namespace:text] *)
Fixpoint after_colon (key : string) : string :=
  match key with
  | String ":" rest => rest
  | String _ rest => after_colon rest
  | EmptyString => EmptyString
  end.

Definition user_id (u : User.t) : string :=
  (User.Owner u ++ "/" ++ User.Name u)%string.

Definition get_user (id : string) (w : t) : option User.t :=
  find (fun u => String.eqb (user_id u) id) (Mem.users (db w)).

Definition has_property (k v : string) (u : User.t) : bool :=
  existsb (fun kv => String.eqb (fst kv) k && String.eqb (snd kv) v)
    (User.Properties u).

Definition get_user_by_field (owner field value : string) (w : t)
    : option User.t :=
  find (fun u => String.eqb (User.Owner u) owner && has_property field value u)
    (Mem.users (db w)).

Definition set_property (k v : string) (u : User.t) : User.t :=
  {| User.Owner := User.Owner u; User.Name := User.Name u;
     User.CreatedTime := User.CreatedTime u; User.Id := User.Id u;
     User.Type_ := User.Type_ u; User.DisplayName := User.DisplayName u;
     User.Avatar := User.Avatar u; User.Email := User.Email u;
     User.Phone := User.Phone u; User.CountryCode := User.CountryCode u;
     User.Region := User.Region u; User.Address := User.Address u;
     User.Affiliation := User.Affiliation u; User.Tag := User.Tag u;
     User.Score := User.Score u; User.IsAdmin := User.IsAdmin u;
     User.IsForbidden := User.IsForbidden u; User.IsDeleted := User.IsDeleted u;
     User.SignupApplication := User.SignupApplication u;
     User.Ldap := User.Ldap u;
     User.Properties := User.Properties u ++ [(k, v)];
     User.SigninWrongTimes := User.SigninWrongTimes u |}.

Definition with_users (us : list User.t) (w : t) : t :=
  mk (Mem.mk us (Mem.links (db w)) (Mem.role_rows (db w)) (Mem.orgs (db w))
        (Mem.ldaps (db w)) (Mem.clock (db w)))
     (apps w) (providers w) (sessions w).

Definition link_user (user : option User.t) (field value : string) (w : t)
    : (bool * option error) * t :=
  match user with
  | None => ((false, None), w)
  | Some u =>
      ((true, None),
       with_users
         (map (fun v => if String.eqb (user_id v) (user_id u)
                        then set_property field value v else v)
            (Mem.users (db w))) w)
  end.

Definition property (k : string) (u : User.t) : string :=
  match find (fun kv => String.eqb (fst kv) k) (User.Properties u) with
  | Some kv => snd kv
  | None => ""
  end.

#[export] Instance backend : Backend t := {|
  T := fun _ key => after_colon key;
  Sprintf := sprintf;
  User_GetId := user_id;
  util_GetId := fun owner name => (owner ++ "/" ++ name)%string;
  StructToJson := fun form => AuthForm.Type_ form;
  GetConfigString := fun key =>
    if String.eqb key "authState" then "casdoor" else "";
  EqualFold := String.eqb;
  InSlice := fun l x => string_inb x l;
  IsGlobalAdmin := fun u => String.eqb (User.Owner u) "built-in";
  IsPasswordChangeRequired := fun u =>
    String.eqb (property "passwordChangeRequired" u) "true";
  HasPromptPage := fun _ => false;
  IsGrantTypeValid := fun ty l => string_inb ty l;
  wrapErrorResponse := fun err =>
    match err with
    | Some e => Response.mk "error" e VNil VNil
    | None => Response.mk "ok" "" VNil VNil
    end;
  SigninWrongTimesLimit := 5;
  NextChangePasswordForm := "NextChangePasswordForm";
  Subscription := string;
  Subscription_State := fun s => s;
  Subscription_json := fun s => s;
  SubStateActive := "Active";
  SubStatePending := "Pending";
  Pricing := string;
  Pricing_json := fun p => p;
  GetSubscriptionsByUser := fun _ _ _ => ([], None);
  GetApplicationDefaultPricing := fun _ _ _ => (None, None);
  CheckLoginPermission := fun _ _ _ => (true, None);
  GetApplication := fun id w =>
    (find (fun a => String.eqb ("admin/" ++ Application.Name a) id) (apps w), None);
  GetApplicationByClientId := fun id w =>
    (find (fun a => String.eqb ("client-" ++ Application.Name a) id) (apps w), None);
  GetOrganization := fun id w =>
    (find (fun o => String.eqb ("admin/" ++ Organization.Name o) id)
       (Mem.orgs (db w)), None);
  GetProvider := fun id w =>
    (find (fun p => String.eqb ("admin/" ++ Provider.Name p) id) (providers w), None);
  GetUser := fun id w => (get_user id w, None);
  GetUserByField := fun owner field value w =>
    (get_user_by_field owner field value w, None);
  GetUserByFields := fun owner name w =>
    (get_user (owner ++ "/" ++ name) w, None);
  ProviderItem := Provider.t;
  GetProviderItem := fun _ name => Some (Provider.mk name "" "");
  IsProviderVisible := fun item =>
    match item with Some _ => true | None => false end;
  GetOAuthCode := fun userId _ _ _ _ _ _ _ _ _ _ w =>
    ((Some (Code.mk ("code-for-" ++ userId) ""), None), w);
  GetTokenByUser := fun _ u _ _ _ w =>
    ((Some (Token.mk ("token-for-" ++ user_id u) "refresh"), None), w);
  GetSamlResponse := fun _ _ _ _ w => (("assertion", "/", "POST", None), w);
  GenerateCasToken := fun userId _ w => (("ST-" ++ userId, None)%string, w);
  AddSession := fun session w =>
    ((true, None), mk (db w) (apps w) (providers w) (sessions w ++ [session]));
  IdpInfo := Provider.t;
  IdpInfo_Type := Provider.Type_;
  IdProvider := Provider.t;
  HttpClient := unit;
  OAuthToken := string;
  Jwt := string;
  FromProviderToIdpInfo := fun p _ => p;
  GetIdProvider := fun p _ => Some p;
  SetHttpClient := fun _ p => p;
  ProxyHttpClient := tt;
  GetProviderHttpClient := fun _ _ => (tt, None);
  GetToken := fun _ code w => ((Some ("token-" ++ code)%string, None), w);
  Token_Valid := fun t => match t with Some _ => true | None => false end;
  Token_AccessToken := fun t => t;
  Token_id_token := fun _ => "";
  GetUserInfo := fun p t w =>
    ((Some (UserInfo.mk "gh-42" "octocat" "The Octocat" "" "" "" "" []), None), w);
  ParseSigned := fun _ => None;
  UnsafeClaimsWithoutVerification := fun _ d => (d, None);
  ParseSamlResponse := fun _ _ _ _ => (Some UserInfo.zero, None, None);
  SetUserOAuthProperties := fun _ _ _ _ w => ((true, None), w);
  LinkUserAccount := link_user;
  MfaProps := string;
  MfaUtil := string;
  GetPreferredMfaProps := fun u _ => property "totp" u;
  GetMfaUtil := fun mfaType props =>
    if String.eqb mfaType "app" then Some props else None;
  MfaVerify := fun expected passcode w =>
    (if String.eqb passcode expected then None else Some "invalid passcode", w);
  MfaRecover := fun _ _ w => (Some "recovery code not found", w)
|}.

#[export] Instance web : WebSession Sess := {|
  GetSessionUsername := username;
  SetSessionUsername := fun u se =>
    mkSess u (mfaUser se) (changePasswordUser se) (expires se);
  getMfaUserSession := mfaUser;
  setMfaUserSession := fun u se =>
    mkSess (username se) u (changePasswordUser se) (expires se);
  getChangePasswordUserSession := changePasswordUser;
  setChangePasswordUserSession := fun u se =>
    mkSess (username se) (mfaUser se) u (expires se);
  setExpireForSession := fun se =>
    mkSess (username se) (mfaUser se) (changePasswordUser se) true;
  getSid := fun userId se => (("sid-" ++ userId)%string, se)
|}.

#[export] Instance current : CurrentUser t Sess := {|
  getCurrentUser := fun se w => get_user (username se) w
|}.

(** the two branches of [Login] that are not embedded answer with an empty
    response *)
Definition no_branch {A} (_ : A) : M (CSt.t t Sess) unit (option Response.t) :=
  ret (Some (Response.mk "" "" VNil VNil)).

Definition login (req : Request.t) (s : CSt.t t Sess)
    : Res unit unit * CSt.t t Sess :=
  Login req no_branch (fun form _ => no_branch form) s.

End Site.

Module SiteDemo.
Import Site.

Definition account (name : string) (props : list (string * string)) : User.t :=
  {| User.Owner := "acme"; User.Name := name; User.CreatedTime := "";
     User.Id := ("id-" ++ name)%string; User.Type_ := "normal-user";
     User.DisplayName := name; User.Avatar := ""; User.Email := "";
     User.Phone := ""; User.CountryCode := ""; User.Region := "";
     User.Address := []; User.Affiliation := ""; User.Tag := "";
     User.Score := 0; User.IsAdmin := false; User.IsForbidden := false;
     User.IsDeleted := false; User.SignupApplication := "";
     User.Ldap := ""; User.Properties := props; User.SigninWrongTimes := 0 |}.

(** alice has a second factor; bob is linked to the GitHub identity gh-42 *)
Definition alice := account "alice" [("totp", "123456")].
Definition bob := account "bob" [("GitHub", "gh-42")].
Definition carol := account "carol" [].

(** an account after [n] failed sign-ins *)
Definition failing (name : string) (n : Z) : User.t :=
  {| User.Owner := "acme"; User.Name := name; User.CreatedTime := "";
     User.Id := ("id-" ++ name)%string; User.Type_ := "normal-user";
     User.DisplayName := name; User.Avatar := ""; User.Email := "";
     User.Phone := ""; User.CountryCode := ""; User.Region := "";
     User.Address := []; User.Affiliation := ""; User.Tag := "";
     User.Score := 0; User.IsAdmin := false; User.IsForbidden := false;
     User.IsDeleted := false; User.SignupApplication := "";
     User.Ldap := ""; User.Properties := []; User.SigninWrongTimes := n |}.

(** the identity the GitHub provider of the site reports *)
Definition octocat : UserInfo.t :=
  UserInfo.mk "gh-42" "octocat" "The Octocat" "" "" "" "" [].

Definition portal : Application.t :=
  {| Application.Name := "portal"; Application.Organization := "acme";
     Application.Tags := []; Application.GrantTypes := ["authorization_code"];
     Application.EnableSigninSession := false |}.

Definition github : Provider.t :=
  {| Provider.Name := "github"; Provider.Category := "OAuth";
     Provider.Type_ := "GitHub" |}.

Definition site (us : list User.t) : Site.t :=
  {| db := Demo.world false us; apps := [portal]; providers := [github];
     sessions := [] |}.

Definition anonymous : Sess := mkSess "" "" "" false.
Definition signed_in (id : string) : Sess := mkSess id "" "" false.
Definition mfa_pending (id : string) : Sess := mkSess "" id "" false.

Definition state (us : list User.t) (se : Sess) : CSt.t Site.t Sess :=
  CSt.mk (site us) se [].

Definition form (ty provider method state passcode : string) : AuthForm.t :=
  {| AuthForm.Type_ := ty; AuthForm.SigninMethod := "";
     AuthForm.Organization := "acme"; AuthForm.Username := "";
     AuthForm.Password := ""; AuthForm.Application := "portal";
     AuthForm.ClientId := ""; AuthForm.Provider := provider;
     AuthForm.Code := "abc"; AuthForm.State := state;
     AuthForm.RedirectUri := "https://portal.example.com/callback";
     AuthForm.Method := method; AuthForm.AutoSignin := true;
     AuthForm.SamlRequest := ""; AuthForm.SamlResponse := "";
     AuthForm.MfaType := "app"; AuthForm.Passcode := passcode;
     AuthForm.RecoveryCode := ""; AuthForm.LdapId := "" |}.

Definition request (body : AuthForm.t) (params : list (string * string))
    : Request.t :=
  {| Request.Body := Some body;
     Request.Input := fun key =>
       match find (fun kv => String.eqb (fst kv) key) params with
       | Some kv => snd kv
       | None => ""
       end;
     Request.Host := "sso.example.com";
     Request.AcceptLanguage := "en";
     Request.SessionID := "session-1" |}.

Definition everyone : list User.t := [alice; bob; carol].

(** carol, signed in, asks for an authorization code with PKCE method
    [plain] *)
Definition plain_pkce : Request.t :=
  request (form "code" "" "" "" "") [("code_challenge_method", "plain")].

(** a GitHub login whose [state] is neither the configured value nor the
    application name *)
Definition forged_state : Request.t :=
  request (form "code" "github" "" "evil" "") [].

(** carol, signed in, links GitHub; the site's provider reports the
    identity gh-42 *)
Definition link_github : Request.t :=
  request (form "code" "github" "" "casdoor" "") [].

Definition github_ctx : ProviderCtx :=
  mkProviderCtx portal (Some Demo.acme) github (Some (Provider.mk "github" "" ""))
    (Some octocat) None.

Definition after_exchange (us : list User.t) (se : Sess) : CSt.t Site.t Sess :=
  CSt.mk (site us) se [Called (OpGetToken "abc"); Called OpGetUserInfo].

(** alice is MFA-pending; her passcode is 123456 *)
Definition otp (passcode : string) : Request.t :=
  request (form "login" "" "" "" passcode) [].

(** an account at the limit of five failed sign-ins, and one below it *)
Definition captcha_request (name : string) : Request.t :=
  request (form "" "" "" "" "") [("organization", "acme"); ("user_id", name)].

End SiteDemo.

(** * Vocabulary of the properties *)

(** ** Package [object] *)

(** the composite ["{uid}_{uidNumber}"] *)
Definition composite (ldapUser : LdapUser.t) : string :=
  (LdapUser.Uid ldapUser ++ "_" ++ LdapUser.UidNumber ldapUser)%string.






(** the user struct [&User{Name: userName}] the servers are searched for *)
Definition searched_user (userName : string) : User.t :=
  {| User.Owner := ""; User.Name := userName; User.CreatedTime := "";
     User.Id := ""; User.Type_ := ""; User.DisplayName := "";
     User.Avatar := ""; User.Email := ""; User.Phone := "";
     User.CountryCode := ""; User.Region := ""; User.Address := [];
     User.Affiliation := ""; User.Tag := ""; User.Score := 0;
     User.IsAdmin := false; User.IsForbidden := false;
     User.IsDeleted := false; User.SignupApplication := "";
     User.Ldap := ""; User.Properties := [];
     User.SigninWrongTimes := 0 |}.

(** the events appended to the trace between two states *)
Definition events_since {W} (s s' : St.t W) : list Event :=
  skipn (length (St.trace s)) (St.trace s').

Section ObjectVocabulary.
Context {W : Type} {store : Store W} {dir : Directory W}.

Local Abbreviation St := (St.t W).

(** the uuid is the LDAP back-reference of one of the owner's users *)
Definition present_locally (owner uuid : string) (w : W) : Prop :=
  exists u, In u (user_rows w) /\ User.Owner u = owner /\ User.Ldap u = uuid.

(** the state after the two look-ups that open an iteration *)
Definition after_lookups (owner : string) (uuids : list string)
    (syncUser : LdapUser.t) (d' : nat) (s : St) : St :=
  St.mk (St.world s) d'
    (St.trace s ++ [QExistUuids owner uuids;
                    QUserByName (LdapUser.Uid syncUser) (composite syncUser)]).

(** the user struct an iteration hands to [AddUser] *)
Definition candidate (owner : string) (organization : Organization.t)
    (affiliation tag : string) (syncUser : LdapUser.t) (name : string)
    (score : Z) (s : St) : User.t :=
  new_ldap_user owner name (GetCurrentTime (St.world s)) syncUser organization
    affiliation tag score.

(** a configured server that yields no directory entry for the user: it
    is skipped because another server id was asked for, or the connection
    to it fails, or its search returns no user *)
Definition yields_nothing (ldapId userName : string) (s : St)
    (ldapServer : Ldap.t) : Prop :=
  (ldapId <> "" /\ Ldap.Id ldapServer <> ldapId)
  \/ (exists c e,
        GetLdapConn (R := LdapLookup) ldapServer s = (Val (c, Some e), s))
  \/ (exists c err,
        GetLdapConn (R := LdapLookup) ldapServer s = (Val (Some c, None), s) /\
        GetLdapUsers (R := LdapLookup) c ldapServer
          (Some (searched_user userName)) s = (Val ([], err), s)).

End ObjectVocabulary.

(** ** Package [controllers] *)

Definition is_call (e : Effect) : bool :=
  match e with Called _ => true | _ => false end.

(** a PKCE method other than S256, the literal null, and the empty string *)
Definition bad_challenge_method (m : string) : Prop :=
  m <> "S256" /\ m <> "null" /\ m <> "".

Definition conflict_reason (provider : Provider.t) (userInfo : UserInfo.t)
    (oldUser : User.t) : string :=
  ("Login error: provider: " ++ Provider.Type_ provider
     ++ " and username: " ++ UserInfo.Username userInfo
     ++ " (" ++ UserInfo.DisplayName userInfo
     ++ ") is already linked to another account "
     ++ User.Name oldUser ++ " (" ++ User.DisplayName oldUser ++ ")")%string.

(** the response of a completed link attempt (source lines 980-984) *)
Definition link_response (isLinked : bool) : Response.t :=
  if isLinked then Response.mk "ok" "" (VBool true) VNil
  else Response.mk "error" "Failed to link user account" (VBool false) VNil.

(** a request that enters the MFA branch with a passcode *)
Definition mfa_attempt (r : Request.t) (authForm : AuthForm.t) : Prop :=
  Request.Body r = Some authForm /\
  AuthForm.Username authForm = "" /\
  AuthForm.Provider authForm = "" /\
  AuthForm.Passcode authForm <> "".

Section ControllerVocabulary.
Context {W Sess : Type} {backend : Backend W}.
Variable req : Request.t.

Local Abbreviation CSt := (CSt.t W Sess).

(** a run that ends in a [return] after an error reply, having called no
    collaborator that acts on the world *)
Definition rejected_without_calls {A} (out : Res unit A * CSt) (s : CSt) : Prop :=
  exists evs r,
    out = (Ret tt,
           CSt.mk (CSt.world s) (CSt.sess s) (CSt.effects s ++ evs ++ [Replied r])) /\
    is_error_reply r = true /\
    filter is_call (evs ++ [Replied r]) = [].

(** the application a provider login is for (source lines 566-582) *)
Definition lookup_application (authForm : AuthForm.t) (w : W)
    : option Application.t * option error :=
  if negb (String.eqb (AuthForm.ClientId authForm) "")
  then GetApplicationByClientId (AuthForm.ClientId authForm) w
  else GetApplication ("admin/" ++ AuthForm.Application authForm)%string w.

(** the error detail of a linking conflict (source line 951) *)
Definition conflict_message (provider : Provider.t) (userInfo : UserInfo.t)
    (oldUser : User.t) : string :=
  Sprintf
    (tr req "auth:The account for provider: %s and username: %s (%s) is already linked to another account: %s (%s)")
    [Provider.Type_ provider; UserInfo.Username userInfo;
     UserInfo.DisplayName userInfo; User.Name oldUser; User.DisplayName oldUser].

(** the state a wrong passcode leaves behind: the world as [Verify] left
    it, the session untouched, three more effects *)
Definition after_wrong_otp (s : CSt) (passcode : string) (w' : W) : CSt :=
  CSt.mk w' (CSt.sess s)
    (CSt.effects s ++
       [Called (OpMfaVerify passcode); AddReason "OTP was wrong";
        Replied (ResponseUnprocessableEntity "OTP was wrong")]).

End ControllerVocabulary.

(** ** Further vocabulary: the directory code *)

(** the attribute names of the [switch] in [GetLdapUsers] *)
Definition known_attribute (name : string) : bool :=
  string_inb name
    ["uidNumber"; "uid"; "sAMAccountName"; "cn"; "gidNumber"; "entryUUID";
     "objectGUID"; "userPrincipalName"; "displayName"; "mail"; "email";
     "emailAddress"; "telephoneNumber"; "mobile"; "mobileTelephoneNumber";
     "registeredAddress"; "postalAddress"; "memberOf"].

(** the attribute names of the [switch] in [isMicrosoftAD] *)
Definition server_attribute (name : string) : bool :=
  string_inb name
    ["vendorname"; "vendorversion"; "isGlobalCatalogReady"; "forestFunctionality"].

(** the first value of the last attribute called [name]; empty when there
    is no such attribute *)
Definition last_value (name : string) (attrs : list Entry.Attribute) : string :=
  fold_left
    (fun acc a => if String.eqb (Entry.Name a) name
                  then hd "" (Entry.Values a) else acc)
    attrs "".

(** all attributes of all entries, in order *)
Definition all_attributes (entries : list Entry.t) : list Entry.Attribute :=
  flat_map Entry.Attributes entries.

(** one [(field=value)] term of the authentication filter *)
Definition filter_term (user : User.t) (field : string) : string :=
  ("(" ++ field ++ "=" ++ getFieldFromLdapAttribute user field ++ ")")%string.

(** the settings of a directory that a connection without TLS depends on *)
Definition same_plain_settings (a b : Ldap.t) : Prop :=
  Ldap.Host a = Ldap.Host b /\ Ldap.Port a = Ldap.Port b /\
  Ldap.Username a = Ldap.Username b /\ Ldap.Password a = Ldap.Password b.

(** the filter fields [getFieldFromLdapAttribute] knows *)
Definition known_filter_field (field : string) : bool :=
  string_inb field ["uid"; "sAMAccountName"; "mail"; "mobile"; "userPrincipalName"].

(** an attribute cut down to its first value *)
Definition first_value_only (a : Entry.Attribute) : Entry.Attribute :=
  Entry.mkAttribute (Entry.Name a) (firstn 1 (Entry.Values a)).

Definition first_values_only (entry : Entry.t) : Entry.t :=
  Entry.mk (map first_value_only (Entry.Attributes entry)).

(** an attribute the [switch] of [GetLdapUsers] reads but that carries no
    value *)
Definition valueless_known (a : Entry.Attribute) : bool :=
  known_attribute (Entry.Name a) &&
  match Entry.Values a with [] => true | _ :: _ => false end.

(** the same for the [switch] of [isMicrosoftAD] *)
Definition valueless_server (a : Entry.Attribute) : bool :=
  server_attribute (Entry.Name a) &&
  match Entry.Values a with [] => true | _ :: _ => false end.

(** the server is not passed over by the id test of [SyncUserFromLdap] *)
Definition server_selected (ldapId : string) (ldapServer : Ldap.t) : Prop :=
  ldapId = "" \/ Ldap.Id ldapServer = ldapId.

(** the decision of [isMicrosoftAD], on the attributes the root entry
    search returned *)
Definition looks_like_active_directory (attrs : list Entry.Attribute) : bool :=
  String.eqb (last_value "vendorname" attrs) ""
  && String.eqb (last_value "vendorversion" attrs) ""
  && String.eqb (last_value "isGlobalCatalogReady" attrs) "TRUE"
  && negb (String.eqb (last_value "forestFunctionality" attrs) "").

(** the bind that [GetLdapConn] performs on a fresh connection succeeded:
    the external (certificate) bind when TLS and cryptographic
    authentication are both on, else the simple bind with the configured
    name and password *)
Definition bind_accepted {W} {dir : Directory W} (ldap : Ldap.t) (c : Conn)
    (w : W) : Prop :=
  (if Ldap.EnableSsl ldap && Ldap.EnableCryptographicAuth ldap
   then ExternalBind c w
   else Bind c (Ldap.Username ldap) (Ldap.Password ldap) w) = None.

Section BatchVocabulary.
Context {W : Type} {store : Store W}.

(** what a write does to the world; the look-ups leave it as it is *)
Definition apply_write (e : Event) (w : W) : W :=
  match e with
  | WAddUser u => snd (AddUser u w)
  | WAddUserIdProvider p => snd (AddUserIdProvider p w)
  | WSyncRoles lu name owner => snd (SyncRoles lu name owner w)
  | _ => w
  end.

(** the world after the events [evs], made in order from [w] *)
Definition replay (w : W) (evs : list Event) : W :=
  fold_left (fun w e => apply_write e w) evs w.

(** every event with the world it was made in *)
Fixpoint in_worlds (w : W) (evs : list Event) : list (W * Event) :=
  match evs with
  | [] => []
  | e :: rest => (w, e) :: in_worlds (apply_write e w) rest
  end.

(** the outcome of a creation made in [w]: when [AddUser] reports the
    user as added, without error, the user as it was handed over and as
    [AddUser] left it (with its id) *)
Definition created (we : W * Event) : option (User.t * User.t) :=
  match snd we with
  | WAddUser u =>
      match fst (AddUser u (fst we)) with
      | (u', true, None) => Some (u, u')
      | _ => None
      end
  | _ => None
  end.

Definition is_created (we : W * Event) : bool :=
  match created we with Some _ => true | None => false end.

(** every identity link in a run of events is written directly after a
    creation that succeeded, and it carries the directory uuid that user
    was created with and the id [AddUser] gave it; [prev] is the outcome of
    the event just before, if that was a successful creation *)
Fixpoint links_follow (prev : option (User.t * User.t))
    (evs : list (W * Event)) : bool :=
  match evs with
  | [] => true
  | (w, WAddUserIdProvider p) :: rest =>
      match prev with
      | Some (u, u') =>
          String.eqb (User.Ldap u) (UserIdProvider.UsernameFromIdp p)
          && String.eqb (User.Id u') (UserIdProvider.UserId p)
      | None => false
      end && links_follow None rest
  | we :: rest => links_follow (created we) rest
  end.

End BatchVocabulary.

Definition count_events (f : Event -> bool) (evs : list Event) : nat :=
  length (filter f evs).

Definition is_add_user (e : Event) : bool :=
  match e with WAddUser _ => true | _ => false end.

Definition is_add_link (e : Event) : bool :=
  match e with WAddUserIdProvider _ => true | _ => false end.

(** what [SyncUserFromLdap] makes of the outcome of the synchronisation it
    runs for the entries [res] found on a server *)
Definition found_outcome (res : list LdapUser.t)
    (r : Res SyncResult SyncResult) : Res LdapLookup LdapLookup :=
  match r with
  | Val (_, _, err) | Ret (_, _, err) => Val (hd_error res, err)
  | Panic why => Panic why
  end.

(** a request whose decoded form names a provider and no user *)
Definition provider_form (r : Request.t) (authForm : AuthForm.t) : Prop :=
  Request.Body r = Some authForm /\
  AuthForm.Username authForm = "" /\
  AuthForm.Provider authForm <> "".

(** ** Further vocabulary: the webhook and the SAML relay *)

Section WebhookVocabulary.
Variable Unmarshal : string -> option Hook.Data.

(** the scan type a delivery leaves in the package variable, if any: its
    body must be readable and decode, and carry an event key *)
Definition scan_of (body : option string) : option string :=
  match body with
  | Some bytes =>
      match Unmarshal bytes with
      | Some data =>
          if String.eqb (Hook.EventKey data) "" then None
          else Some (Hook.Event data)
      | None => None
      end
  | None => None
  end.

(** the scan type of the last delivery that left one, else [init] *)
Definition pending_scan (bodies : list (option string)) (init : string)
    : string :=
  fold_left (fun acc body => match scan_of body with
                             | Some e => e
                             | None => acc
                             end) bodies init.

(** the state after the deliveries were handled one after the other *)
Definition deliver_all (bodies : list (option string)) (g : Hook.t) : Hook.t :=
  fold_left (fun g body => snd (HandleOfficialAccountEvent Unmarshal body g))
    bodies g.

(** the answer of [GetWebhookEventType] that carries [scan] *)
Definition scan_answer (scan : string) : Hook.Output :=
  Hook.Reply_ (ServeJSON (Some (Response.mk "ok" "" (VString scan) VNil))).

End WebhookVocabulary.

(** how often the byte [c] occurs in [s] *)
Fixpoint count_char (c : ascii) (s : string) : nat :=
  match s with
  | EmptyString => 0
  | String x rest => (if Ascii.eqb x c then 1 else 0) + count_char c rest
  end.

(** the redirect of [HandleSamlLogin] to [target] *)
Definition relay_redirect (QueryEscape : string -> string) (req : Request.t)
    (target : string) : Hook.Output :=
  Hook.Redirect
    (target ++ "?relayState=" ++ QueryEscape (Request.Input req "RelayState")
       ++ "&samlResponse=" ++ QueryEscape (Request.Input req "SAMLResponse"))
    303.

(** the replies [GetApplicationLogin] can make *)
Definition login_page_reply {W} {page : LoginPage W} (r : Reply) : Prop :=
  match r with
  | ResponseOk data => exists application, data = [masked_application application]
  | ResponseError _ data =>
      data = [] \/ exists application, data = [masked_application application]
  | ResponseInternalServerError msg => msg = "internal server error"
  | _ => False
  end.

(** ** Further vocabulary: the password branch and the sign-up branch *)

Section OpenBranchVocabulary.
Context {W Sess : Type} {backend : Backend W} {web : WebSession Sess}
  {accounts : @Accounts W backend}.

(** a request whose decoded form names a user and carries a password *)
Definition password_form (r : Request.t) (authForm : AuthForm.t) : Prop :=
  Request.Body r = Some authForm /\
  AuthForm.Username authForm <> "" /\
  AuthForm.Password authForm <> "".

(** the test on the session at the head of the password branch lets the
    request through *)
Definition may_sign_in (authForm : AuthForm.t) (se : Sess) : Prop :=
  AuthForm.Type_ authForm <> ResponseTypeLogin \/ GetSessionUsername se = "".

(** the sign-in method of the form is switched off for the application *)
Definition method_refused (authForm : AuthForm.t) (application : Application.t)
    : bool :=
  String.eqb (AuthForm.SigninMethod authForm) "Password"
  && negb (EnablePassword application)
  || String.eqb (AuthForm.SigninMethod authForm) "LDAP"
     && negb (IsLdapEnabled application).

(** the flag [isPasswordWithLdapEnabled] of the password branch *)
Definition password_with_ldap (authForm : AuthForm.t)
    (application : Application.t) : bool :=
  if String.eqb (AuthForm.SigninMethod authForm) "Password"
  then IsPasswordWithLdapEnabled application else false.

(** the identity-provider row a sign-in through a provider refreshes *)
Definition refreshed_link (organization : Organization.t)
    (provider : Provider.t) (userInfo : UserInfo.t) (now : string)
    : UserIdProvider.t :=
  {| UserIdProvider.Owner := Organization.Name organization;
     UserIdProvider.LdapId := "";
     UserIdProvider.ProviderName := Provider.Name provider;
     UserIdProvider.UsernameFromIdp := UserInfo.Username userInfo;
     UserIdProvider.CreatedTime := "";
     UserIdProvider.LastSignInTime := now;
     UserIdProvider.UserId := "" |}.

(** the reason that names the provider, when it can be serialised *)
Definition provider_reason (provider : Provider.t) : list Effect :=
  match Provider_json provider with
  | Some jsonProvider => [AddReason ("provider: " ++ jsonProvider)]
  | None => []
  end.

End OpenBranchVocabulary.

(** ** Further directories for the examples *)

Module Lab.
Import Mem Demo.

(** A network like [Mem.network], in which the root entry search returns
    [root], the directory content [found] may depend on the time of day,
    and the password check answers [check]. *)
Definition network (up : list string) (root : list Entry.t)
    (found : string -> list Entry.t) (check : option error)
    : Directory Mem.t := {|
  Conn := string;
  TlsConfig := unit;
  TlsCertificate := unit;
  empty_tls := tt;
  set_Certificates := fun _ c => c;
  GetTlsConfigForCert := fun _ _ => (Some tt, None);
  getCertByName := fun _ _ => (None, None);
  X509KeyPair := fun _ _ => (tt, None);
  scopeClientCert := "Client";
  ErrCertDoesNotExist := "certificate does not exist";
  ErrCertInvalidScope := "invalid certificate scope";
  DialTLS := fun addr _ _ =>
    if string_inb addr up then (Some addr, None)
    else (None, Some "dial tcp: connection refused");
  Dial := fun addr _ =>
    if string_inb addr up then (Some addr, None)
    else (None, Some "dial tcp: connection refused");
  ExternalBind := fun _ _ => None;
  Bind := fun _ _ _ _ => None;
  Search := fun _ _ _ => (Some root, None);
  SearchWithPaging := fun _ _ _ w => (Some (found (clock w)), None);
  GetLdaps := fun _ w => (ldaps w, None);
  CheckLdapUserPassword := fun _ _ _ _ => ("", check);
  ReturnAnyNotEmpty := fun l =>
    match filter (fun x => negb (String.eqb x "")) l with
    | x :: _ => x
    | [] => ""
    end;
  attribute_mapping_keys := map AttributeMappingItem.Attribute;
  MapAttributeToUser := fun _ u _ => u;
  role_mapping_roles := fun _ _ _ => None
|}.

(** the root entry of an Active Directory domain controller *)
Definition ad_root : Entry.t :=
  Entry.mk [Entry.mkAttribute "isGlobalCatalogReady" ["TRUE"];
            Entry.mkAttribute "forestFunctionality" ["7"]].

(** an entry whose [mail] attribute came back without a value *)
Definition eve_entry : Entry.t :=
  Entry.mk [Entry.mkAttribute "uid" ["eve"];
            Entry.mkAttribute "mail" []].

Definition active_directory : Directory Mem.t :=
  network ["ldap.example.com:389"] [ad_root] (fun _ => [dave_entry]) None.

Definition has_eve : Directory Mem.t :=
  network ["ldap.example.com:389"] [] (fun _ => [eve_entry]) None.

(** the first server has dave but the password check fails *)
Definition rejecting : Directory Mem.t :=
  network ["ldap.example.com:389"] [] (fun _ => [dave_entry])
    (Some "invalid credentials").

(** at night the directory serves only the first value of each attribute *)
Definition trimmed_at_night : Directory Mem.t :=
  network ["ldap.example.com:389"] []
    (fun now => if String.eqb now "night"
                then map first_values_only [dave_entry]
                else [dave_entry])
    None.

Definition at_night : Mem.t :=
  {| users := []; links := []; role_rows := []; orgs := [acme];
     ldaps := [directory false; backup]; clock := "night" |}.

(** the settings of [directory false] with certificate settings filled in
    but TLS still off *)
Definition with_certificates : Ldap.t :=
  {| Ldap.Id := "ldap-1"; Ldap.Host := "ldap.example.com"; Ldap.Port := 389;
     Ldap.EnableSsl := false; Ldap.Username := "cn=admin,ou=eng,dc=example,dc=com";
     Ldap.Password := "secret"; Ldap.BaseDn := "ou=people,dc=example,dc=com";
     Ldap.Filter := "(objectClass=posixAccount)"; Ldap.FilterFields := [];
     Ldap.Cert := "ca-cert"; Ldap.EnableCryptographicAuth := true;
     Ldap.ClientCert := "client-cert"; Ldap.EnableRoleMapping := false;
     Ldap.RoleMappingItems := []; Ldap.EnableAttributeMapping := false;
     Ldap.AttributeMappingItems := [] |}.

Definition plain_conn : LdapConn.t string :=
  LdapConn.mk "ldap.example.com:389" false.

End Lab.

(** ** Further vocabulary: the controller *)

(** a call of [AddSession], whether or not it adds the entry *)
Definition is_AddSession (e : Effect) : bool :=
  match e with Called (OpAddSession _) => true | _ => false end.

(** a call that issues what the client asked for: an authorization code,
    a token, a SAML response or a CAS ticket *)
Definition is_artifact (e : Effect) : bool :=
  match e with
  | Called (OpGetOAuthCode _ _ _ _ _ _ _) | Called (OpGetTokenByUser _ _)
  | Called (OpGetSamlResponse _) | Called (OpGenerateCasToken _ _) => true
  | _ => false
  end.

Definition is_GetUserInfo (e : Effect) : bool :=
  match e with Called OpGetUserInfo => true | _ => false end.

Definition count_effects (f : Effect -> bool) (evs : list Effect) : nat :=
  length (filter f evs).

(** the effects appended between two states of a handler *)
Definition effects_since {W Sess} (s s' : CSt.t W Sess) : list Effect :=
  skipn (length (CSt.effects s)) (CSt.effects s').

Section CompletionVocabulary.
Context {W Sess : Type} {backend : Backend W} {web : WebSession Sess}.
Variable req : Request.t.

Local Abbreviation CSt := (CSt.t W Sess).

(** a stage of [HandleLoggedIn] before the session is recorded: it goes
    on without having replied, or it replies once and returns nil; it
    never records a session and issues at most one artifact *)
Definition stage_outcome {A} (out : Res (option Response.t) A * CSt) (s : CSt)
    : Prop :=
  exists evs,
    CSt.effects (snd out) = CSt.effects s ++ evs /\
    filter is_AddSession evs = [] /\
    count_effects is_artifact evs <= 1 /\
    match fst out with
    | Val _ => filter is_reply evs = []
    | Ret r => r = None /\ count_effects is_reply evs = 1
    | Panic _ => filter is_reply evs = []
    end.

(** the session entry [HandleLoggedIn] adds *)
Definition session_entry (application : Application.t) (user : User.t)
    : Session.t :=
  {| Session.Owner := User.Owner user;
     Session.Name := User.Name user;
     Session.Application := Application.Name application;
     Session.SessionId := [Request.SessionID req] |}.

(** what a call of [HandleLoggedIn] from state [s] may have done when it
    ends with [out]: at most one reply, at most one artifact; a nil result
    after exactly one reply and no call of [AddSession]; a non-nil result
    after exactly one call of [AddSession] (which may have failed) when
    its status is ok and after none otherwise, and with a reply only when
    its status is ok; no [return] escapes; a panic comes before any reply
    and any call of [AddSession] *)
Definition logged_in_outcome {R} (s : CSt)
    (out : Res R (option Response.t) * CSt) : Prop :=
  let evs := effects_since s (snd out) in
  count_effects is_reply evs <= 1 /\
  count_effects is_artifact evs <= 1 /\
  match fst out with
  | Val None =>
      count_effects is_reply evs = 1 /\ count_effects is_AddSession evs = 0
  | Val (Some resp) =>
      count_effects is_AddSession evs
      = (if String.eqb (Response.Status resp) "ok" then 1 else 0) /\
      (count_effects is_reply evs = 1 -> Response.Status resp = "ok")
  | Ret _ => False
  | Panic _ =>
      count_effects is_reply evs = 0 /\ count_effects is_AddSession evs = 0
  end.

(** a sufficient condition for the checks at the head of
    [HandleLoggedIn] to let the user through: not an invited user, the
    permission check allows, the tag check does not apply or is met, and
    the user is not a paid user *)
Definition gates_pass (application : Application.t) (user : User.t) (w : W)
    : Prop :=
  User.Type_ user <> "invited-user" /\
  CheckLoginPermission (User_GetId user) application w = (true, None) /\
  (IsGlobalAdmin user = true \/ User.IsAdmin user = true \/
   Application.Tags application = [] \/
   InSlice (Application.Tags application) (User.Tag user) = true) /\
  User.Type_ user <> "paid-user".

(** the user is turned away at the head of [HandleLoggedIn] *)
Definition turned_away (application : Application.t) (user : User.t) (w : W)
    : Prop :=
  User.Type_ user = "invited-user" \/
  fst (CheckLoginPermission (User_GetId user) application w) = false \/
  snd (CheckLoginPermission (User_GetId user) application w) <> None.

End CompletionVocabulary.

Section LoginVocabulary.
Context {W Sess : Type} {backend : Backend W} {web : WebSession Sess}
  {current : CurrentUser W Sess}.

Local Abbreviation CSt := (CSt.t W Sess).

(** a request whose decoded form names neither a user nor a provider, so
    that [Login] decides by the session *)
Definition session_form (r : Request.t) (authForm : AuthForm.t) : Prop :=
  Request.Body r = Some authForm /\
  AuthForm.Username authForm = "" /\
  AuthForm.Provider authForm = "".

(** the session carries no marker of a login in progress *)
Definition no_pending_step (se : Sess) : Prop :=
  getMfaUserSession se = "" /\ getChangePasswordUserSession se = "".

(** unless the handler panicked, the MFA-pending marker was reset last *)
Definition marker_cleared (out : Res unit unit * CSt) : Prop :=
  match fst out with
  | Panic _ => True
  | _ => exists se, CSt.sess (snd out) = setMfaUserSession "" se
  end.

(** among the effects [evs] of an exchange started in the world [w]: a
    user-info request was made only after the token request, made in
    [w], succeeded with a valid token *)
Definition user_info_needs_token (authForm : AuthForm.t) (w : W)
    (evs : list Effect) : Prop :=
  filter is_GetUserInfo evs = [] \/
  exists (idProvider : IdProvider) (token : option OAuthToken) (w' : W),
    GetToken idProvider (AuthForm.Code authForm) w = ((token, None), w') /\
    Token_Valid token = true /\
    count_effects is_GetUserInfo evs = 1 /\
    count_effects is_GetToken evs = 1.

End LoginVocabulary.

(** ** Further sites for the examples *)

Module SiteLab.
Import Site SiteDemo.

(** A backend like [Site.backend] in which the permission check answers
    [permission], adding a session entry fails with [session_error], if
    given, and the look-ups of organisations and providers fail with
    [lookup_error], if given. *)
Definition backend_with (permission : bool * option error)
    (session_error lookup_error : option error) : Backend Site.t := {|
  T := fun _ key => after_colon key;
  Sprintf := sprintf;
  User_GetId := user_id;
  util_GetId := fun owner name => (owner ++ "/" ++ name)%string;
  StructToJson := fun form => AuthForm.Type_ form;
  GetConfigString := fun key =>
    if String.eqb key "authState" then "casdoor" else "";
  EqualFold := String.eqb;
  InSlice := fun l x => string_inb x l;
  IsGlobalAdmin := fun u => String.eqb (User.Owner u) "built-in";
  IsPasswordChangeRequired := fun u =>
    String.eqb (property "passwordChangeRequired" u) "true";
  HasPromptPage := fun _ => false;
  IsGrantTypeValid := fun ty l => string_inb ty l;
  wrapErrorResponse := fun err =>
    match err with
    | Some e => Response.mk "error" e VNil VNil
    | None => Response.mk "ok" "" VNil VNil
    end;
  SigninWrongTimesLimit := 5;
  NextChangePasswordForm := "NextChangePasswordForm";
  Subscription := string;
  Subscription_State := fun s => s;
  Subscription_json := fun s => s;
  SubStateActive := "Active";
  SubStatePending := "Pending";
  Pricing := string;
  Pricing_json := fun p => p;
  GetSubscriptionsByUser := fun _ _ _ => ([], None);
  GetApplicationDefaultPricing := fun _ _ _ => (None, None);
  CheckLoginPermission := fun _ _ _ => permission;
  GetApplication := fun id w =>
    (find (fun a => String.eqb ("admin/" ++ Application.Name a) id) (apps w), None);
  GetApplicationByClientId := fun id w =>
    (find (fun a => String.eqb ("client-" ++ Application.Name a) id) (apps w), None);
  GetOrganization := fun id w =>
    match lookup_error with
    | Some e => (None, Some e)
    | None =>
        (find (fun o => String.eqb ("admin/" ++ Organization.Name o) id)
           (Mem.orgs (db w)), None)
    end;
  GetProvider := fun id w =>
    match lookup_error with
    | Some e => (None, Some e)
    | None =>
        (find (fun p => String.eqb ("admin/" ++ Provider.Name p) id)
           (providers w), None)
    end;
  GetUser := fun id w => (get_user id w, None);
  GetUserByField := fun owner field value w =>
    (get_user_by_field owner field value w, None);
  GetUserByFields := fun owner name w =>
    (get_user (owner ++ "/" ++ name) w, None);
  ProviderItem := Provider.t;
  GetProviderItem := fun _ name => Some (Provider.mk name "" "");
  IsProviderVisible := fun item =>
    match item with Some _ => true | None => false end;
  GetOAuthCode := fun userId _ _ _ _ _ _ _ _ _ _ w =>
    ((Some (Code.mk ("code-for-" ++ userId) ""), None), w);
  GetTokenByUser := fun _ u _ _ _ w =>
    ((Some (Token.mk ("token-for-" ++ user_id u) "refresh"), None), w);
  GetSamlResponse := fun _ _ _ _ w => (("assertion", "/", "POST", None), w);
  GenerateCasToken := fun userId _ w => (("ST-" ++ userId, None)%string, w);
  AddSession := fun session w =>
    match session_error with
    | Some e => ((false, Some e), w)
    | None =>
        ((true, None),
         mk (db w) (apps w) (providers w) (sessions w ++ [session]))
    end;
  IdpInfo := Provider.t;
  IdpInfo_Type := Provider.Type_;
  IdProvider := Provider.t;
  HttpClient := unit;
  OAuthToken := string;
  Jwt := string;
  FromProviderToIdpInfo := fun p _ => p;
  GetIdProvider := fun p _ => Some p;
  SetHttpClient := fun _ p => p;
  ProxyHttpClient := tt;
  GetProviderHttpClient := fun _ _ => (tt, None);
  GetToken := fun _ code w => ((Some ("token-" ++ code)%string, None), w);
  Token_Valid := fun t => match t with Some _ => true | None => false end;
  Token_AccessToken := fun t => t;
  Token_id_token := fun _ => "";
  GetUserInfo := fun p t w =>
    ((Some (UserInfo.mk "gh-42" "octocat" "The Octocat" "" "" "" "" []), None), w);
  ParseSigned := fun _ => None;
  UnsafeClaimsWithoutVerification := fun _ d => (d, None);
  ParseSamlResponse := fun _ _ _ _ => (Some UserInfo.zero, None, None);
  SetUserOAuthProperties := fun _ _ _ _ w => ((true, None), w);
  LinkUserAccount := link_user;
  MfaProps := string;
  MfaUtil := string;
  GetPreferredMfaProps := fun u _ => property "totp" u;
  GetMfaUtil := fun mfaType props =>
    if String.eqb mfaType "app" then Some props else None;
  MfaVerify := fun expected passcode w =>
    (if String.eqb passcode expected then None else Some "invalid passcode", w);
  MfaRecover := fun _ _ w => (Some "recovery code not found", w)
|}.

Definition backend (permission : bool * option error)
    (session_error : option error) : Backend Site.t :=
  backend_with permission session_error None.

(** a backend whose organisation and provider tables cannot be read *)
Definition tables_down : Backend Site.t :=
  backend_with (true, None) None (Some "db:database is locked").

(** a backend whose session table cannot be written *)
Definition read_only : Backend Site.t :=
  backend (true, None) (Some "session table is read-only").

(** an invited user, and a user who has to change the password *)
Definition guest : User.t :=
  {| User.Owner := "acme"; User.Name := "guest"; User.CreatedTime := "";
     User.Id := "id-guest"; User.Type_ := "invited-user";
     User.DisplayName := "guest"; User.Avatar := ""; User.Email := "";
     User.Phone := ""; User.CountryCode := ""; User.Region := "";
     User.Address := []; User.Affiliation := ""; User.Tag := "";
     User.Score := 0; User.IsAdmin := false; User.IsForbidden := false;
     User.IsDeleted := false; User.SignupApplication := "";
     User.Ldap := ""; User.Properties := []; User.SigninWrongTimes := 0 |}.

Definition dora := account "dora" [("passwordChangeRequired", "true")].

Definition password_change_pending (id : string) : Sess := mkSess "" "" id false.

(** a form that names neither a user nor a provider *)
Definition bare (ty : string) : Request.t := request (form ty "" "" "" "") [].

End SiteLab.

(** ** Fixtures for the smaller handlers *)

Module HandlerLab.
Import Site SiteDemo.

(** a toy body decoder: [key|event] *)
Fixpoint split_bar (s : string) : option (string * string) :=
  match s with
  | EmptyString => None
  | String "|" rest => Some (EmptyString, rest)
  | String c rest =>
      match split_bar rest with
      | Some (k, e) => Some (String c k, e)
      | None => None
      end
  end.

Definition unmarshal (bytes : string) : option Hook.Data :=
  match split_bar bytes with
  | Some (key, event) => Some (Hook.mkData "event" event key)
  | None => None
  end.

Definition idle : Hook.t := Hook.mk "" [].

(** a toy relay-state decoder that accepts texts starting with [=] *)
Definition decode (s : string) : option string :=
  match s with
  | String "=" rest => Some rest
  | _ => None
  end.

Definition escape (s : string) : string := s.

Definition relay (state : string) : Request.t :=
  {| Request.Body := None;
     Request.Input := fun key =>
       if String.eqb key "RelayState" then state
       else if String.eqb key "SAMLResponse" then "assertion" else "";
     Request.Host := "sso.example.com";
     Request.AcceptLanguage := "en";
     Request.SessionID := "session-1" |}.

#[export] Instance page : LoginPage Site.t := {|
  CheckOAuthLogin := fun clientId _ _ _ _ _ w =>
    match find (fun a => String.eqb ("client-" ++ Application.Name a) clientId)
            (apps w) with
    | Some a => ("", Some a, None)
    | None => ("Invalid client_id", None, None)
    end;
  CheckCasLogin := fun _ _ _ _ => None;
  masked_application := fun a =>
    match a with
    | Some a => VObject "Application" (Application.Name a)
    | None => VNil
    end
|}.

Definition page_request (ty : string) : Request.t :=
  request (form "" "" "" "" "") [("type", ty); ("clientId", "client-portal")].

End HandlerLab.

(** ** Fixtures for the password branch and the sign-up branch *)

Module BranchLab.
Import Site SiteDemo SiteLab.

Definition with_db (d : Mem.t) (w : Site.t) : Site.t :=
  mk d (apps w) (providers w) (sessions w).

(** the store of the site is the store of its database *)
#[export] Instance store : Store Site.t := {|
  user_rows := fun w => Mem.users (db w);
  find_err := fun _ _ _ => None;
  get_err := fun _ _ _ => None;
  getOrganization := fun _ name w =>
    (find (fun o => String.eqb (Organization.Name o) name) (Mem.orgs (db w)),
     None);
  GetLdap := fun id w =>
    (find (fun l => String.eqb (Ldap.Id l) id) (Mem.ldaps (db w)), None);
  GetInitScore := fun _ _ => (0%Z, None);
  GetCurrentTime := fun w => Mem.clock (db w);
  AddUser := fun u w =>
    let (r, d) := Mem.add_user u (db w) in (r, with_db d w);
  AddUserIdProvider := fun p w =>
    let (r, d) := Mem.add_link p (db w) in (r, with_db d w);
  SyncRoles := fun lu name owner w =>
    let (r, d) := Mem.sync_roles lu name owner (db w) in (r, with_db d w);
  Hex := fun _ _ => "a1b2c3d4e5f6"
|}.

(** a site without reachable directory servers *)
#[export] Instance offline : Directory Site.t := {|
  Conn := string;
  TlsConfig := unit;
  TlsCertificate := unit;
  empty_tls := tt;
  set_Certificates := fun _ c => c;
  GetTlsConfigForCert := fun _ _ => (Some tt, None);
  getCertByName := fun _ _ => (None, None);
  X509KeyPair := fun _ _ => (tt, None);
  scopeClientCert := "Client";
  ErrCertDoesNotExist := "certificate does not exist";
  ErrCertInvalidScope := "invalid certificate scope";
  DialTLS := fun _ _ _ => (None, Some "dial tcp: connection refused");
  Dial := fun _ _ => (None, Some "dial tcp: connection refused");
  ExternalBind := fun _ _ => None;
  Bind := fun _ _ _ _ => None;
  Search := fun _ _ _ => (Some [], None);
  SearchWithPaging := fun _ _ _ _ => (Some [], None);
  GetLdaps := fun _ w => (Mem.ldaps (db w), None);
  CheckLdapUserPassword := fun _ _ _ _ => ("", None);
  ReturnAnyNotEmpty := fun l => hd "" l;
  attribute_mapping_keys := map AttributeMappingItem.Attribute;
  MapAttributeToUser := fun _ u _ => u;
  role_mapping_roles := fun _ _ _ => None
|}.

(** Accounts of the site: the password of a user is its property
    [password]; the captcha is switched on by [captcha] and its
    verification answers [human]; sign-up of new accounts is allowed when
    [open] is set. *)
Definition accounts (captcha : bool) (human : bool * option error)
    (open : bool) : @Accounts Site.t Site.backend := {|
  EnablePassword := fun _ => true;
  IsLdapEnabled := fun _ => false;
  IsPasswordWithLdapEnabled := fun _ => false;
  EnableLinkWithEmail := fun _ => false;
  EnableInternalSignUp := fun _ => open;
  EnableIdpSignUp := fun _ => open;
  CanSignUp := fun _ => true;
  Provider_EnableRoleMapping := fun _ => false;
  Provider_json := fun p => Some (Provider.Name p);
  IsMfaEnabled := fun u => negb (String.eqb (property "totp" u) "");
  User_GetCountryCode := fun _ c => c;
  MfaProps_json := fun p => p;
  User_json := User.Name;
  GetVerifyType := fun _ => "email";
  VerifyTypePhone := "phone";
  GetE164Number := fun n _ => (n, true);
  CheckSigninCode := fun _ _ _ _ w => (None, w);
  DisableVerificationCode := fun _ w => (None, w);
  CheckToEnableCaptcha := fun _ _ _ _ => (captcha, None);
  VerifyCaptchaByCaptchaType := fun _ _ _ _ => human;
  CheckUserPassword := fun org name pw _ _ _ _ w =>
    match get_user (org ++ "/" ++ name) w with
    | Some u =>
        if String.eqb pw (property "password" u) then ((Some u, None), w)
        else ((None, Some "password incorrect"), w)
    | None => ((None, Some "user not found"), w)
    end;
  CheckPassErrorToMessage := fun e _ => e;
  GetOrganizationByUser := fun _ w => (hd_error (Mem.orgs (db w)), None);
  IsNeedPromptMfa := fun _ _ => false;
  RequiredMfa := "RequiredMfa";
  NextMfa := "NextMfa";
  UpdateUserIdProvider := fun _ _ w => (None, w);
  NewRandom := fun _ => ("123e4567-e89b-12d3-a456-426614174000", None);
  GenerateId := fun _ => "generated-id";
  GetUserCount := fun _ _ _ _ w => (Z.of_nat (length (Mem.users (db w))), None);
  oauth_properties_set := fun _ u _ _ _ => u;
  account_linked := fun u _ _ _ => u;
  NewRoleMapper := fun _ _ => ([], None);
  AddRolesToUser := fun _ _ w => (None, w)
|}.

Definition no_fields : PasswordFields.t := PasswordFields.mk "" "" "" "".

Definition no_action (_ : string) : M (CSt.t Site.t Sess) unit unit := ret tt.

(** erin, whose password is [hunter2] *)
Definition erin := account "erin" [("password", "hunter2")].

(** a password sign-in of erin for an authorization code *)
Definition password_form_of (password : string) : AuthForm.t :=
  {| AuthForm.Type_ := "code"; AuthForm.SigninMethod := "Password";
     AuthForm.Organization := "acme"; AuthForm.Username := "erin";
     AuthForm.Password := password; AuthForm.Application := "portal";
     AuthForm.ClientId := ""; AuthForm.Provider := "";
     AuthForm.Code := ""; AuthForm.State := "";
     AuthForm.RedirectUri := ""; AuthForm.Method := "";
     AuthForm.AutoSignin := true; AuthForm.SamlRequest := "";
     AuthForm.SamlResponse := ""; AuthForm.MfaType := "";
     AuthForm.Passcode := ""; AuthForm.RecoveryCode := "";
     AuthForm.LdapId := "" |}.

Definition password_request (password : string) : Request.t :=
  request (password_form_of password) [].

(** a provider that sends codes by e-mail *)
Definition mailer : Provider.t :=
  {| Provider.Name := "mailer"; Provider.Category := "Email";
     Provider.Type_ := "SMTP" |}.

Definition mailer_ctx : ProviderCtx :=
  mkProviderCtx portal (Some Demo.acme) mailer (Some (Provider.mk "mailer" "" ""))
    (Some UserInfo.zero) None.

Definition signup_form : AuthForm.t := form "login" "mailer" "signup" "" "".

(** the site after its application was deleted *)
Definition retired : Site.t :=
  {| db := Demo.world false everyone; apps := []; providers := [github];
     sessions := [] |}.

End BranchLab.

(** * Properties *)

(** ** The monad *)

Lemma bind_val {S R A B} (m : M S R A) (k : A -> M S R B) s a s' :
  m s = (Val a, s') -> bind m k s = k a s'.
Proof. unfold bind; intros ->; reflexivity. Qed.

Lemma bind_ret_early {S R A B} (m : M S R A) (k : A -> M S R B) s r s' :
  m s = (Ret r, s') -> bind m k s = (Ret r, s').
Proof. unfold bind; intros ->; reflexivity. Qed.

Lemma bind_panic {S R A B} (m : M S R A) (k : A -> M S R B) s w s' :
  m s = (Panic w, s') -> bind m k s = (Panic w, s').
Proof. unfold bind; intros ->; reflexivity. Qed.

(** ** Strings *)

Lemma string_inb_In x l : string_inb x l = true <-> In x l.
Proof.
  unfold string_inb; rewrite existsb_exists; split.
  - intros (y & Hy & E); apply String.eqb_eq in E; now subst.
  - intros H; exists x; split; [assumption | apply String.eqb_refl].
Qed.

(** A string that contains a three-byte key has at least three bytes, so
    the slice [part[3:]] of [SyncLdapUsers] is always in range. *)
Lemma prefix_slice (key s : string) :
  String.prefix key s = true ->
  exists v, Strings.slice_from (String.length key) s = Some v.
Proof.
  revert s; induction key as [|c key IH]; intros s H; simpl.
  - now exists s.
  - destruct s as [|d s]; simpl in H; [discriminate|].
    destruct (Ascii.ascii_dec c d); [|discriminate].
    apply IH; assumption.
Qed.

Lemma slice_from_suffix n c s v :
  Strings.slice_from n s = Some v ->
  exists v', Strings.slice_from n (String c s) = Some v'.
Proof.
  revert c s v; induction n as [|n IH]; intros c s v H; simpl.
  - now eexists.
  - destruct s as [|d s]; simpl in H; [discriminate|].
    eapply IH; eassumption.
Qed.

Lemma contains_slice (key s : string) :
  Strings.Contains s key = true ->
  exists v, Strings.slice_from (String.length key) s = Some v.
Proof.
  induction s as [|c s IH]; cbn [Strings.Contains];
    match goal with |- context [String.prefix key ?t] =>
      destruct (String.prefix key t) eqn:E end;
    intros H; try (now apply prefix_slice); try discriminate H.
  destruct (IH H) as [v Hv].
  eapply slice_from_suffix; eassumption.
Qed.

Lemma dn_values_total (parts : list string) (key : string) :
  String.length key = 3 -> exists vs, dn_values parts key = Some vs.
Proof.
  intros Hlen; induction parts as [|p ps [vs IH]]; cbn [dn_values].
  - now eexists.
  - destruct (Strings.Contains p key) eqn:E.
    + destruct (contains_slice _ _ E) as [v Hv]; rewrite Hlen in Hv.
      rewrite Hv, IH; now eexists.
    + now exists vs.
Qed.

(** ** The user-name policy of [buildLdapUserName] *)

Section NamePolicy.
Context {W : Type} {store : Store W}.






End NamePolicy.

Module NamePolicyExamples.
Import Mem Demo.

(** the spec's example: uid jdoe, uidNumber 1001, and a local user jdoe
    with a different LDAP uuid give exactly jdoe_1001 *)
Example jdoe_gets_composite :
  fst (buildLdapUserName (R := unit) jdoe taken) = Val ("jdoe_1001", None).
Proof. reflexivity. Qed.

Example jdoe_reuses_own_name :
  fst (buildLdapUserName (R := unit) jdoe
         (start (world false [local_user "acme" "jdoe_1001" "uuid-jdoe"])))
  = Val ("jdoe_1001", None).
Proof. reflexivity. Qed.

Example jdoe_gets_suffix :
  fst (buildLdapUserName (R := unit) jdoe
         (start (world false [local_user "acme" "jdoe_1001" "uuid-other"])))
  = Val ("jdoe_1001_a1b2c3d4e5f6", None).
Proof. reflexivity. Qed.

Example jdoe_free :
  fst (buildLdapUserName (R := unit) jdoe (start (world false [])))
  = Val ("jdoe", None).
Proof. reflexivity. Qed.



End NamePolicyExamples.

(** ** The synchronisation loop *)

Lemma events_since_app {W} (s s' : St.t W) evs :
  St.trace s' = St.trace s ++ evs -> events_since s s' = evs.
Proof.
  unfold events_since; intros ->.
  rewrite skipn_app, skipn_all, Nat.sub_diag; reflexivity.
Qed.

Ltac break_match :=
  match goal with
  | |- context [match ?x with _ => _ end] =>
      match type of x with
      | sumbool _ _ => destruct x
      | _ => destruct x eqn:?
      end
  end.

Lemma mark_exist_in syncUser existUuids existUsers found :
  NoDup existUuids -> In (LdapUser.Uuid syncUser) existUuids ->
  mark_exist syncUser existUuids existUsers found = (existUsers ++ [syncUser], true).
Proof.
  intros Hnd; revert existUsers found.
  induction Hnd as [|x l Hx Hnd IH]; intros existUsers found Hin; [destruct Hin|].
  cbn [mark_exist]. destruct (String.eqb_spec (LdapUser.Uuid syncUser) x) as [E|Hne].
  - subst x. clear IH Hin. revert Hx. generalize (existUsers ++ [syncUser]).
    induction l as [|y l IHl]; intros ex Hx; [reflexivity|].
    cbn [mark_exist]. destruct (String.eqb_spec (LdapUser.Uuid syncUser) y) as [E|_].
    + exfalso; apply Hx; left; congruence.
    + inversion Hnd; subst. apply IHl; [assumption|].
      intros H; apply Hx; right; exact H.
  - apply IH. destruct Hin as [E|Hin]; [congruence | assumption].
Qed.

Lemma mark_exist_notin syncUser existUuids existUsers found :
  ~ In (LdapUser.Uuid syncUser) existUuids ->
  mark_exist syncUser existUuids existUsers found = (existUsers, found).
Proof.
  revert existUsers found; induction existUuids as [|x l IH];
    intros existUsers found Hin; [reflexivity|].
  cbn [mark_exist]. destruct (String.eqb_spec (LdapUser.Uuid syncUser) x) as [E|_].
  - exfalso; apply Hin; left; congruence.
  - apply IH; intros H; apply Hin; right; exact H.
Qed.

Section SyncProperties.
Context {W : Type} {store : Store W}.

Local Abbreviation St := (St.t W).

Lemma select_distinct_ldap_In owner uuids rows x :
  In x (select_distinct_ldap owner uuids rows) <->
  In x uuids /\
  exists u, In u rows /\ User.Owner u = owner /\ User.Ldap u = x.
Proof.
  unfold select_distinct_ldap.
  rewrite nodup_In, in_map_iff. split.
  - intros (u & <- & Hu). apply filter_In in Hu as [Hin Hc].
    apply andb_true_iff in Hc as [Ho Hl].
    apply String.eqb_eq in Ho. apply string_inb_In in Hl.
    split; [assumption|]. exists u; auto.
  - intros (Hx & u & Hin & Ho & <-). exists u; split; [reflexivity|].
    apply filter_In; split; [assumption|].
    apply andb_true_iff; split;
      [now apply String.eqb_eq | now apply string_inb_In].
Qed.

Lemma select_distinct_ldap_NoDup owner uuids rows :
  NoDup (select_distinct_ldap owner uuids rows).
Proof. apply NoDup_nodup. Qed.

(** [GetExistUuids] is one query event and leaves the world alone. *)
Lemma GetExistUuids_run R owner uuids (s : St) :
  GetExistUuids (R := R) owner uuids s =
    (Val (match find_err (St.world s) owner uuids with
          | Some e => ([], Some e)
          | None => (select_distinct_ldap owner uuids (user_rows (St.world s)), None)
          end),
     St.mk (St.world s) (St.draws s) (St.trace s ++ [QExistUuids owner uuids])).
Proof.
  destruct s as [w d tr]; unfold GetExistUuids, bind, emit, modify, query, gets, ret.
  cbn. destruct (find_err w owner uuids); reflexivity.
Qed.

(** [buildLdapUserName] is one query event, possibly one random draw, and
    leaves the world alone; it fails only when the lookup fails. *)
Lemma buildLdapUserName_run R ldapUser (s : St) :
  exists (res : string * option error) (d' : nat),
    buildLdapUserName (R := R) ldapUser s =
      (Val res,
       St.mk (St.world s) d'
         (St.trace s ++ [QUserByName (LdapUser.Uid ldapUser) (composite ldapUser)]))
    /\ (get_err (St.world s) (LdapUser.Uid ldapUser) (composite ldapUser) = None ->
        snd res = None).
Proof.
  destruct s as [w d tr].
  unfold buildLdapUserName, bind, emit, modify, query, gets, draw_hex, ret.
  fold (composite ldapUser). cbn.
  destruct (get_err w (LdapUser.Uid ldapUser) (composite ldapUser)) as [e|]; cbn.
  - exists ("", Some e), d. split; [reflexivity | discriminate].
  - repeat (break_match; cbn);
      (eexists (_, None), _; split; reflexivity).
Qed.

Lemma sync_roles_step_run owner ldapId syncUser name acc (s : St) :
  sync_roles_step owner ldapId syncUser name acc s =
    match GetLdap ldapId (St.world s) with
    | (_, Some e) => (Ret (fst acc, snd acc, Some e), s)
    | (None, None) =>
        (Panic "nil pointer dereference: ldap.EnableRoleMapping", s)
    | (Some l, None) =>
        if Ldap.EnableRoleMapping l then
          let (err, w') := SyncRoles syncUser name owner (St.world s) in
          let s' := St.mk w' (St.draws s)
                      (St.trace s ++ [WSyncRoles syncUser name owner]) in
          match err with
          | Some e => (Ret (fst acc, snd acc, Some e), s')
          | None => (Val acc, s')
          end
        else (Val acc, s)
    end.
Proof.
  destruct s as [w d tr].
  unfold sync_roles_step, bind, emit, modify, query, gets, update, deref, ret,
    return_, panic.
  cbn. destruct (GetLdap ldapId w) as [[l|] [e|]]; cbn; try reflexivity.
  destruct (Ldap.EnableRoleMapping l); cbn; [|reflexivity].
  destruct (SyncRoles syncUser name owner w) as [[e|] w']; reflexivity.
Qed.

(** An iteration for a record that the lookup reports as present: after
    the two queries it goes straight to the role step, with the record
    appended to [existUsers]. *)
Lemma sync_one_present (owner ldapId : string)
    (organization : option Organization.t) (affiliation tag : string)
    (uuids : list string) (acc : Acc) (syncUser : LdapUser.t) (s : St) :
  find_err (St.world s) owner uuids = None ->
  In (LdapUser.Uuid syncUser) uuids ->
  present_locally owner (LdapUser.Uuid syncUser) (St.world s) ->
  exists (res : string * option error) (d' : nat),
    (get_err (St.world s) (LdapUser.Uid syncUser) (composite syncUser) = None ->
     snd res = None) /\
    sync_one owner ldapId organization affiliation tag uuids acc syncUser s =
      match snd res with
      | Some e =>
          (Ret ([], [], Some e), after_lookups owner uuids syncUser d' s)
      | None =>
          sync_roles_step owner ldapId syncUser (fst res)
            (fst acc ++ [syncUser], snd acc)
            (after_lookups owner uuids syncUser d' s)
      end.
Proof.
  intros Hfind Hin Hpres.
  assert (Hsel : In (LdapUser.Uuid syncUser)
                   (select_distinct_ldap owner uuids (user_rows (St.world s)))).
  { apply select_distinct_ldap_In; split; assumption. }
  unfold sync_one, after_lookups.
  erewrite bind_val by apply GetExistUuids_run.
  rewrite Hfind.
  rewrite (mark_exist_in _ _ _ (select_distinct_ldap_NoDup _ _ _) Hsel).
  match goal with |- context [bind (buildLdapUserName _) _ ?s1] =>
    destruct (buildLdapUserName_run SyncResult syncUser s1)
      as ([name err] & d' & Hrun & Hok)
  end.
  erewrite bind_val by exact Hrun.
  cbn [St.world St.draws St.trace fst snd] in *.
  rewrite <- app_assoc. cbn [app].
  exists (name, err), d'. split; [exact Hok|].
  destruct err as [e|]; reflexivity.
Qed.

(** C1 (amended). A record whose uuid is already the LDAP back-reference
    of one of the owner's users when its iteration runs, and whose two
    look-ups succeed, is appended to [existUsers] and is never created:
    the iteration issues no [AddUser] and no [AddUserIdProvider].  It is
    not free of writes, though: when the directory settings have role
    mapping enabled the iteration calls [SyncRoles] for the record, and
    that call is the only way the iteration changes the store. *)
Theorem existing_record_not_created (owner ldapId : string)
    (organization : option Organization.t) (affiliation tag : string)
    (uuids : list string) (acc : Acc) (syncUser : LdapUser.t) (s : St) :
  find_err (St.world s) owner uuids = None ->
  get_err (St.world s) (LdapUser.Uid syncUser) (composite syncUser) = None ->
  In (LdapUser.Uuid syncUser) uuids ->
  present_locally owner (LdapUser.Uuid syncUser) (St.world s) ->
  exists evs,
    St.trace (snd (sync_one owner ldapId organization affiliation tag uuids
                     acc syncUser s)) = St.trace s ++ evs /\
    filter is_creation evs = [] /\
    match fst (sync_one owner ldapId organization affiliation tag uuids
                 acc syncUser s) with
    | Val acc' => acc' = (fst acc ++ [syncUser], snd acc)
    | Ret res => exists e, res = (fst acc ++ [syncUser], snd acc, Some e)
    | Panic _ => GetLdap ldapId (St.world s) = (None, None)
    end /\
    match GetLdap ldapId (St.world s) with
    | (Some l, None) =>
        if Ldap.EnableRoleMapping l then
          exists name,
            filter is_write evs = [WSyncRoles syncUser name owner] /\
            St.world (snd (sync_one owner ldapId organization affiliation tag
                             uuids acc syncUser s))
            = snd (SyncRoles syncUser name owner (St.world s))
        else
          filter is_write evs = [] /\
          St.world (snd (sync_one owner ldapId organization affiliation tag
                           uuids acc syncUser s)) = St.world s
    | _ =>
        filter is_write evs = [] /\
        St.world (snd (sync_one owner ldapId organization affiliation tag
                         uuids acc syncUser s)) = St.world s
    end.
Proof.
  intros Hfind Hget Hin Hpres.
  destruct (@sync_one_present owner ldapId organization affiliation tag uuids
              acc syncUser s Hfind Hin Hpres) as ([name err] & d' & Hok & ->).
  cbn [fst snd] in *. rewrite (Hok Hget).
  rewrite sync_roles_step_run. unfold after_lookups.
  cbn [St.world St.draws St.trace fst snd].
  destruct (GetLdap ldapId (St.world s)) as [[l|] [e|]].
  - eexists; split; [reflexivity|]; cbn; repeat split; eauto.
  - destruct (Ldap.EnableRoleMapping l).
    + destruct (SyncRoles syncUser name owner (St.world s)) as [[e|] w'] eqn:Hs;
        cbn; rewrite <- app_assoc; cbn;
        (eexists; split; [reflexivity|]; cbn; repeat split; eauto);
        exists name; rewrite Hs; split; reflexivity.
    + eexists; split; [reflexivity|]; cbn; repeat split; eauto.
  - eexists; split; [reflexivity|]; cbn; repeat split; eauto.
  - eexists; split; [reflexivity|]; cbn; repeat split; eauto.
Qed.

(** A batch made only of records that are already present, with role
    mapping off: the loop classifies every record as existing and the
    store is not touched.  This is why running an unchanged batch a second
    time creates nothing. *)
Lemma sync_loop_all_present (owner ldapId : string)
    (organization : option Organization.t) (affiliation tag : string)
    (uuids : list string) (l : Ldap.t) (w : W) (syncUsers : list LdapUser.t) :
  GetLdap ldapId w = (Some l, None) ->
  Ldap.EnableRoleMapping l = false ->
  find_err w owner uuids = None ->
  (forall r, In r syncUsers ->
     In (LdapUser.Uuid r) uuids /\
     get_err w (LdapUser.Uid r) (composite r) = None /\
     present_locally owner (LdapUser.Uuid r) w) ->
  forall (acc : Acc) (d : nat) (tr : list Event),
  exists d' evs,
    sync_loop owner ldapId organization affiliation tag uuids syncUsers acc
      (St.mk w d tr)
    = (Val (fst acc ++ syncUsers, snd acc), St.mk w d' (tr ++ evs)) /\
    filter is_write evs = [].
Proof.
  intros Hldap Hrm Hfind.
  induction syncUsers as [|r rest IH]; intros Hall acc d tr.
  - exists d, []. cbn. rewrite !app_nil_r. destruct acc; split; reflexivity.
  - destruct (Hall r (or_introl eq_refl)) as (Hin & Hget & Hpres).
    destruct (@sync_one_present owner ldapId organization affiliation tag uuids
                acc r (St.mk w d tr) Hfind Hin Hpres)
      as ([name err] & d1 & Hok & Hone).
    cbn [fst snd St.world] in *. rewrite (Hok Hget) in Hone.
    rewrite sync_roles_step_run in Hone. unfold after_lookups in Hone.
    cbn [St.world St.draws St.trace] in Hone. rewrite Hldap, Hrm in Hone.
    cbn [sync_loop]. erewrite bind_val by exact Hone.
    destruct (IH (fun r' Hr' => Hall r' (or_intror Hr'))
                (fst acc ++ [r], snd acc) d1
                (tr ++ [QExistUuids owner uuids;
                        QUserByName (LdapUser.Uid r) (composite r)]))
      as (d' & evs & Hrun & Hw).
    exists d', ([QExistUuids owner uuids;
                 QUserByName (LdapUser.Uid r) (composite r)] ++ evs).
    rewrite Hrun. cbn [fst snd]. rewrite <- !app_assoc.
    split; [reflexivity|]. rewrite filter_app, Hw. reflexivity.
Qed.

(** The result of [buildLdapUserName] does not depend on the trace. *)
Lemma buildLdapUserName_frame R ldapUser (s : St) (evs : list Event) :
  buildLdapUserName (R := R) ldapUser
    (St.mk (St.world s) (St.draws s) (St.trace s ++ evs)) =
  (fst (buildLdapUserName (R := R) ldapUser s),
   St.mk (St.world s)
     (St.draws (snd (buildLdapUserName (R := R) ldapUser s)))
     (St.trace s ++ evs ++
        [QUserByName (LdapUser.Uid ldapUser) (composite ldapUser)])).
Proof.
  destruct s as [w d tr].
  unfold buildLdapUserName, bind, emit, modify, query, gets, draw_hex, ret.
  fold (composite ldapUser). cbn.
  rewrite <- app_assoc.
  destruct (get_err w (LdapUser.Uid ldapUser) (composite ldapUser)) as [e|];
    cbn; [reflexivity|].
  repeat (break_match; cbn); reflexivity.
Qed.

(** An iteration for a record that is not present locally, up to and
    including its call of [AddUser]. *)
Lemma sync_one_absent (owner ldapId : string) (organization : Organization.t)
    (affiliation tag : string) (uuids : list string) (acc : Acc)
    (syncUser : LdapUser.t) (s : St) (name : string) (score : Z) :
  find_err (St.world s) owner uuids = None ->
  ~ present_locally owner (LdapUser.Uuid syncUser) (St.world s) ->
  fst (buildLdapUserName (R := SyncResult) syncUser s) = Val (name, None) ->
  GetInitScore (Some organization) (St.world s) = (score, None) ->
  forall u' affected err w',
  AddUser (candidate owner organization affiliation tag syncUser name score s)
    (St.world s) = ((u', affected, err), w') ->
  let newUser :=
    candidate owner organization affiliation tag syncUser name score s in
  let s2 :=
    St.mk w' (St.draws (snd (buildLdapUserName (R := SyncResult) syncUser s)))
      (St.trace s ++
         [QExistUuids owner uuids;
          QUserByName (LdapUser.Uid syncUser) (composite syncUser);
          WAddUser newUser]) in
  sync_one owner ldapId (Some organization) affiliation tag uuids acc
    syncUser s =
  match err with
  | Some e => (Ret ([], [], Some e), s2)
  | None =>
      if affected then
        let userIdProvider :=
          {| UserIdProvider.Owner := Organization.Name organization;
             UserIdProvider.LdapId := ldapId;
             UserIdProvider.ProviderName := "";
             UserIdProvider.UsernameFromIdp := LdapUser.Uuid syncUser;
             UserIdProvider.CreatedTime := GetCurrentTime w';
             UserIdProvider.LastSignInTime := "";
             UserIdProvider.UserId := User.Id u' |} in
        bind (emit (WAddUserIdProvider userIdProvider))
          (fun _ =>
             bind (update (AddUserIdProvider userIdProvider))
               (fun '(_, err) =>
                  match err with
                  | Some e => return_ ([], [], Some e)
                  | None =>
                      sync_roles_step owner ldapId syncUser name
                        (fst acc, snd acc)
                  end)) s2
      else (Val (fst acc, snd acc ++ [syncUser]), s2)
  end.
Proof.
  intros Hfind Habs Hname Hscore u' affected err w' Hadd newUser s2.
  assert (Hsel : ~ In (LdapUser.Uuid syncUser)
                   (select_distinct_ldap owner uuids (user_rows (St.world s)))).
  { intros H; apply select_distinct_ldap_In in H as [_ H]; exact (Habs H). }
  unfold sync_one.
  erewrite bind_val by apply GetExistUuids_run.
  rewrite Hfind, (mark_exist_notin _ _ _ _ Hsel).
  unfold bind at 1.
  match goal with |- context [@buildLdapUserName _ _ ?R _ _] =>
    rewrite (buildLdapUserName_frame R syncUser s [QExistUuids owner uuids]);
    change R with SyncResult
  end.
  rewrite Hname. cbn [negb fst snd].
  unfold candidate in *.
  unfold bind at 1, query at 1, gets at 1. cbn [St.world]. rewrite Hscore.
  unfold bind at 1, query at 1, gets at 1. cbn [St.world].
  unfold bind at 1, deref at 1, ret at 1.
  unfold bind at 1, emit at 1, modify at 1.
  unfold bind at 1, update at 1. cbn [St.world St.draws St.trace].
  rewrite Hadd. subst newUser s2.
  rewrite <- !app_assoc. cbn [app].
  destruct err as [e|]; [reflexivity|].
  destruct affected; cbn [negb]; [|reflexivity].
  unfold bind at 1, query at 1, gets at 1. cbn [St.world].
  reflexivity.
Qed.

(** C2 (amended). For a record that is not present locally and whose
    look-ups succeed, the outcome of its creation decides what the loop
    does.  When [AddUser] reports "not affected" without an error the
    record is appended to [failedUsers], nothing else is done for it, and
    the loop goes on with the remaining records.  When [AddUser] returns
    an error the whole call returns at once with nil lists and that
    error: the remaining records are not processed. *)
Theorem creation_failure_collected_or_fatal (owner ldapId : string)
    (organization : Organization.t) (affiliation tag : string)
    (uuids : list string) (acc : Acc) (syncUser : LdapUser.t)
    (rest : list LdapUser.t) (s : St) (name : string) (score : Z)
    (u' : User.t) (affected : bool) (err : option error) (w' : W) :
  find_err (St.world s) owner uuids = None ->
  ~ present_locally owner (LdapUser.Uuid syncUser) (St.world s) ->
  fst (buildLdapUserName (R := SyncResult) syncUser s) = Val (name, None) ->
  GetInitScore (Some organization) (St.world s) = (score, None) ->
  AddUser (candidate owner organization affiliation tag syncUser name score s)
    (St.world s) = ((u', affected, err), w') ->
  let s2 :=
    St.mk w' (St.draws (snd (buildLdapUserName (R := SyncResult) syncUser s)))
      (St.trace s ++
         [QExistUuids owner uuids;
          QUserByName (LdapUser.Uid syncUser) (composite syncUser);
          WAddUser (candidate owner organization affiliation tag syncUser
                      name score s)]) in
  (err = None -> affected = false ->
   sync_loop owner ldapId (Some organization) affiliation tag uuids
     (syncUser :: rest) acc s
   = sync_loop owner ldapId (Some organization) affiliation tag uuids
       rest (fst acc, snd acc ++ [syncUser]) s2) /\
  (forall e, err = Some e ->
   sync_loop owner ldapId (Some organization) affiliation tag uuids
     (syncUser :: rest) acc s
   = (Ret ([], [], Some e), s2)).
Proof.
  intros Hfind Habs Hname Hscore Hadd s2.
  pose proof (@sync_one_absent owner ldapId organization affiliation tag uuids
                acc syncUser s name score Hfind Habs Hname Hscore
                u' affected err w' Hadd) as Hone.
  cbv zeta in Hone. fold s2 in Hone.
  split.
  - intros -> ->. cbn [sync_loop].
    erewrite bind_val by exact Hone. reflexivity.
  - intros e ->. cbn [sync_loop].
    erewrite bind_ret_early by exact Hone. reflexivity.
Qed.

Ltac break_inner :=
  match goal with
  | |- context [match ?x with _ => _ end] =>
      lazymatch x with
      | context [match _ with _ => _ end] => fail
      | _ => destruct x eqn:?
      end
  end.

(** Every iteration starts with the batched lookup and makes no other
    lookup of that kind. *)
Lemma sync_one_queries (owner ldapId : string)
    (organization : option Organization.t) (affiliation tag : string)
    (uuids : list string) (acc : Acc) (syncUser : LdapUser.t) (s : St) :
  exists evs,
    St.trace (snd (sync_one owner ldapId organization affiliation tag uuids
                     acc syncUser s))
    = St.trace s ++ QExistUuids owner uuids :: evs /\
    filter is_exist_query evs = [].
Proof.
  destruct s as [w d tr].
  unfold sync_one, sync_roles_step, buildLdapUserName, GetExistUuids, bind,
    emit, modify, query, gets, update, draw_hex, deref, ret, return_, panic.
  cbn.
  repeat (break_inner; cbn in * );
    rewrite <- ?app_assoc; cbn;
    (eexists; split; [reflexivity|]; reflexivity).
Qed.

Lemma sync_loop_queries (owner ldapId : string)
    (organization : option Organization.t) (affiliation tag : string)
    (uuids : list string) (syncUsers : list LdapUser.t) :
  forall (acc : Acc) (s : St),
  exists evs n,
    St.trace (snd (sync_loop owner ldapId organization affiliation tag uuids
                     syncUsers acc s)) = St.trace s ++ evs /\
    filter is_exist_query evs = repeat (QExistUuids owner uuids) n /\
    n <= length syncUsers /\
    (forall a, fst (sync_loop owner ldapId organization affiliation tag uuids
                      syncUsers acc s) = Val a -> n = length syncUsers).
Proof.
  induction syncUsers as [|u rest IH]; intros acc s.
  - exists [], 0. cbn. rewrite app_nil_r. repeat split; auto.
  - cbn [sync_loop]. unfold bind.
    destruct (sync_one_queries owner ldapId organization affiliation tag
                uuids acc u s) as (evs1 & Htr1 & Hq1).
    destruct (sync_one owner ldapId organization affiliation tag uuids acc u s)
      as [[acc' | r | why] s1]; cbn [snd] in Htr1.
    + destruct (IH acc' s1) as (evs2 & n & Htr2 & Hq2 & Hle & Hval).
      exists (QExistUuids owner uuids :: evs1 ++ evs2), (S n).
      split; [rewrite Htr2, Htr1, <- app_assoc; reflexivity|].
      split; [cbn; rewrite filter_app, Hq1, Hq2; reflexivity|].
      split; [cbn; lia|].
      intros a Ha. cbn. f_equal. eapply Hval; exact Ha.
    + exists (QExistUuids owner uuids :: evs1), 1. cbn [fst snd].
      split; [exact Htr1|]. split; [cbn; rewrite Hq1; reflexivity|].
      split; [cbn; lia | discriminate].
    + exists (QExistUuids owner uuids :: evs1), 1. cbn [fst snd].
      split; [exact Htr1|]. split; [cbn; rewrite Hq1; reflexivity|].
      split; [cbn; lia | discriminate].
Qed.

(** C3 (amended). Every existing-uuid lookup that a call of
    [SyncLdapUsers] makes is the batched distinct query over the full
    candidate set (the owner, and the uuids of all records of the batch),
    but the query is issued at the start of every iteration, not once per
    call: a call makes at most one such query per record, and a call that
    runs through to its final [return] makes exactly one per record. *)
Theorem exist_lookup_batched_per_record (owner : string)
    (syncUsers : list LdapUser.t) (ldapId : string) (s : St) :
  exists n,
    filter is_exist_query
      (events_since s (snd (SyncLdapUsers owner syncUsers ldapId s)))
    = repeat (QExistUuids owner (map LdapUser.Uuid syncUsers)) n /\
    n <= length syncUsers /\
    (forall r, fst (SyncLdapUsers owner syncUsers ldapId s) = Val r ->
               n = length syncUsers).
Proof.
  unfold SyncLdapUsers, bind, query, gets, deref, ret, panic.
  destruct (getOrganization "admin" owner (St.world s)) as [organization [e|]].
  - exists 0. cbn [fst snd].
    rewrite (events_since_app s s []) by (now rewrite app_nil_r).
    repeat split; [lia | discriminate].
  - destruct (GetLdap ldapId (St.world s)) as [[l|] err0];
      [|exists 0; cbn [fst snd];
        rewrite (events_since_app s s []) by (now rewrite app_nil_r);
        repeat split; [lia | discriminate]].
    destruct (dn_values_total (Strings.Split (Ldap.BaseDn l) ",") "dc=" eq_refl)
      as [dc ->].
    destruct (dn_values_total (Strings.Split (Ldap.Username l) ",") "ou=" eq_refl)
      as [ou ->].
    destruct (sync_loop_queries owner ldapId organization
                (Strings.Join dc ".") (Strings.Join ou ".")
                (map LdapUser.Uuid syncUsers) syncUsers ([], []) s)
      as (evs & n & Htr & Hq & Hle & Hval).
    destruct (sync_loop owner ldapId organization (Strings.Join dc ".")
                (Strings.Join ou ".") (map LdapUser.Uuid syncUsers)
                syncUsers ([], []) s) as [[acc | r | why] s1];
      cbn [fst snd] in *; rewrite (events_since_app s s1 evs Htr);
      exists n; (split; [exact Hq|]); (split; [exact Hle|]).
    + intros _ _. eapply Hval; reflexivity.
    + discriminate.
    + discriminate.
Qed.

End SyncProperties.

(** ** [SyncUserFromLdap] when no directory has the user *)

Section SyncUserFromLdapProperties.
Context {W : Type} {store : Store W} {dir : Directory W}.

Local Abbreviation St := (St.t W).

Lemma GetLdapUsers_nothing_found R (l : LdapConn.t Conn) (ldapServer : Ldap.t)
    (selectedUser : option User.t) (s : St) :
  (forall req,
      (exists r e, SearchWithPaging (LdapConn.Conn_ l) req 100 (St.world s)
                   = (r, Some e))
      \/ SearchWithPaging (LdapConn.Conn_ l) req 100 (St.world s)
         = (Some [], None)) ->
  exists err,
    GetLdapUsers (R := R) l ldapServer selectedUser s = (Val ([], Some err), s).
Proof.
  intros H. unfold GetLdapUsers, call, GetLdapUsers_body, bind, query, gets,
    deref, return_, ret.
  match goal with |- context [SearchWithPaging _ ?req _ _] =>
    destruct (H req) as [(r & e & ->) | ->] end.
  - now exists e.
  - now exists "no result".
Qed.

Lemma ltb_length_nonempty (x : string) :
  Nat.ltb 0 (String.length x) = negb (String.eqb x "").
Proof. destruct x; reflexivity. Qed.

Lemma try_servers_nothing (organization ldapId userName password lang : string)
    (ldaps : list Ldap.t) (s : St) :
  Forall (yields_nothing ldapId userName s) ldaps ->
  try_servers organization ldapId (searched_user userName) password lang ldaps s
  = (Val tt, s).
Proof.
  induction 1 as [|ldapServer rest Hhd _ IH]; [reflexivity|].
  cbn [try_servers]. rewrite ltb_length_nonempty.
  destruct Hhd as [[Hid Hne] | [(c & e & Hconn) | (c & err & Hconn & Husers)]].
  - apply String.eqb_neq in Hid, Hne. rewrite Hid, Hne. exact IH.
  - destruct (negb (ldapId =? "") && negb (Ldap.Id ldapServer =? ldapId))%string;
      [exact IH|].
    erewrite bind_val by exact Hconn. exact IH.
  - destruct (negb (ldapId =? "") && negb (Ldap.Id ldapServer =? ldapId))%string;
      [exact IH|].
    erewrite bind_val by exact Hconn. cbn [deref].
    unfold bind at 1, ret at 1.
    erewrite bind_val by exact Husers. exact IH.
Qed.

(** C10. When the list of configured servers is read without error and
    every server on it yields nothing (it is skipped, the connection to it
    fails, or its search returns no user), [SyncUserFromLdap] returns a
    nil user together with a nil error and leaves the state as it was:
    the results are the same whichever of these reasons applied. *)
Theorem SyncUserFromLdap_not_found_is_nil_nil
    (organization ldapId userName password lang : string)
    (ldaps : list Ldap.t) (s : St) :
  GetLdaps organization (St.world s) = (ldaps, None) ->
  Forall (yields_nothing ldapId userName s) ldaps ->
  call (R' := LdapLookup)
    (SyncUserFromLdap organization ldapId userName password lang) s
  = (Val (None, None), s).
Proof.
  intros Hldaps Hall.
  unfold call, SyncUserFromLdap. unfold bind at 1, query at 1, gets at 1.
  rewrite Hldaps. fold (searched_user userName).
  erewrite bind_val by (apply try_servers_nothing; exact Hall).
  reflexivity.
Qed.

End SyncUserFromLdapProperties.

Module LookupExamples.
Import Mem Demo.

Lemma SyncUserFromLdap_not_found_is_nil_nil_witness :
  call (R' := LdapLookup)
    (SyncUserFromLdap (dir := nobody) "acme" "" "dave" "pw" "en")
    (start two_servers)
  = (Val (None, None), start two_servers).
Proof.
  apply (@SyncUserFromLdap_not_found_is_nil_nil Mem.t Mem.store nobody
           "acme" "" "dave" "pw" "en" [directory false; backup]
           (start two_servers)).
  - reflexivity.
  - constructor; [|constructor; [|constructor]].
    + right; right. exists (LdapConn.mk "ldap.example.com:389" false), (Some "no result").
      split; vm_compute; reflexivity.
    + right; left. exists None, "dial tcp: connection refused".
      vm_compute; reflexivity.
Defined.

(** The same results when no server can be reached at all. *)
Example unreachable_looks_the_same :
  fst (call (R' := LdapLookup)
         (SyncUserFromLdap (dir := all_down) "acme" "" "dave" "pw" "en")
         (start two_servers))
  = fst (call (R' := LdapLookup)
           (SyncUserFromLdap (dir := nobody) "acme" "" "dave" "pw" "en")
           (start two_servers)).
Proof. vm_compute; reflexivity. Qed.

(** When a server has the user, the first entry is returned and the
    account is created. *)
Example dave_is_found :
  let out := call (R' := LdapLookup)
               (SyncUserFromLdap (dir := has_dave) "acme" "" "dave" "pw" "en")
               (start two_servers) in
  option_map (fun r => option_map LdapUser.Uid (fst r))
    (match fst out with Val r => Some r | _ => None end)
    = Some (Some "dave") /\
  map User.Name (users (St.world (snd out))) = ["dave"].
Proof. split; vm_compute; reflexivity. Qed.

End LookupExamples.

(** ** The synchroniser on the in-memory store *)

Module SyncExamples.
Import Mem Demo.

(** The spec's end-to-end example: three records, one already present,
    one whose creation is refused, one created. *)
Example three_records :
  fst (outcome false [alice_local] [alice; nameless; carol])
    = Val ([alice], [nameless], None) /\
  map User.Name (users (St.world (snd (outcome false [alice_local]
                                         [alice; nameless; carol]))))
    = ["alice"; "carol"] /\
  map UserIdProvider.UsernameFromIdp
    (links (St.world (snd (outcome false [alice_local]
                             [alice; nameless; carol]))))
    = ["uuid-carol"].
Proof. repeat split; vm_compute; reflexivity. Qed.

(** Running the same batch again creates nothing. *)
Example second_run_creates_nothing :
  let w1 := St.world (snd (outcome false [alice_local] [alice; carol])) in
  let again := run_SyncLdapUsers "acme" [alice; carol] "ldap-1" (start w1) in
  fst again = Val ([alice; carol], [], None) /\
  St.world (snd again) = w1.
Proof. split; vm_compute; reflexivity. Qed.

Lemma existing_record_not_created_witness :
  exists evs,
    St.trace (snd (sync_one "acme" "ldap-1" (Some acme) "example.com" "eng"
                     ["uuid-alice"] ([], []) alice
                     (start (world true [alice_local]))))
    = St.trace (start (world true [alice_local])) ++ evs /\
    filter is_creation evs = [].
Proof.
  destruct (@existing_record_not_created Mem.t Mem.store
              "acme" "ldap-1" (Some acme) "example.com" "eng"
              ["uuid-alice"] ([], []) alice
              (start (world true [alice_local])))
    as (evs & Htr & Hcr & _).
  - vm_compute; reflexivity.
  - vm_compute; reflexivity.
  - left; reflexivity.
  - exists alice_local. split; [left; reflexivity|]. split; reflexivity.
  - exists evs. split; assumption.
Defined.

(** C1 as stated fails: alice is already present locally, the call
    classifies her as existing, and still it writes: with role mapping
    enabled it calls [SyncRoles] for her and the stored roles change. *)
Lemma existing_record_role_write :
  present_locally "acme" (LdapUser.Uuid alice)
    (St.world (start (world true [alice_local]))) /\
  fst (outcome true [alice_local] [alice]) = Val ([alice], [], None) /\
  filter is_write (St.trace (snd (outcome true [alice_local] [alice])))
    = [WSyncRoles alice "alice" "acme"] /\
  St.world (snd (outcome true [alice_local] [alice]))
    <> St.world (start (world true [alice_local])).
Proof.
  split.
  - exists alice_local. split; [left; reflexivity|]. split; reflexivity.
  - split; [vm_compute; reflexivity|]. split; [vm_compute; reflexivity|].
    intros H. apply (f_equal role_rows) in H. vm_compute in H. discriminate H.
Qed.

(** C2 as stated fails: bob3's account cannot be created (its derived name
    is taken).  The failure is not collected in [failedUsers]: the call
    returns nil lists and the error, and the loop stops there, after three
    of the four iterations, so carol is never looked at. *)
Lemma creation_error_aborts_batch :
  fst (outcome false [] [bob; bob2; bob3; carol])
    = Val ([], [], Some "duplicate entry for key PRIMARY") /\
  map User.Name
    (users (St.world (snd (outcome false [] [bob; bob2; bob3; carol]))))
    = ["bob"; "bob_1001"] /\
  length (filter is_exist_query
            (St.trace (snd (outcome false [] [bob; bob2; bob3; carol])))) = 3.
Proof. repeat split; vm_compute; reflexivity. Qed.

(** C3 as stated fails: a batch of three records makes three lookups, not
    one. *)
Lemma three_lookups_for_three_records :
  filter is_exist_query
    (St.trace (snd (outcome false [alice_local] [alice; nameless; carol])))
  = repeat (QExistUuids "acme" ["uuid-alice"; "uuid-nameless"; "uuid-carol"]) 3
  /\
  length (filter is_exist_query
            (St.trace (snd (outcome false [alice_local] [alice; nameless; carol]))))
  <> 1.
Proof. split; vm_compute; [reflexivity | discriminate]. Qed.

Lemma creation_failure_collected_or_fatal_witness :
  exists s2,
    sync_loop "acme" "ldap-1" (Some acme) "example.com" "eng"
      ["uuid-nameless"; "uuid-carol"] [nameless; carol] ([alice], [])
      (start (world false [alice_local]))
    = sync_loop "acme" "ldap-1" (Some acme) "example.com" "eng"
        ["uuid-nameless"; "uuid-carol"] [carol] ([alice], [nameless]) s2.
Proof.
  eexists.
  refine (proj1 (@creation_failure_collected_or_fatal Mem.t Mem.store
                   "acme" "ldap-1" acme "example.com" "eng"
                   ["uuid-nameless"; "uuid-carol"] ([alice], []) nameless
                   [carol] (start (world false [alice_local])) "" 0%Z
                   _ false None _ _ _ _ _ _) eq_refl eq_refl).
  - vm_compute; reflexivity.
  - intros (u & Hin & _ & Hl).
    destruct Hin as [<- | []]. vm_compute in Hl. discriminate Hl.
  - vm_compute; reflexivity.
  - vm_compute; reflexivity.
  - vm_compute; reflexivity.
Defined.

End SyncExamples.

(** ** The login controller *)

Ltac break_innermost :=
  match goal with
  | |- context [match ?x with _ => _ end] =>
      lazymatch x with
      | context [match _ with _ => _ end] => fail
      | _ => destruct x eqn:?
      end
  end.

Ltac unfold_controller :=
  unfold reject, reply, internal_error, effect, ask, act, session_get,
    session_set, session_do, when, bind, ret, return_, panic, modify, gets,
    deref, call in *.

Section HandleLoggedInProperties.
Context {W Sess : Type} {backend : Backend W} {web : WebSession Sess}.

Local Abbreviation CSt := (CSt.t W Sess).

Lemma bad_challenge_method_test (m : string) :
  bad_challenge_method m ->
  (negb (String.eqb m "S256") && negb (String.eqb m "null")
   && negb (String.eqb m ""))%bool = true.
Proof.
  intros (H1 & H2 & H3).
  apply String.eqb_neq in H1, H2, H3. rewrite H1, H2, H3. reflexivity.
Qed.

(** C5. With response type [code] and a [code_challenge_method] other than
    S256, null or empty: the authorization-code completion answers with the
    error "Challenge method should be S256" and returns without a response,
    touching nothing else; and a call of [HandleLoggedIn] returns a nil
    response after exactly one reply and no call of any collaborator that
    acts on the world, so [GetOAuthCode] is never reached.  That one reply
    is an error, except for a paid user who is sent to plan selection
    before the completion is reached. *)
Theorem bad_challenge_method_rejected (req : Request.t)
    (application : Application.t) (user : User.t) (form : AuthForm.t)
    (s : CSt) :
  AuthForm.Type_ form = ResponseTypeCode ->
  bad_challenge_method (Request.Input req "code_challenge_method") ->
  (forall userId sid,
      complete req application user form userId sid s
      = (Ret None,
         CSt.mk (CSt.world s) (CSt.sess s)
           (CSt.effects s ++
              [Replied (ResponseError
                          (tr req "auth:Challenge method should be S256") [])])))
  /\
  exists r,
    HandleLoggedIn (R := unit) req application user form s
    = (Val None,
       CSt.mk (CSt.world s) (snd (getSid (User_GetId user) (CSt.sess s)))
         (CSt.effects s ++ [Replied r])) /\
    filter is_GetOAuthCode (CSt.effects s ++ [Replied r])
      = filter is_GetOAuthCode (CSt.effects s) /\
    (is_error_reply r = true \/ User.Type_ user = "paid-user").
Proof.
  intros Hty Hbad. apply bad_challenge_method_test in Hbad.
  split.
  - intros userId sid. unfold complete, complete_code. rewrite Hty, Hbad.
    destruct s as [w se ef]. reflexivity.
  - destruct s as [w se ef].
    unfold HandleLoggedIn, HandleLoggedIn_body, check_tag, check_subscription,
      complete, complete_code.
    rewrite Hty, Hbad. unfold_controller. cbn.
    destruct (getSid (User_GetId user) se) as [sid se'] eqn:Hsid. cbn.
    repeat (break_innermost; cbn in * );
      (eexists; split; [reflexivity|]; split;
       [rewrite filter_app; cbn; rewrite app_nil_r; reflexivity|]);
      try (left; reflexivity).
    all: right; apply String.eqb_eq; assumption.
Qed.

End HandleLoggedInProperties.

Section LoginProperties.
Context {W Sess : Type} {backend : Backend W} {web : WebSession Sess}
  {current : CurrentUser W Sess}.
Variable req : Request.t.
Variable password_branch : AuthForm.t -> M (CSt.t W Sess) unit (option Response.t).
Variable signup_branch :
  AuthForm.t -> ProviderCtx -> M (CSt.t W Sess) unit (option Response.t).

Local Abbreviation CSt := (CSt.t W Sess).

Lemma rejected_now {A} (s : CSt) (pre : list Effect) (r : Reply) :
  is_error_reply r = true -> filter is_call pre = [] ->
  rejected_without_calls (A := A)
    (Ret tt,
     CSt.mk (CSt.world s) (CSt.sess s) ((CSt.effects s ++ pre) ++ [Replied r])) s.
Proof.
  intros Hr Hpre. exists pre, r. rewrite <- app_assoc.
  split; [reflexivity|]. split; [assumption|].
  rewrite filter_app, Hpre. reflexivity.
Qed.

Lemma oauth_exchange_state_mismatch (authForm : AuthForm.t)
    (application : Application.t) (provider : Provider.t) (s : CSt) :
  AuthForm.State authForm <> GetConfigString "authState" ->
  AuthForm.State authForm <> Application.Name application ->
  rejected_without_calls (oauth_exchange req authForm application provider s) s.
Proof.
  intros Hst1 Hst2. apply String.eqb_neq in Hst1, Hst2.
  destruct s as [w se ef].
  unfold oauth_exchange, setHttpClient. rewrite Hst1, Hst2.
  unfold_controller. cbn -[isProxyProviderType].
  destruct (GetIdProvider (FromProviderToIdpInfo provider w)
              (AuthForm.RedirectUri authForm)) as [idProvider|];
    cbn -[isProxyProviderType].
  - destruct (isProxyProviderType
                (IdpInfo_Type (FromProviderToIdpInfo provider w))); cbn.
    + apply (rejected_now (CSt.mk w se ef) [AddReason _]); reflexivity.
    + destruct (GetProviderHttpClient (FromProviderToIdpInfo provider w) w)
        as [client [e|]]; cbn;
        apply (rejected_now (CSt.mk w se ef) [AddReason _]); reflexivity.
  - apply (rejected_now (CSt.mk w se ef) [AddReason _]); reflexivity.
Qed.

Lemma provider_prelude_state_mismatch (authForm : AuthForm.t)
    (application : Application.t) (provider : Provider.t) (s : CSt) :
  lookup_application authForm (CSt.world s) = (Some application, None) ->
  GetProvider (util_GetId "admin" (AuthForm.Provider authForm)) (CSt.world s)
    = (Some provider, None) ->
  Provider.Category provider = "OAuth" \/ Provider.Category provider = "Web3" ->
  AuthForm.State authForm <> GetConfigString "authState" ->
  AuthForm.State authForm <> Application.Name application ->
  rejected_without_calls (provider_prelude req authForm s) s.
Proof.
  intros Happ Hprovider Hcat Hst1 Hst2.
  assert (Hc : (String.eqb (Provider.Category provider) "SAML" = false) /\
               (String.eqb (Provider.Category provider) "OAuth"
                || String.eqb (Provider.Category provider) "Web3")%bool = true).
  { destruct Hcat as [-> | ->]; split; reflexivity. }
  destruct Hc as [Hsaml Hoauth].
  unfold lookup_application in Happ.
  unfold provider_prelude.
  assert (Hfirst :
    (if negb (String.eqb (AuthForm.ClientId authForm) "")
     then ask (R := unit) (GetApplicationByClientId (AuthForm.ClientId authForm))
     else ask (GetApplication ("admin/" ++ AuthForm.Application authForm)%string)) s
    = (Val (Some application, None), s)).
  { unfold ask, gets.
    destruct (negb (AuthForm.ClientId authForm =? "")%string);
      rewrite Happ; reflexivity. }
  erewrite bind_val by exact Hfirst. cbn [deref].
  unfold bind at 1, ret at 1.
  unfold bind at 1, ask at 1, gets at 1.
  destruct (GetOrganization
              (util_GetId "admin" (Application.Organization application))
              (CSt.world s)) as [organization oerr].
  (* the state after the organization lookup: at most one reply, no return *)
  match goal with |- context [bind ?m _ s] =>
    assert (Horg : exists pre, filter is_call pre = [] /\
              m s = (Val tt, CSt.mk (CSt.world s) (CSt.sess s)
                               (CSt.effects s ++ pre)))
  end.
  { destruct oerr as [e|].
    - exists [AddReason ("Login error: " ++ e)%string;
              Replied (ResponseError (tr req e) [])].
      split; [reflexivity|]. destruct s as [w se ef].
      unfold_controller. cbn. rewrite <- app_assoc. reflexivity.
    - exists []. split; [reflexivity|]. destruct s as [w se ef].
      unfold ret. cbn. rewrite app_nil_r. reflexivity. }
  destruct Horg as (pre & Hpre & Horg).
  erewrite bind_val by exact Horg.
  unfold bind at 1, ask at 1, gets at 1. cbn [CSt.world].
  rewrite Hprovider. cbn [deref]. unfold bind at 1, ret at 1.
  destruct (IsProviderVisible
              (GetProviderItem application (Provider.Name provider))); cbn [negb].
  - rewrite Hsaml, Hoauth.
    destruct (oauth_exchange_state_mismatch authForm application provider
                (CSt.mk (CSt.world s) (CSt.sess s) (CSt.effects s ++ pre))
                Hst1 Hst2) as (evs & r & Hrun & Hr & Hcalls).
    erewrite bind_ret_early by exact Hrun.
    cbn [CSt.world CSt.sess CSt.effects].
    exists (pre ++ evs), r. rewrite <- !app_assoc.
    split; [reflexivity|]. split; [assumption|].
    rewrite filter_app, Hpre. exact Hcalls.
  - destruct s as [w se ef]. unfold_controller. cbn.
    exists (pre ++ [AddReason
                      ("Login error: provider is not enabled for the application: "
                         ++ Provider.Name provider)%string]), 
      (ResponseError
         (Sprintf (tr req "auth:The provider: %s is not enabled for the application")
            [Provider.Name provider]) []).
    rewrite <- !app_assoc. split; [reflexivity|]. split; [reflexivity|].
    rewrite !filter_app, Hpre. reflexivity.
Qed.

(** C6. A provider login (no user name in the form) whose provider is of
    category OAuth or Web3 and whose [state] is neither the configured
    [authState] nor the name of the application: the handler returns after
    an error reply, without having called any collaborator that acts on
    the world; in particular [GetToken] is not called, and the world and
    the session are as before. *)
Theorem state_mismatch_rejected (authForm : AuthForm.t)
    (application : Application.t) (provider : Provider.t) (s : CSt) :
  Request.Body req = Some authForm ->
  AuthForm.Username authForm = "" ->
  AuthForm.Provider authForm <> "" ->
  lookup_application authForm (CSt.world s) = (Some application, None) ->
  GetProvider (util_GetId "admin" (AuthForm.Provider authForm)) (CSt.world s)
    = (Some provider, None) ->
  Provider.Category provider = "OAuth" \/ Provider.Category provider = "Web3" ->
  AuthForm.State authForm <> GetConfigString "authState" ->
  AuthForm.State authForm <> Application.Name application ->
  exists evs r,
    Login req password_branch signup_branch s
    = (Val tt,
       CSt.mk (CSt.world s) (CSt.sess s) (CSt.effects s ++ evs ++ [Replied r])) /\
    is_error_reply r = true /\
    filter is_call (evs ++ [Replied r]) = [] /\
    filter is_GetToken (evs ++ [Replied r]) = [].
Proof.
  intros Hbody Huser Hprov Happ Hprovider Hcat Hst1 Hst2.
  destruct (@provider_prelude_state_mismatch authForm application provider s
              Happ Hprovider Hcat Hst1 Hst2) as (evs & r & Hrun & Hr & Hcalls).
  apply String.eqb_neq in Hprov.
  exists evs, r.
  unfold Login, call, Login_body, provider_branch.
  rewrite Hbody, Huser, Hprov. cbn [String.eqb negb].
  erewrite bind_ret_early
    by (erewrite bind_ret_early by exact Hrun; reflexivity).
  split; [reflexivity|]. split; [assumption|]. split; [assumption|].
  clear Hrun. induction (evs ++ [Replied r]) as [|e l IH]; [reflexivity|].
  cbn in Hcalls |- *. destruct e; cbn in *; try (apply IH; assumption).
  discriminate Hcalls.
Qed.

Lemma link_branch_conflict (ctx : ProviderCtx) (s : CSt)
    (userInfo : UserInfo.t) (oldUser : User.t) :
  GetSessionUsername (CSt.sess s) <> "" ->
  ctx_userInfo ctx = Some userInfo ->
  GetUserByField (Application.Organization (ctx_application ctx))
    (Provider.Type_ (ctx_provider ctx)) (UserInfo.Id userInfo) (CSt.world s)
    = (Some oldUser, None) ->
  link_branch req ctx s
  = (Ret tt,
     CSt.mk (CSt.world s) (CSt.sess s)
       (CSt.effects s ++
          [AddReason (conflict_reason (ctx_provider ctx) userInfo oldUser);
           Replied (ResponseError
                      (conflict_message req (ctx_provider ctx) userInfo oldUser) [])])).
Proof.
  intros Hsess Hinfo Hold. apply String.eqb_neq in Hsess.
  destruct s as [w se ef]. cbn [CSt.world CSt.sess CSt.effects] in *.
  unfold link_branch. unfold_controller. cbn.
  rewrite Hsess, Hinfo. cbn. rewrite Hold. cbn.
  rewrite <- app_assoc. reflexivity.
Qed.

Lemma link_branch_links (ctx : ProviderCtx) (s : CSt)
    (userInfo : UserInfo.t) (user : option User.t) (b isLinked : bool)
    (w2 w3 : W) :
  GetSessionUsername (CSt.sess s) <> "" ->
  ctx_userInfo ctx = Some userInfo ->
  GetUserByField (Application.Organization (ctx_application ctx))
    (Provider.Type_ (ctx_provider ctx)) (UserInfo.Id userInfo) (CSt.world s)
    = (None, None) ->
  GetUser (GetSessionUsername (CSt.sess s)) (CSt.world s) = (user, None) ->
  SetUserOAuthProperties (ctx_organization ctx) user
    (Provider.Type_ (ctx_provider ctx)) userInfo (CSt.world s)
    = ((b, None), w2) ->
  LinkUserAccount user (Provider.Type_ (ctx_provider ctx)) (UserInfo.Id userInfo) w2
    = ((isLinked, None), w3) ->
  link_branch req ctx s
  = (Val (link_response isLinked),
     CSt.mk w3 (CSt.sess s)
       (CSt.effects s ++
          [Called (OpSetUserOAuthProperties user (Provider.Type_ (ctx_provider ctx)));
           Called (OpLinkUserAccount user (Provider.Type_ (ctx_provider ctx))
                     (UserInfo.Id userInfo))])).
Proof.
  intros Hsess Hinfo Hnone Huser Hset Hlink. apply String.eqb_neq in Hsess.
  destruct s as [w se ef]. cbn [CSt.world CSt.sess CSt.effects] in *.
  unfold link_branch. unfold_controller. cbn.
  rewrite Hsess, Hinfo. cbn. rewrite Hnone. cbn. rewrite Huser. cbn.
  rewrite Hset. cbn. rewrite Hlink. cbn.
  rewrite <- app_assoc. destruct isLinked; reflexivity.
Qed.

(** C7. A provider login that is not a sign-up, by a caller whose session
    has a user, once the external identity [userInfo] is established.  If
    any local account is already linked to that identity, the caller's own
    included (the account found is not compared with the session), the
    attempt is rejected before [SetUserOAuthProperties] or
    [LinkUserAccount] is called, and the error message is formatted from
    the provider type, the identity's user name and display name, and the
    name and display name of the account that holds the link.  If no local
    account is linked to it, the user of the session is read and
    [LinkUserAccount] is called for that user and the identity; the
    response reports whether it linked. *)
Theorem link_conflict_rejected_else_linked (authForm : AuthForm.t)
    (ctx : ProviderCtx) (s s1 : CSt) (userInfo : UserInfo.t) :
  Request.Body req = Some authForm ->
  AuthForm.Username authForm = "" ->
  AuthForm.Provider authForm <> "" ->
  AuthForm.Method authForm <> "signup" ->
  provider_prelude req authForm s = (Val ctx, s1) ->
  GetSessionUsername (CSt.sess s1) <> "" ->
  ctx_userInfo ctx = Some userInfo ->
  (forall oldUser,
      GetUserByField (Application.Organization (ctx_application ctx))
        (Provider.Type_ (ctx_provider ctx)) (UserInfo.Id userInfo) (CSt.world s1)
      = (Some oldUser, None) ->
      Login req password_branch signup_branch s
      = (Val tt,
         CSt.mk (CSt.world s1) (CSt.sess s1)
           (CSt.effects s1 ++
              [AddReason (conflict_reason (ctx_provider ctx) userInfo oldUser);
               Replied (ResponseError
                          (conflict_message req (ctx_provider ctx) userInfo oldUser)
                          [])])))
  /\
  (forall user b isLinked w2 w3,
      GetUserByField (Application.Organization (ctx_application ctx))
        (Provider.Type_ (ctx_provider ctx)) (UserInfo.Id userInfo) (CSt.world s1)
      = (None, None) ->
      GetUser (GetSessionUsername (CSt.sess s1)) (CSt.world s1) = (user, None) ->
      SetUserOAuthProperties (ctx_organization ctx) user
        (Provider.Type_ (ctx_provider ctx)) userInfo (CSt.world s1)
      = ((b, None), w2) ->
      LinkUserAccount user (Provider.Type_ (ctx_provider ctx))
        (UserInfo.Id userInfo) w2 = ((isLinked, None), w3) ->
      Login req password_branch signup_branch s
      = (Val tt,
         CSt.mk w3 (CSt.sess s1)
           (CSt.effects s1 ++
              [Called (OpSetUserOAuthProperties user
                         (Provider.Type_ (ctx_provider ctx)));
               Called (OpLinkUserAccount user (Provider.Type_ (ctx_provider ctx))
                         (UserInfo.Id userInfo));
               Replied (ServeJSON (Some (link_response isLinked)))]))).
Proof.
  intros Hbody Huser Hprov Hmethod Hprelude Hsess Hinfo.
  apply String.eqb_neq in Hprov, Hmethod.
  split.
  - intros oldUser Hold.
    unfold Login, call, Login_body, provider_branch.
    rewrite Hbody, Huser, Hprov. cbn [String.eqb negb].
    erewrite bind_ret_early; [reflexivity|].
    erewrite bind_val by exact Hprelude. rewrite Hmethod.
    erewrite bind_ret_early; [reflexivity|].
    apply link_branch_conflict; assumption.
  - intros user b isLinked w2 w3 Hnone Hget Hset Hlink.
    unfold Login, call, Login_body, provider_branch.
    rewrite Hbody, Huser, Hprov. cbn [String.eqb negb].
    erewrite bind_val.
    2:{ erewrite bind_val by exact Hprelude. rewrite Hmethod.
        erewrite bind_val; [reflexivity|].
        eapply link_branch_links; eassumption. }
    unfold reply, effect, modify. cbn [CSt.world CSt.sess CSt.effects].
    rewrite <- app_assoc. reflexivity.
Qed.

Lemma Login_mfa_branch (r : Request.t) (authForm : AuthForm.t) (s : CSt) :
  mfa_attempt r authForm ->
  getMfaUserSession (CSt.sess s) <> "" ->
  Login r password_branch signup_branch s
  = call (R' := unit)
      (bind (mfa_branch r authForm) (fun resp => reply (ServeJSON resp))) s.
Proof.
  intros (Hbody & Huser & Hprov & _) Hmfa. apply String.eqb_neq in Hmfa.
  unfold Login, Login_body. rewrite Hbody, Huser, Hprov. cbn [String.eqb negb].
  unfold call, bind, session_get, gets. cbn beta. rewrite Hmfa. reflexivity.
Qed.

(** C9. When the user lookup does not fail, [GetCaptchaStatus] answers
    with one boolean, which is true exactly when the user exists and its
    failed sign-in counter has reached the limit. *)
Theorem captcha_enabled_at_limit (user : option User.t) (s : CSt) :
  GetUserByFields (Request.Input req "organization") (Request.Input req "user_id")
    (CSt.world s) = (user, None) ->
  exists captchaEnabled,
    GetCaptchaStatus req s
    = (Val tt,
       CSt.mk (CSt.world s) (CSt.sess s)
         (CSt.effects s ++ [Replied (ResponseOk [VBool captchaEnabled])])) /\
    (forall u, user = Some u ->
       (SigninWrongTimesLimit <= User.SigninWrongTimes u)%Z ->
       captchaEnabled = true) /\
    (forall u, user = Some u ->
       (User.SigninWrongTimes u < SigninWrongTimesLimit)%Z ->
       captchaEnabled = false) /\
    (user = None -> captchaEnabled = false).
Proof.
  intros Hget. destruct s as [w se ef].
  cbn [CSt.world CSt.sess CSt.effects] in *.
  unfold GetCaptchaStatus, call, GetCaptchaStatus_body.
  unfold_controller. cbn. rewrite Hget. cbn.
  eexists. split; [reflexivity|].
  destruct user as [u|].
  - repeat split.
    + intros u' [= <-] H. apply Z.leb_le; assumption.
    + intros u' [= <-] H. apply Z.leb_gt; assumption.
    + discriminate.
  - repeat split; try discriminate; try reflexivity.
Qed.

End LoginProperties.

(** ** The controller on the in-memory site *)

Module ControllerExamples.
Import Site SiteDemo.

Example plain_pkce_gets_no_code :
  Site.login plain_pkce (state everyone (signed_in "acme/carol"))
  = (Val tt,
     CSt.mk (site everyone) (signed_in "acme/carol")
       [Replied (ResponseError "Challenge method should be S256" []);
        WithOrganization "acme"; WithUsername "carol";
        AddReason "Quick sign in"; Replied (ServeJSON None)]).
Proof. vm_compute; reflexivity. Qed.

Example s256_pkce_gets_code :
  filter is_reply
    (CSt.effects
       (snd (Site.login
               (request (form "code" "" "" "" "")
                  [("code_challenge_method", "S256")])
               (state everyone (signed_in "acme/carol")))))
  = [Replied (ServeJSON
                (Some (Response.mk "ok" "" (VString "code-for-acme/carol") VNil)))].
Proof. vm_compute; reflexivity. Qed.

Lemma bad_challenge_method_rejected_witness :
  fst (HandleLoggedIn (R := unit) plain_pkce portal carol
         (form "code" "" "" "" "") (state everyone (signed_in "acme/carol")))
  = Val None.
Proof.
  destruct (@bad_challenge_method_rejected Site.t Site.Sess Site.backend Site.web
              plain_pkce portal carol (form "code" "" "" "" "")
              (state everyone (signed_in "acme/carol")))
    as (_ & r & Hrun & _).
  - reflexivity.
  - repeat split; intros H; vm_compute in H; discriminate H.
  - rewrite Hrun. reflexivity.
Defined.

Example forged_state_is_refused :
  Site.login forged_state (state everyone anonymous)
  = (Val tt,
     CSt.mk (site everyone) anonymous
       [AddReason "Login error: mismatch state: casdoor got: evil";
        Replied (ResponseError "State expected: casdoor, but got: evil" [])]).
Proof. vm_compute; reflexivity. Qed.

Lemma state_mismatch_rejected_witness :
  exists evs r,
    Site.login forged_state (state everyone anonymous)
    = (Val tt,
       CSt.mk (site everyone) anonymous (evs ++ [Replied r])) /\
    is_error_reply r = true /\
    filter is_GetToken (evs ++ [Replied r]) = [].
Proof.
  destruct (@state_mismatch_rejected Site.t Site.Sess Site.backend Site.web
              Site.current forged_state Site.no_branch
              (fun f _ => Site.no_branch f)
              (form "code" "github" "" "evil" "") portal github
              (state everyone anonymous))
    as (evs & r & Hrun & Hr & _ & Htok).
  - reflexivity.
  - reflexivity.
  - discriminate.
  - vm_compute; reflexivity.
  - vm_compute; reflexivity.
  - left; reflexivity.
  - intros H; vm_compute in H; discriminate H.
  - intros H; vm_compute in H; discriminate H.
  - exists evs, r. split; [exact Hrun|]. split; assumption.
Defined.

(** bob already holds the link: carol's attempt is refused and both names
    are in the message *)
Example link_conflict_names_both_accounts :
  Site.login link_github (state everyone (signed_in "acme/carol"))
  = (Val tt,
     CSt.mk (site everyone) (signed_in "acme/carol")
       [Called (OpGetToken "abc"); Called OpGetUserInfo;
        AddReason "Login error: provider: GitHub and username: octocat (The Octocat) is already linked to another account bob (bob)";
        Replied (ResponseError
                   "The account for provider: GitHub and username: octocat (The Octocat) is already linked to another account: bob (bob)"
                   [])]).
Proof. vm_compute; reflexivity. Qed.

(** nobody holds the link: carol gets it *)
Example link_succeeds :
  let out := Site.login link_github (state [alice; carol] (signed_in "acme/carol")) in
  filter is_reply (CSt.effects (snd out))
    = [Replied (ServeJSON (Some (Response.mk "ok" "" (VBool true) VNil)))] /\
  map User.Properties (Mem.users (db (CSt.world (snd out))))
    = [[("totp", "123456")]; [("GitHub", "gh-42")]].
Proof. split; vm_compute; reflexivity. Qed.

(** bob is signed in and the identity is linked to bob's own account, so
    it is not linked elsewhere; yet the attempt is refused in the same
    way, with bob named as the other account, and nothing is linked. *)
Example link_to_own_account_is_refused :
  let s := state everyone (signed_in "acme/bob") in
  let out := Site.login link_github s in
  GetUserByField "acme" "GitHub" "gh-42" (site everyone) = (Some bob, None) /\
  GetSessionUsername (CSt.sess s) = User_GetId bob /\
  filter is_reply (CSt.effects (snd out))
  = [Replied (ResponseError
                "The account for provider: GitHub and username: octocat (The Octocat) is already linked to another account: bob (bob)"
                [])] /\
  filter is_LinkUserAccount (CSt.effects (snd out)) = [] /\
  CSt.world (snd out) = site everyone.
Proof. repeat split; vm_compute; reflexivity. Qed.

Lemma link_conflict_rejected_else_linked_witness :
  exists s',
    Site.login link_github (state everyone (signed_in "acme/carol")) = (Val tt, s') /\
    filter is_LinkUserAccount (CSt.effects s') = [] /\
    CSt.world s' = site everyone.
Proof.
  destruct (@link_conflict_rejected_else_linked Site.t Site.Sess Site.backend
              Site.web Site.current link_github Site.no_branch
              (fun f _ => Site.no_branch f)
              (form "code" "github" "" "casdoor" "") github_ctx
              (state everyone (signed_in "acme/carol"))
              (after_exchange everyone (signed_in "acme/carol")) octocat)
    as (Hconflict & _).
  - reflexivity.
  - reflexivity.
  - discriminate.
  - discriminate.
  - vm_compute; reflexivity.
  - discriminate.
  - reflexivity.
  - eexists. split; [apply (Hconflict bob); vm_compute; reflexivity|].
    split; vm_compute; reflexivity.
Defined.

Example wrong_then_right_otp :
  let s0 := state everyone (mfa_pending "acme/alice") in
  let s1 := snd (Site.login (otp "000000") s0) in
  let s2 := snd (Site.login (otp "123456") s1) in
  CSt.sess s1 = mfa_pending "acme/alice" /\
  filter is_reply (CSt.effects s1)
    = [Replied (ResponseUnprocessableEntity "OTP was wrong")] /\
  filter is_reply (skipn (length (CSt.effects s1)) (CSt.effects s2))
    = [Replied (ServeJSON (Some (Response.mk "ok" "" (VString "acme/alice") VNil)))] /\
  CSt.sess s2 = mkSess "acme/alice" "" "" false /\
  sessions (CSt.world s2)
    = [Session.mk "acme" "alice" "portal" ["session-1"]].
Proof. repeat split; vm_compute; reflexivity. Qed.

Example captcha_at_and_below_limit :
  let s := state [failing "dan" 5; failing "eve" 4; failing "fay" 6] anonymous in
  map (fun name => filter is_reply
                     (CSt.effects (snd (GetCaptchaStatus (captcha_request name) s))))
    ["dan"; "eve"; "fay"; "nobody"]
  = [[Replied (ResponseOk [VBool true])]; [Replied (ResponseOk [VBool false])];
     [Replied (ResponseOk [VBool true])]; [Replied (ResponseOk [VBool false])]].
Proof. vm_compute; reflexivity. Qed.

Lemma captcha_enabled_at_limit_witness :
  exists captchaEnabled,
    GetCaptchaStatus (captcha_request "dan")
      (state [failing "dan" 5] anonymous)
    = (Val tt,
       CSt.mk (site [failing "dan" 5]) anonymous
         [Replied (ResponseOk [VBool captchaEnabled])]) /\
    captchaEnabled = true.
Proof.
  destruct (@captcha_enabled_at_limit Site.t Site.Sess Site.backend
              (captcha_request "dan") (Some (failing "dan" 5))
              (state [failing "dan" 5] anonymous))
    as (b & Hrun & Hge & _).
  - vm_compute; reflexivity.
  - exists b. split; [exact Hrun|].
    apply (Hge (failing "dan" 5)); [reflexivity|]. vm_compute; discriminate.
Defined.

End ControllerExamples.

(** * Further properties of the directory code *)

(** ** [AutoAdjustLdapUser], [GetLdapUuid], [buildAuthFilterString] *)

Section AdjustProperties.
Context {W : Type} {dir : Directory W}.

Lemma GetLdapUuid_adjusted (u : LdapUser.t) (e m a : string) :
  GetLdapUuid
    {| LdapUser.UidNumber := LdapUser.UidNumber u;
       LdapUser.Uid := LdapUser.Uid u;
       LdapUser.Cn := LdapUser.Cn u;
       LdapUser.GidNumber := "";
       LdapUser.Uuid := GetLdapUuid u;
       LdapUser.UserPrincipalName := "";
       LdapUser.DisplayName := LdapUser.DisplayName u;
       LdapUser.Mail := "";
       LdapUser.Email := e;
       LdapUser.EmailAddress := "";
       LdapUser.TelephoneNumber := "";
       LdapUser.Mobile := m;
       LdapUser.MobileTelephoneNumber := LdapUser.MobileTelephoneNumber u;
       LdapUser.RegisteredAddress := a;
       LdapUser.PostalAddress := "";
       LdapUser.GroupId := LdapUser.GidNumber u;
       LdapUser.Address := LdapUser.Address u;
       LdapUser.MemberOf := "";
       LdapUser.Roles := LdapUser.Roles u |}
  = GetLdapUuid u.
Proof.
  unfold GetLdapUuid. cbn.
  destruct (LdapUser.Uuid u =? "")%string eqn:Hu; cbn.
  - destruct (LdapUser.Uid u =? "")%string eqn:Hi; cbn.
    + destruct (LdapUser.Cn u =? "")%string; reflexivity.
    + destruct (negb (LdapUser.Uid u =? "")%string); reflexivity.
  - rewrite Hu. reflexivity.
Qed.

(** X1. [AutoAdjustLdapUser] returns one record per input record, in the
    same order; the uuid of each is the effective identifier of the input
    (directory uuid, else uid, else common name), which is empty only when
    all three are empty; and adjusting a second time does not change the
    uuids, so the key the synchroniser matches on is stable. *)
Theorem AutoAdjustLdapUser_uuid_stable (users : list LdapUser.t) :
  length (AutoAdjustLdapUser users) = length users /\
  map LdapUser.Uuid (AutoAdjustLdapUser users) = map GetLdapUuid users /\
  map LdapUser.Uuid (AutoAdjustLdapUser (AutoAdjustLdapUser users))
    = map LdapUser.Uuid (AutoAdjustLdapUser users) /\
  (forall u : LdapUser.t,
     GetLdapUuid u = "" <->
     LdapUser.Uuid u = "" /\ LdapUser.Uid u = "" /\ LdapUser.Cn u = "").
Proof.
  unfold AutoAdjustLdapUser.
  split; [apply length_map|].
  split; [rewrite map_map; reflexivity|].
  split.
  - rewrite !map_map. apply map_ext. intros u. cbn [LdapUser.Uuid].
    apply GetLdapUuid_adjusted.
  - intros u. unfold GetLdapUuid.
    destruct (String.eqb_spec (LdapUser.Uuid u) "") as [Hu|Hu]; cbn.
    + destruct (String.eqb_spec (LdapUser.Uid u) "") as [Hi|Hi]; cbn.
      * tauto.
      * split; [intros H; contradiction | intros (_ & H & _); contradiction].
    + split; [intros H; contradiction | intros (H & _); contradiction].
Qed.

End AdjustProperties.

Lemma fold_filter_terms (user : User.t) (fields : list string) (acc : string) :
  fold_left
    (fun filter field =>
       (filter ++ "(" ++ field ++ "="
          ++ getFieldFromLdapAttribute user field ++ ")")%string)
    fields acc
  = (acc ++ String.concat "" (map (filter_term user) fields))%string.
Proof.
  revert acc; induction fields as [|f fs IH]; intros acc.
  - cbn. clear. induction acc as [|c acc IH]; cbn; [reflexivity | now rewrite <- IH].
  - cbn [fold_left map]. rewrite IH. unfold filter_term.
    assert (Hassoc : forall a b c : string,
               ((a ++ b) ++ c = a ++ b ++ c)%string).
    { clear. intros a b c. induction a as [|x a IHa]; cbn;
        [reflexivity | now rewrite IHa]. }
    assert (Hcons : forall (x : string) (l : list string),
               (String.concat "" (x :: l) = x ++ String.concat "" l)%string).
    { clear. intros x l. destruct l as [|y l]; cbn; [|reflexivity].
      induction x as [|c x IHx]; cbn; [reflexivity | now rewrite <- IHx]. }
    rewrite Hcons, Hassoc. reflexivity.
Qed.

(** X2. The authentication filter.  Without configured filter fields it
    matches the user name on [uid].  With filter fields it is the base
    filter and-ed with the disjunction of one [(field=value)] term per
    configured field, in order; the value is the user's name for [uid] and
    [sAMAccountName], the e-mail for [mail] and [userPrincipalName], the
    phone for [mobile], and the empty string for any other field. *)
Theorem buildAuthFilterString_shape (ldap : Ldap.t) (user : User.t) :
  (Ldap.FilterFields ldap = [] ->
   buildAuthFilterString ldap user
   = ("(&" ++ Ldap.Filter ldap ++ "(uid=" ++ User.Name user ++ "))")%string) /\
  (Ldap.FilterFields ldap <> [] ->
   buildAuthFilterString ldap user
   = (("(&" ++ Ldap.Filter ldap ++ "(|")
        ++ String.concat "" (map (filter_term user) (Ldap.FilterFields ldap))
        ++ "))")%string) /\
  (forall field,
     known_filter_field field = false ->
     filter_term user field = ("(" ++ field ++ "=)")%string).
Proof.
  unfold buildAuthFilterString. split; [|split].
  - intros ->. reflexivity.
  - intros Hne. destruct (Ldap.FilterFields ldap) as [|f fs] eqn:E;
      [contradiction|].
    rewrite fold_filter_terms.
    generalize (String.concat "" (map (filter_term user) (f :: fs))).
    generalize ("(&" ++ Ldap.Filter ldap ++ "(|")%string.
    intros a b. induction a as [|x a IHa]; cbn; [reflexivity | now rewrite IHa].
  - intros field H. unfold filter_term, getFieldFromLdapAttribute.
    unfold known_filter_field, string_inb in H. cbn in H.
    repeat (apply orb_false_iff in H; destruct H as [? H]).
    repeat match goal with
           | Hx : (field =? _)%string = false |- _ => rewrite Hx; clear Hx
           end.
    reflexivity.
Qed.

(** ** [GetLdapUsers] and [isMicrosoftAD] *)

Lemma fold_may_panic_app {A B} (f : A -> B -> option B) (l1 l2 : list A) (b : B) :
  fold_may_panic f (l1 ++ l2) b =
  match fold_may_panic f l1 b with
  | Some b' => fold_may_panic f l2 b'
  | None => None
  end.
Proof.
  revert b; induction l1 as [|a l1 IH]; intros b; cbn; [reflexivity|].
  destruct (f a b); [apply IH | reflexivity].
Qed.

Lemma fold_may_panic_flat {A B C} (g : C -> list A) (f : A -> B -> option B)
    (l : list C) (b : B) :
  fold_may_panic (fun c t => fold_may_panic f (g c) t) l b
  = fold_may_panic f (flat_map g l) b.
Proof.
  revert b; induction l as [|c l IH]; intros b; cbn; [reflexivity|].
  rewrite fold_may_panic_app.
  destruct (fold_may_panic f (g c) b); [apply IH | reflexivity].
Qed.

(** a loop whose body panics on exactly the elements satisfying [bad]
    panics exactly when the list has such an element *)
Lemma fold_may_panic_none {A B} (f : A -> B -> option B) (bad : A -> bool)
    (Hf : forall a b, f a b = None <-> bad a = true) (l : list A) (b : B) :
  fold_may_panic f l b = None <-> existsb bad l = true.
Proof.
  revert b; induction l as [|a l IH]; intros b; cbn.
  - split; discriminate.
  - destruct (f a b) as [b'|] eqn:E.
    + destruct (bad a) eqn:Ebad.
      * apply (Hf a b) in Ebad. congruence.
      * cbn. apply IH.
    + apply Hf in E. rewrite E. cbn. tauto.
Qed.

Lemma ldap_user_attribute_none (a : Entry.Attribute) (u : LdapUser.t) :
  ldap_user_attribute a u = None <-> valueless_known a = true.
Proof.
  unfold valueless_known, known_attribute, string_inb, ldap_user_attribute,
    first_value.
  destruct u. cbn [existsb].
  destruct (Entry.Values a) as [|v vs]; cbn [option_map].
  - rewrite andb_true_r.
    repeat match goal with
           | |- context [(Entry.Name a =? ?k)%string] =>
               destruct (Entry.Name a =? k)%string; cbn [orb];
               [split; reflexivity|]
           end.
    split; discriminate.
  - rewrite andb_false_r.
    repeat match goal with
           | |- context [(Entry.Name a =? ?k)%string] =>
               destruct (Entry.Name a =? k)%string;
               [split; discriminate|]
           end.
    split; discriminate.
Qed.

Lemma server_type_attribute_none (a : Entry.Attribute) (t : ServerType.t) :
  server_type_attribute a t = None <-> valueless_server a = true.
Proof.
  unfold valueless_server, server_attribute, string_inb, server_type_attribute,
    first_value.
  cbn [existsb].
  destruct (Entry.Values a) as [|v vs]; cbn [option_map].
  - rewrite andb_true_r.
    repeat match goal with
           | |- context [(Entry.Name a =? ?k)%string] =>
               destruct (Entry.Name a =? k)%string; cbn [orb];
               [split; reflexivity|]
           end.
    split; discriminate.
  - rewrite andb_false_r.
    repeat match goal with
           | |- context [(Entry.Name a =? ?k)%string] =>
               destruct (Entry.Name a =? k)%string;
               [split; discriminate|]
           end.
    split; discriminate.
Qed.

Section DirectoryProperties.
Context {W : Type} {store : Store W} {dir : Directory W}.

Local Abbreviation St := (St.t W).

Lemma entries_to_users_length (ldapServer : Ldap.t) (entries : list Entry.t)
    (users : list LdapUser.t) :
  entries_to_users ldapServer entries = Some users ->
  length users = length entries.
Proof.
  revert users; induction entries as [|e es IH]; intros users; cbn.
  - intros [= <-]. reflexivity.
  - destruct (fold_may_panic _ _ _); [|discriminate].
    destruct (entries_to_users ldapServer es); [|discriminate].
    intros [= <-]. cbn. f_equal. now apply IH.
Qed.

Lemma entries_to_users_none (ldapServer : Ldap.t) (entries : list Entry.t) :
  Ldap.EnableAttributeMapping ldapServer = false ->
  (entries_to_users ldapServer entries = None <->
   existsb valueless_known (all_attributes entries) = true).
Proof.
  intros Ham.
  assert (Hf : forall a u, entry_attribute ldapServer a u = None
                           <-> valueless_known a = true).
  { intros a u. unfold entry_attribute. rewrite Ham.
    apply ldap_user_attribute_none. }
  induction entries as [|e es IH]; cbn.
  - split; discriminate.
  - rewrite existsb_app.
    pose proof (fold_may_panic_none _ _ Hf (Entry.Attributes e) LdapUser.zero)
      as Hhd.
    destruct (fold_may_panic (entry_attribute ldapServer) (Entry.Attributes e)
                LdapUser.zero) as [u|].
    + destruct (existsb valueless_known (Entry.Attributes e)).
      * destruct Hhd as [_ Hhd]. discriminate (Hhd eq_refl).
      * cbn [orb]. rewrite <- IH.
        destruct (entries_to_users ldapServer es); cbn;
          split; congruence.
    + destruct Hhd as [Hhd _]. rewrite (Hhd eq_refl). cbn. tauto.
Qed.

(** what [GetLdapUsers] does, by the outcome of the paged search *)
Lemma GetLdapUsers_run R (l : LdapConn.t Conn) (ldapServer : Ldap.t)
    (selectedUser : option User.t) (s : St) :
  exists req,
    GetLdapUsers (R := R) l ldapServer selectedUser s =
    (match SearchWithPaging (LdapConn.Conn_ l) req 100 (St.world s) with
     | (_, Some e) => Val ([], Some e)
     | (None, None) => Panic "nil pointer dereference: searchResult.Entries"
     | (Some entries, None) =>
         if Nat.eqb (length entries) 0 then Val ([], Some "no result")
         else match entries_to_users ldapServer entries with
              | Some users => Val (users, None)
              | None => Panic "nil pointer dereference: index out of range"
              end
     end, s).
Proof.
  unfold GetLdapUsers, call, GetLdapUsers_body, bind, query, gets, deref,
    return_, ret, panic.
  match goal with |- context [SearchWithPaging ?c ?req ?n ?w] =>
    exists req;
    destruct (SearchWithPaging c req n w) as [[entries|] [e|]] end;
    try reflexivity.
  destruct (Nat.eqb (length entries) 0); [reflexivity|].
  destruct (entries_to_users ldapServer entries); reflexivity.
Qed.

(** X3. [GetLdapUsers] only reads: the state is the same afterwards,
    whatever happens.  When it returns, it returns either an error and no
    user, or no error and at least one user; so the caller's test
    [len(res) == 0] is the same as testing the error it discards. *)
Theorem GetLdapUsers_users_iff_no_error (R : Type) (l : LdapConn.t Conn)
    (ldapServer : Ldap.t) (selectedUser : option User.t) (s : St) :
  snd (GetLdapUsers (R := R) l ldapServer selectedUser s) = s /\
  (forall r, fst (GetLdapUsers (R := R) l ldapServer selectedUser s) <> Ret r) /\
  (forall users err,
     fst (GetLdapUsers (R := R) l ldapServer selectedUser s) = Val (users, err) ->
     (err = None <-> users <> []) /\ (err <> None <-> users = [])).
Proof.
  destruct (GetLdapUsers_run R l ldapServer selectedUser s) as (req & ->).
  cbn [fst snd]. split; [reflexivity|].
  destruct (SearchWithPaging (LdapConn.Conn_ l) req 100 (St.world s))
    as [[entries|] [e|]].
  - split; [discriminate|]. intros users err [= <- <-].
    repeat split; congruence.
  - destruct (Nat.eqb_spec (length entries) 0) as [H0|H0].
    + split; [discriminate|]. intros users err [= <- <-].
      repeat split; congruence.
    + destruct (entries_to_users ldapServer entries) as [us|] eqn:E.
      * split; [discriminate|]. intros users err [= <- <-].
        apply entries_to_users_length in E.
        assert (us <> []) by (intros ->; cbn in E; congruence).
        repeat split; congruence.
      * split; discriminate.
  - split; [discriminate|]. intros users err [= <- <-].
    repeat split; congruence.
  - split; discriminate.
Qed.

(** X4. With attribute mapping off, a search that returns entries makes
    [GetLdapUsers] panic exactly when some returned attribute whose name
    the function knows carries no value ([Values[0]] on an empty slice);
    otherwise it returns one user per entry and no error. *)
Theorem GetLdapUsers_panics_iff_valueless (R : Type) (l : LdapConn.t Conn)
    (ldapServer : Ldap.t) (selectedUser : option User.t) (s : St)
    (entries : list Entry.t) :
  Ldap.EnableAttributeMapping ldapServer = false ->
  (forall req, SearchWithPaging (LdapConn.Conn_ l) req 100 (St.world s)
               = (Some entries, None)) ->
  entries <> [] ->
  if existsb valueless_known (all_attributes entries) then
    exists why,
      fst (GetLdapUsers (R := R) l ldapServer selectedUser s) = Panic why
  else
    exists users,
      fst (GetLdapUsers (R := R) l ldapServer selectedUser s) = Val (users, None)
      /\ length users = length entries.
Proof.
  intros Ham Hsearch Hne.
  destruct (GetLdapUsers_run R l ldapServer selectedUser s) as (req & ->).
  rewrite Hsearch. cbn [fst].
  destruct (Nat.eqb_spec (length entries) 0) as [H0|H0].
  { destruct entries; [contradiction | discriminate]. }
  pose proof (@entries_to_users_none ldapServer entries Ham) as Hnone.
  destruct (existsb valueless_known (all_attributes entries)).
  - destruct Hnone as [_ Hnone]. rewrite (Hnone eq_refl). eauto.
  - destruct (entries_to_users ldapServer entries) as [us|] eqn:E.
    + exists us. split; [reflexivity|]. now apply entries_to_users_length in E.
    + destruct Hnone as [Hnone _]. discriminate (Hnone eq_refl).
Qed.

Lemma first_value_only_step (ldapServer : Ldap.t) (a : Entry.Attribute)
    (u : LdapUser.t) :
  Ldap.EnableAttributeMapping ldapServer = false ->
  Ldap.EnableRoleMapping ldapServer = false ->
  entry_attribute ldapServer (first_value_only a) u
  = entry_attribute ldapServer a u.
Proof.
  intros Ham Hrm. unfold entry_attribute. rewrite Ham, Hrm.
  unfold ldap_user_attribute, first_value, first_value_only.
  cbn [Entry.Name Entry.Values].
  destruct (Entry.Values a) as [|v vs]; reflexivity.
Qed.

Lemma first_values_only_users (ldapServer : Ldap.t) (entries : list Entry.t) :
  Ldap.EnableAttributeMapping ldapServer = false ->
  Ldap.EnableRoleMapping ldapServer = false ->
  entries_to_users ldapServer (map first_values_only entries)
  = entries_to_users ldapServer entries.
Proof.
  intros Ham Hrm. induction entries as [|e es IH]; cbn; [reflexivity|].
  rewrite IH.
  assert (Hfold : forall attrs u,
             fold_may_panic (entry_attribute ldapServer)
               (map first_value_only attrs) u
             = fold_may_panic (entry_attribute ldapServer) attrs u).
  { induction attrs as [|a attrs IHa]; intros u; cbn; [reflexivity|].
    rewrite (@first_value_only_step ldapServer a u Ham Hrm).
    destruct (entry_attribute ldapServer a u); [apply IHa | reflexivity]. }
  rewrite Hfold. reflexivity.
Qed.

(** X5. With attribute mapping and role mapping both off, only the first
    value of an attribute counts: a directory that answers with the same
    entries cut down to the first value of every attribute gives the same
    users, the same error or the same panic. *)
Theorem GetLdapUsers_reads_first_value_only (R : Type) (l : LdapConn.t Conn)
    (ldapServer : Ldap.t) (selectedUser : option User.t) (s s' : St)
    (entries : list Entry.t) :
  Ldap.EnableAttributeMapping ldapServer = false ->
  Ldap.EnableRoleMapping ldapServer = false ->
  (forall req, SearchWithPaging (LdapConn.Conn_ l) req 100 (St.world s)
               = (Some entries, None)) ->
  (forall req, SearchWithPaging (LdapConn.Conn_ l) req 100 (St.world s')
               = (Some (map first_values_only entries), None)) ->
  fst (GetLdapUsers (R := R) l ldapServer selectedUser s')
  = fst (GetLdapUsers (R := R) l ldapServer selectedUser s).
Proof.
  intros Ham Hrm Hs Hs'.
  destruct (GetLdapUsers_run R l ldapServer selectedUser s) as (req & ->).
  destruct (GetLdapUsers_run R l ldapServer selectedUser s') as (req' & ->).
  rewrite Hs, Hs'. cbn [fst].
  rewrite length_map, (@first_values_only_users ldapServer entries Ham Hrm). reflexivity.
Qed.

(** what [isMicrosoftAD] does, by the outcome of the root entry search *)
Lemma isMicrosoftAD_run R (conn : Conn) (s : St) :
  exists req,
    isMicrosoftAD (R := R) conn s =
    (match Search conn req (St.world s) with
     | (_, Some e) => Val (false, Some e)
     | (None, None) => Panic "nil pointer dereference: searchResult.Entries"
     | (Some entries, None) =>
         if Nat.eqb (length entries) 0 then Val (false, None)
         else match fold_may_panic server_type_attribute
                      (all_attributes entries) (ServerType.mk "" "" "" "") with
              | Some t =>
                  Val (String.eqb (ServerType.Vendorname t) ""
                       && String.eqb (ServerType.Vendorversion t) ""
                       && String.eqb (ServerType.IsGlobalCatalogReady t) "TRUE"
                       && negb (String.eqb (ServerType.ForestFunctionality t) ""),
                       None)
              | None => Panic "nil pointer dereference: index out of range"
              end
     end, s).
Proof.
  unfold isMicrosoftAD, call, isMicrosoftAD_body, bind, query, gets, deref,
    return_, ret, panic, all_attributes.
  match goal with |- context [Search ?c ?req ?w] =>
    exists req;
    destruct (Search c req w) as [[entries|] [e|]] end;
    try reflexivity.
  destruct (Nat.eqb (length entries) 0); [reflexivity|].
  rewrite fold_may_panic_flat.
  destruct (fold_may_panic server_type_attribute _ _); reflexivity.
Qed.

Lemma server_type_fold (attrs : list Entry.Attribute) (t t' : ServerType.t) :
  fold_may_panic server_type_attribute attrs t = Some t' ->
  let pick name init :=
    fold_left (fun acc a => if String.eqb (Entry.Name a) name
                            then hd "" (Entry.Values a) else acc) attrs init in
  ServerType.Vendorname t' = pick "vendorname" (ServerType.Vendorname t) /\
  ServerType.Vendorversion t' = pick "vendorversion" (ServerType.Vendorversion t) /\
  ServerType.IsGlobalCatalogReady t'
    = pick "isGlobalCatalogReady" (ServerType.IsGlobalCatalogReady t) /\
  ServerType.ForestFunctionality t'
    = pick "forestFunctionality" (ServerType.ForestFunctionality t).
Proof.
  revert t; induction attrs as [|a attrs IH]; intros t; cbn.
  - intros [= <-]. repeat split.
  - destruct (server_type_attribute a t) as [t1|] eqn:E; [|discriminate].
    intros H. specialize (IH _ H). cbn in IH.
    destruct IH as (H1 & H2 & H3 & H4). rewrite H1, H2, H3, H4. clear - E.
    unfold server_type_attribute, first_value in E. cbn zeta in E.
    destruct (Entry.Values a) as [|v vs]; cbn [option_map hd] in E |- *.
    + destruct (String.eqb_spec (Entry.Name a) "vendorname") as [Hn|];
        [discriminate|].
      destruct (String.eqb_spec (Entry.Name a) "vendorversion") as [Hn|];
        [discriminate|].
      destruct (String.eqb_spec (Entry.Name a) "isGlobalCatalogReady") as [Hn|];
        [discriminate|].
      destruct (String.eqb_spec (Entry.Name a) "forestFunctionality") as [Hn|];
        [discriminate|].
      injection E as <-. repeat split.
    + destruct (String.eqb_spec (Entry.Name a) "vendorname") as [Hn|].
      { rewrite ?Hn. injection E as <-. cbn. repeat split. }
      destruct (String.eqb_spec (Entry.Name a) "vendorversion") as [Hn|].
      { rewrite ?Hn. injection E as <-. cbn. repeat split. }
      destruct (String.eqb_spec (Entry.Name a) "isGlobalCatalogReady") as [Hn|].
      { rewrite ?Hn. injection E as <-. cbn. repeat split. }
      destruct (String.eqb_spec (Entry.Name a) "forestFunctionality") as [Hn|].
      { rewrite ?Hn. injection E as <-. cbn. repeat split. }
      injection E as <-. repeat split.
Qed.

(** X6. The Active Directory test.  When the root entry search returns
    entries in which every one of the four attributes read has a value,
    [isMicrosoftAD] answers without error, and answers yes exactly when,
    taking for each attribute the first value of its last occurrence,
    [vendorname] and [vendorversion] are empty or absent,
    [isGlobalCatalogReady] is the string TRUE and [forestFunctionality] is
    not empty.  The state is left as it was. *)
Theorem isMicrosoftAD_rule (R : Type) (conn : Conn) (s : St)
    (entries : list Entry.t) :
  (forall req, Search conn req (St.world s) = (Some entries, None)) ->
  entries <> [] ->
  existsb valueless_server (all_attributes entries) = false ->
  isMicrosoftAD (R := R) conn s
  = (Val (looks_like_active_directory (all_attributes entries), None), s).
Proof.
  intros Hsearch Hne Hval.
  destruct (isMicrosoftAD_run R conn s) as (req & ->).
  rewrite Hsearch.
  destruct (Nat.eqb_spec (length entries) 0) as [H0|H0].
  { destruct entries; [contradiction | discriminate]. }
  destruct (fold_may_panic server_type_attribute (all_attributes entries)
              (ServerType.mk "" "" "" "")) as [t|] eqn:E.
  - apply server_type_fold in E. cbn in E.
    destruct E as (-> & -> & -> & ->). reflexivity.
  - apply (fold_may_panic_none _ _ server_type_attribute_none) in E.
    congruence.
Qed.

End DirectoryProperties.

(** ** [GetLdapConn] *)

Section ConnProperties.
Context {W : Type} {store : Store W} {dir : Directory W}.

Local Abbreviation St := (St.t W).

Lemma isMicrosoftAD_state R (conn : Conn) (s : St) :
  snd (isMicrosoftAD (R := R) conn s) = s.
Proof. destruct (isMicrosoftAD_run R conn s) as (req & ->). reflexivity. Qed.

Lemma isMicrosoftAD_no_ret R (conn : Conn) (s : St) r :
  fst (isMicrosoftAD (R := R) conn s) <> Ret r.
Proof.
  destruct (isMicrosoftAD_run R conn s) as (req & ->). cbn [fst].
  repeat break_innermost; discriminate.
Qed.

Lemma isMicrosoftAD_any_result R R' (conn : Conn) (s s' : St) v :
  isMicrosoftAD (R := R) conn s = (Val v, s') ->
  isMicrosoftAD (R := R') conn s = (Val v, s').
Proof.
  unfold isMicrosoftAD, call.
  destruct (isMicrosoftAD_body conn s) as [[a|r|w] s1]; congruence.
Qed.

Lemma GetLdapConn_state (R : Type) (ldap : Ldap.t) (s : St) :
  snd (GetLdapConn (R := R) ldap s) = s.
Proof.
  pose proof (fun c => isMicrosoftAD_state
                        (option (LdapConn.t Conn) * option error) c s) as Hst.
  unfold GetLdapConn, call, GetLdapConn_body, bind, query, gets, deref, ret,
    return_, panic.
  repeat (first [break_innermost | progress cbn beta iota]); cbn [fst snd].
  all: try match goal with
       | H : isMicrosoftAD ?c _ = (_, ?s1) |- _ =>
           let Hs := fresh in
           pose proof (Hst c) as Hs; rewrite H in Hs; cbn in Hs; subst s1
       end.
  all: reflexivity.
Qed.

(** X7. [GetLdapConn] only reads, and it returns a connection exactly
    when it returns no error.  A connection is handed out only after the
    bind on it was accepted (external bind when TLS and cryptographic
    authentication are both on, simple bind with the configured name and
    password otherwise) and the Active Directory test on it ran without
    error; its [IsAD] flag is the answer of that test. *)
Theorem GetLdapConn_result (R : Type) (ldap : Ldap.t) (s : St) :
  snd (GetLdapConn (R := R) ldap s) = s /\
  (forall r, fst (GetLdapConn (R := R) ldap s) <> Ret r) /\
  (forall conn err,
     fst (GetLdapConn (R := R) ldap s) = Val (conn, err) ->
     (exists e, conn = None /\ err = Some e) \/
     (exists c, conn = Some c /\ err = None /\
        bind_accepted ldap (LdapConn.Conn_ c) (St.world s) /\
        fst (isMicrosoftAD (R := R) (LdapConn.Conn_ c) s)
        = Val (LdapConn.IsAD c, None))).
Proof.
  pose proof (fun c => isMicrosoftAD_state
                        (option (LdapConn.t Conn) * option error) c s) as Hst.
  pose proof (fun c => @isMicrosoftAD_no_ret
                        (option (LdapConn.t Conn) * option error) c s) as Hnr.
  unfold GetLdapConn, call, GetLdapConn_body, bind, query, gets, deref, ret,
    return_, panic, bind_accepted.
  repeat (first [break_innermost | progress cbn beta iota]); cbn [fst snd].
  all: try match goal with
       | H : isMicrosoftAD ?c _ = (Ret ?r, _) |- _ =>
           exfalso; apply (Hnr c r); rewrite H; reflexivity
       end.
  all: try match goal with
       | H : isMicrosoftAD ?c _ = (_, ?s1) |- _ =>
           let Hs := fresh in
           pose proof (Hst c) as Hs; rewrite H in Hs; cbn in Hs; subst s1
       end.
  all: (split; [reflexivity|]); (split; [discriminate|]).
  all: try (intros conn err [= <- <-]; left; eexists; split; reflexivity).
  all: try discriminate.
  all: intros conn err [= <- <-]; right; eexists; split; [reflexivity|];
         (split; [reflexivity|]); cbn [LdapConn.Conn_ LdapConn.IsAD].
  all: repeat match goal with
       | H : (_, _) = (_, _) |- _ => inversion H; subst; clear H
       end.
  all: split;
         [ assumption
         | match goal with
           | H : isMicrosoftAD _ _ = _ |- _ =>
               rewrite (@isMicrosoftAD_any_result _ R _ _ _ _ H); reflexivity
           end ].
Qed.

(** X8. Without TLS the certificate settings play no part: two directory
    settings that agree on host, port, bind name and password and both
    have TLS off connect in the same way, whatever their certificate,
    client certificate and cryptographic-authentication settings are. *)
Theorem GetLdapConn_plain_ignores_certificates (R : Type) (a b : Ldap.t)
    (s : St) :
  Ldap.EnableSsl a = false ->
  Ldap.EnableSsl b = false ->
  same_plain_settings a b ->
  GetLdapConn (R := R) a s = GetLdapConn (R := R) b s.
Proof.
  intros Ha Hb (Hhost & Hport & Huser & Hpw).
  unfold GetLdapConn, GetLdapConn_body, host_port.
  rewrite Ha, Hb, Hhost, Hport, Huser, Hpw. reflexivity.
Qed.

End ConnProperties.

(** ** [SyncLdapUsers] as a whole *)

Section BatchProperties.
Context {W : Type} {store : Store W}.

Local Abbreviation St := (St.t W).

Lemma replay_app (w : W) (evs1 evs2 : list Event) :
  replay w (evs1 ++ evs2) = replay (replay w evs1) evs2.
Proof. unfold replay. apply fold_left_app. Qed.

Lemma in_worlds_app (w : W) (evs1 evs2 : list Event) :
  in_worlds w (evs1 ++ evs2)
  = in_worlds w evs1 ++ in_worlds (replay w evs1) evs2.
Proof.
  revert w; induction evs1 as [|e evs1 IH]; intros w; cbn; [reflexivity|].
  rewrite IH. reflexivity.
Qed.

Lemma links_follow_weaken (prev : option (User.t * User.t))
    (evs : list (W * Event)) :
  links_follow None evs = true -> links_follow prev evs = true.
Proof.
  destruct evs as [|[w []] rest]; cbn; try tauto.
  intros H; discriminate H.
Qed.

Lemma links_follow_app (prev : option (User.t * User.t))
    (evs1 evs2 : list (W * Event)) :
  links_follow prev evs1 = true ->
  links_follow None evs2 = true ->
  links_follow prev (evs1 ++ evs2) = true.
Proof.
  revert prev; induction evs1 as [|[w e] evs1 IH]; intros prev H1 H2.
  - now apply links_follow_weaken.
  - destruct e; cbn in *; auto.
    apply andb_true_iff in H1 as [Hp H1]. rewrite Hp. cbn. auto.
Qed.

Lemma links_bounded (evs : list Event) :
  forall (w : W) (prev : option (User.t * User.t)),
  links_follow prev (in_worlds w evs) = true ->
  count_events is_add_link evs
  <= length (filter is_created (in_worlds w evs))
     + match prev with Some _ => 1 | None => 0 end.
Proof.
  unfold count_events.
  induction evs as [|e evs IH]; intros w prev H.
  - cbn. lia.
  - destruct e; cbn [in_worlds links_follow filter is_add_link] in *.
    + specialize (IH _ _ H). cbn in IH |- *. lia.
    + specialize (IH _ _ H). cbn in IH |- *. lia.
    + specialize (IH _ _ H). unfold is_created at 1.
      destruct (created (w, WAddUser u)); cbn [length] in *; lia.
    + apply andb_true_iff in H as [Hp H]. specialize (IH _ _ H).
      cbn in IH |- *. destruct prev; [lia | discriminate].
    + specialize (IH _ _ H). cbn in IH |- *. lia.
Qed.

Lemma new_ldap_user_Ldap (owner name now : string) (syncUser : LdapUser.t)
    (organization : Organization.t) (affiliation tag : string) (score : Z) :
  User.Ldap (new_ldap_user owner name now syncUser organization affiliation
               tag score)
  = LdapUser.Uuid syncUser.
Proof. unfold new_ldap_user. destruct (negb _); reflexivity. Qed.

Lemma sync_one_links (owner ldapId : string)
    (organization : option Organization.t) (affiliation tag : string)
    (uuids : list string) (acc : Acc) (syncUser : LdapUser.t) (s : St) :
  let s1 := snd (sync_one owner ldapId organization affiliation tag uuids
                   acc syncUser s) in
  exists evs,
    St.trace s1 = St.trace s ++ evs /\
    St.world s1 = replay (St.world s) evs /\
    links_follow None (in_worlds (St.world s) evs) = true.
Proof.
  destruct s as [w d tr].
  unfold sync_one, sync_roles_step, buildLdapUserName, GetExistUuids, bind,
    emit, modify, query, gets, update, draw_hex, deref, ret, return_, panic.
  cbn -[new_ldap_user].
  repeat (break_innermost; cbn -[new_ldap_user] in * );
    rewrite <- ?app_assoc; cbn -[new_ldap_user];
    (eexists; split; [reflexivity|];
     unfold replay, created; cbn -[new_ldap_user];
     repeat (match goal with
             | H : AddUser _ _ = _ |- _ => rewrite H
             | H : AddUserIdProvider _ _ = _ |- _ => rewrite H
             | H : SyncRoles _ _ _ _ = _ |- _ => rewrite H
             end; cbn -[new_ldap_user]);
     repeat match goal with
            | H : negb ?b = false |- _ =>
                destruct b; [clear H | discriminate H]
            end;
     cbn -[new_ldap_user];
     rewrite ?new_ldap_user_Ldap, ?String.eqb_refl; split; reflexivity).
Qed.

Lemma sync_loop_links (owner ldapId : string)
    (organization : option Organization.t) (affiliation tag : string)
    (uuids : list string) (syncUsers : list LdapUser.t) :
  forall (acc : Acc) (s : St),
  let s1 := snd (sync_loop owner ldapId organization affiliation tag uuids
                   syncUsers acc s) in
  exists evs,
    St.trace s1 = St.trace s ++ evs /\
    St.world s1 = replay (St.world s) evs /\
    links_follow None (in_worlds (St.world s) evs) = true.
Proof.
  induction syncUsers as [|u rest IH]; intros acc s; cbn zeta.
  - exists []. cbn. rewrite app_nil_r. repeat split; reflexivity.
  - cbn [sync_loop]. unfold bind.
    destruct (sync_one_links owner ldapId organization affiliation tag
                uuids acc u s) as (evs1 & Htr1 & Hw1 & Hl1).
    destruct (sync_one owner ldapId organization affiliation tag uuids acc u s)
      as [[acc' | r | why] s1]; cbn [snd] in Htr1, Hw1.
    + destruct (IH acc' s1) as (evs2 & Htr2 & Hw2 & Hl2).
      exists (evs1 ++ evs2).
      split; [rewrite Htr2, Htr1, <- app_assoc; reflexivity|].
      split; [rewrite Hw2, Hw1, replay_app; reflexivity|].
      rewrite in_worlds_app. apply links_follow_app; [assumption|].
      rewrite <- Hw1. assumption.
    + exists evs1. repeat split; assumption.
    + exists evs1. repeat split; assumption.
Qed.

(** X9. Whatever the batch and the store, and however the call ends
    (results, error or panic): the world [SyncLdapUsers] leaves is the one
    its recorded writes make, one after the other, of the world it
    started in; it writes an identity link only directly after a creation
    for which [AddUser] reported the user as added, without error, and the
    link carries the directory uuid that user was created with and the id
    [AddUser] gave it; so it never writes more links than it has created
    users. *)
Theorem SyncLdapUsers_links_follow_creations (owner : string)
    (syncUsers : list LdapUser.t) (ldapId : string) (s : St) :
  let s' := snd (run_SyncLdapUsers owner syncUsers ldapId s) in
  let evs := events_since s s' in
  St.world s' = replay (St.world s) evs /\
  links_follow None (in_worlds (St.world s) evs) = true /\
  count_events is_add_link evs
  <= length (filter is_created (in_worlds (St.world s) evs)).
Proof.
  cbn zeta.
  assert (H : exists evs,
             St.trace (snd (run_SyncLdapUsers owner syncUsers ldapId s))
             = St.trace s ++ evs /\
             St.world (snd (run_SyncLdapUsers owner syncUsers ldapId s))
             = replay (St.world s) evs /\
             links_follow None (in_worlds (St.world s) evs) = true).
  { assert (Hsame : snd (run_SyncLdapUsers owner syncUsers ldapId s)
                    = snd (SyncLdapUsers owner syncUsers ldapId s)).
    { unfold run_SyncLdapUsers, call.
      destruct (SyncLdapUsers owner syncUsers ldapId s) as [[?|?|?] ?];
        reflexivity. }
    rewrite Hsame.
    unfold SyncLdapUsers, bind, query, gets, deref, ret, panic.
    destruct (getOrganization "admin" owner (St.world s))
      as [organization [e|]].
    - cbn [snd]. exists []. rewrite app_nil_r. repeat split; reflexivity.
    - destruct (GetLdap ldapId (St.world s)) as [[l|] err0];
        [|cbn [snd]; exists []; rewrite app_nil_r; repeat split; reflexivity].
      destruct (dn_values_total (Strings.Split (Ldap.BaseDn l) ",") "dc="
                  eq_refl) as [dc ->].
      destruct (dn_values_total (Strings.Split (Ldap.Username l) ",") "ou="
                  eq_refl) as [ou ->].
      destruct (sync_loop_links owner ldapId organization
                  (Strings.Join dc ".") (Strings.Join ou ".")
                  (map LdapUser.Uuid syncUsers) syncUsers ([], []) s)
        as (evs & Htr & Hw & Hl).
      destruct (sync_loop owner ldapId organization (Strings.Join dc ".")
                  (Strings.Join ou ".") (map LdapUser.Uuid syncUsers)
                  syncUsers ([], []) s) as [[acc | r | why] s1];
        cbn [fst snd] in *; exists evs; repeat split; assumption. }
  destruct H as (evs & Htr & Hw & Hl).
  rewrite (events_since_app s _ evs Htr).
  split; [exact Hw|]. split; [exact Hl|].
  pose proof (links_bounded evs (St.world s) None Hl) as Hb.
  rewrite Nat.add_0_r in Hb. exact Hb.
Qed.

(** X10. [SyncLdapUsers] has no error return for missing settings: when
    the organisation cannot be read, or the directory settings named by
    [ldapId] are not found (whether or not that look-up reports an error),
    the call panics, before anything is looked up or written, and this
    even for an empty batch. *)
Theorem SyncLdapUsers_panics_without_settings (owner : string)
    (syncUsers : list LdapUser.t) (ldapId : string) (s : St) :
  snd (getOrganization "admin" owner (St.world s)) <> None \/
  fst (GetLdap ldapId (St.world s)) = None ->
  exists why,
    run_SyncLdapUsers owner syncUsers ldapId s = (Panic why, s).
Proof.
  unfold run_SyncLdapUsers, call, SyncLdapUsers, bind, query, gets, deref,
    ret, panic.
  destruct (getOrganization "admin" owner (St.world s)) as [organization [e|]];
    cbn [fst snd].
  - intros _. eauto.
  - intros [H|H]; [congruence|].
    destruct (GetLdap ldapId (St.world s)) as [[l|] err0]; cbn [fst] in H;
      [discriminate | eauto].
Qed.

(** The error that a completed call returns is the one the
    directory-settings look-up made before the loop reported, which is
    otherwise ignored.  On an empty batch, with the organisation read and
    the settings found, the call returns two empty lists and that error
    (if any), and it leaves the state as it was; slicing the
    distinguished names of the settings cannot panic. *)
Theorem SyncLdapUsers_empty_batch (owner ldapId : string) (s : St)
    (organization : option Organization.t) (l : Ldap.t) (err : option error) :
  getOrganization "admin" owner (St.world s) = (organization, None) ->
  GetLdap ldapId (St.world s) = (Some l, err) ->
  run_SyncLdapUsers owner [] ldapId s = (Val ([], [], err), s).
Proof.
  intros Horg Hldap.
  unfold run_SyncLdapUsers, call, SyncLdapUsers, bind, query, gets, deref,
    ret, panic.
  rewrite Horg, Hldap.
  destruct (dn_values_total (Strings.Split (Ldap.BaseDn l) ",") "dc=" eq_refl)
    as [dc ->].
  destruct (dn_values_total (Strings.Split (Ldap.Username l) ",") "ou=" eq_refl)
    as [ou ->].
  reflexivity.
Qed.

(** X11. Running a batch whose records are all present already, with
    role mapping off and all look-ups succeeding, changes nothing: the
    call returns the whole batch, in order, as the existing users, no
    failed users and no error; it writes nothing and the store is the
    same afterwards.  So a second run of an unchanged batch is a no-op. *)
Theorem SyncLdapUsers_unchanged_batch_is_noop (owner ldapId : string)
    (syncUsers : list LdapUser.t) (organization : option Organization.t)
    (l : Ldap.t) (w : W) (d : nat) (tr : list Event) :
  getOrganization "admin" owner w = (organization, None) ->
  GetLdap ldapId w = (Some l, None) ->
  Ldap.EnableRoleMapping l = false ->
  find_err w owner (map LdapUser.Uuid syncUsers) = None ->
  (forall r, In r syncUsers ->
     get_err w (LdapUser.Uid r) (composite r) = None /\
     present_locally owner (LdapUser.Uuid r) w) ->
  exists d' evs,
    run_SyncLdapUsers owner syncUsers ldapId (St.mk w d tr)
    = (Val (syncUsers, [], None), St.mk w d' (tr ++ evs)) /\
    filter is_write evs = [].
Proof.
  intros Horg Hldap Hrm Hfind Hall.
  unfold run_SyncLdapUsers, call, SyncLdapUsers, bind, query, gets, deref,
    ret, panic.
  cbn [St.world]. rewrite Horg. cbn beta iota. cbn [St.world]. rewrite Hldap.
  cbn beta iota.
  destruct (dn_values_total (Strings.Split (Ldap.BaseDn l) ",") "dc=" eq_refl)
    as [dc ->].
  destruct (dn_values_total (Strings.Split (Ldap.Username l) ",") "ou=" eq_refl)
    as [ou ->].
  destruct (@sync_loop_all_present W store owner ldapId organization
              (Strings.Join dc ".") (Strings.Join ou ".")
              (map LdapUser.Uuid syncUsers) l w syncUsers Hldap Hrm Hfind)
    with (acc := (@nil LdapUser.t, @nil LdapUser.t)) (d := d) (tr := tr)
    as (d' & evs & Hrun & Hw).
  { intros r Hr. destruct (Hall r Hr) as [Hget Hpres].
    split; [apply in_map; exact Hr | split; assumption]. }
  exists d', evs. rewrite Hrun. cbn [fst snd app]. split; [reflexivity | exact Hw].
Qed.

End BatchProperties.

(** ** [SyncUserFromLdap] when a directory has the user *)

Section FoundProperties.
Context {W : Type} {store : Store W} {dir : Directory W}.

Local Abbreviation St := (St.t W).

Lemma try_servers_skip (organization ldapId userName password lang : string)
    (pre rest : list Ldap.t) (s : St) :
  Forall (yields_nothing ldapId userName s) pre ->
  try_servers organization ldapId (searched_user userName) password lang
    (pre ++ rest) s
  = try_servers organization ldapId (searched_user userName) password lang
      rest s.
Proof.
  induction 1 as [|ldapServer pre Hhd _ IH]; [reflexivity|].
  cbn [app try_servers]. rewrite ltb_length_nonempty.
  destruct Hhd as [[Hid Hne] | [(c & e & Hconn) | (c & err & Hconn & Husers)]].
  - apply String.eqb_neq in Hid, Hne. rewrite Hid, Hne. exact IH.
  - destruct (negb (ldapId =? "") && negb (Ldap.Id ldapServer =? ldapId))%string;
      [exact IH|].
    erewrite bind_val by exact Hconn. exact IH.
  - destruct (negb (ldapId =? "") && negb (Ldap.Id ldapServer =? ldapId))%string;
      [exact IH|].
    erewrite bind_val by exact Hconn. cbn [deref].
    unfold bind at 1, ret at 1.
    erewrite bind_val by exact Husers. exact IH.
Qed.

Lemma selected_not_skipped (ldapId : string) (ldapServer : Ldap.t) :
  server_selected ldapId ldapServer ->
  (Nat.ltb 0 (String.length ldapId)
   && negb (String.eqb (Ldap.Id ldapServer) ldapId)) = false.
Proof.
  intros [-> | <-]; [reflexivity|].
  rewrite String.eqb_refl. apply andb_false_r.
Qed.

(** the first server that is selected, connects and has entries for the
    user decides the outcome *)
Lemma try_servers_found (organization ldapId userName password lang : string)
    (ldapServer : Ldap.t) (rest : list Ldap.t) (s : St)
    (c : LdapConn.t Conn) (res : list LdapUser.t) (err : option error) :
  server_selected ldapId ldapServer ->
  fst (GetLdapConn (R := LdapLookup) ldapServer s) = Val (Some c, None) ->
  fst (GetLdapUsers (R := LdapLookup) c ldapServer
         (Some (searched_user userName)) s) = Val (res, err) ->
  res <> [] ->
  try_servers organization ldapId (searched_user userName) password lang
    (ldapServer :: rest) s
  = match snd (CheckLdapUserPassword (searched_user userName) password lang
                 (St.world s)) with
    | Some e => (Ret (None, Some e), s)
    | None =>
        let (r, s') :=
          run_SyncLdapUsers organization (AutoAdjustLdapUser res)
            (Ldap.Id ldapServer) s in
        (match r with
         | Val (_, _, err) | Ret (_, _, err) => Ret (hd_error res, err)
         | Panic why => Panic why
         end, s')
    end.
Proof.
  intros Hsel Hconn Husers Hne.
  cbn [try_servers]. rewrite (selected_not_skipped Hsel).
  assert (Hc : GetLdapConn (R := LdapLookup) ldapServer s
               = (Val (Some c, None), s)).
  { pose proof (GetLdapConn_state LdapLookup ldapServer s) as Hs.
    destruct (GetLdapConn ldapServer s) as [r s1]; cbn in *. congruence. }
  assert (Hu : GetLdapUsers (R := LdapLookup) c ldapServer
                 (Some (searched_user userName)) s = (Val (res, err), s)).
  { destruct (GetLdapUsers_run LdapLookup c ldapServer
                (Some (searched_user userName)) s) as (req & Hrun).
    rewrite Hrun in Husers |- *. cbn [fst] in Husers. rewrite Husers.
    reflexivity. }
  erewrite bind_val by exact Hc. cbn [deref].
  unfold bind at 1, ret at 1.
  erewrite bind_val by exact Hu.
  destruct res as [|u us]; [contradiction|]. cbn [length Nat.eqb].
  unfold bind at 1, query at 1, gets at 1.
  destruct (CheckLdapUserPassword (searched_user userName) password lang
              (St.world s)) as [x [e|]]; cbn [snd]; [reflexivity|].
  unfold run_SyncLdapUsers, bind, call, return_.
  destruct (SyncLdapUsers organization (AutoAdjustLdapUser (u :: us))
              (Ldap.Id ldapServer) s) as [[[[ex fl] er]|[[ex fl] er]|why] s1];
    reflexivity.
Qed.

(** X12. A wrong password stops the search.  When the servers tried
    first yield nothing and the next selected server connects and has
    entries for the user, a failing password check makes
    [SyncUserFromLdap] return a nil user with the error of the check;
    nothing is synchronised, the state is as before, and the servers
    after it are not consulted (the result does not depend on them). *)
Theorem SyncUserFromLdap_wrong_password_stops
    (organization ldapId userName password lang : string)
    (pre rest : list Ldap.t) (ldapServer : Ldap.t) (s : St)
    (c : LdapConn.t Conn) (res : list LdapUser.t) (err : option error)
    (e : error) :
  GetLdaps organization (St.world s) = (pre ++ ldapServer :: rest, None) ->
  Forall (yields_nothing ldapId userName s) pre ->
  server_selected ldapId ldapServer ->
  fst (GetLdapConn (R := LdapLookup) ldapServer s) = Val (Some c, None) ->
  fst (GetLdapUsers (R := LdapLookup) c ldapServer
         (Some (searched_user userName)) s) = Val (res, err) ->
  res <> [] ->
  snd (CheckLdapUserPassword (searched_user userName) password lang
         (St.world s)) = Some e ->
  call (R' := LdapLookup)
    (SyncUserFromLdap organization ldapId userName password lang) s
  = (Val (None, Some e), s).
Proof.
  intros Hldaps Hpre Hsel Hconn Husers Hne Hpw.
  unfold call, SyncUserFromLdap. unfold bind at 1, query at 1, gets at 1.
  rewrite Hldaps. fold (searched_user userName).
  unfold bind at 1.
  rewrite (@try_servers_skip organization ldapId userName password lang pre
             (ldapServer :: rest) s Hpre).
  rewrite (@try_servers_found organization ldapId userName password lang
             ldapServer rest s c res err Hsel Hconn Husers Hne).
  rewrite Hpw. reflexivity.
Qed.

(** X13. An accepted password ends the search with a synchronisation.
    Under the same conditions, when the password check passes,
    [SyncUserFromLdap] runs [SyncLdapUsers] for the organisation on the
    adjusted entries of that server, under that server's id, and returns
    the first entry as the server sent it (not the adjusted one) together
    with the error of the synchronisation; a panic of the synchronisation
    is a panic of the call.  The final state is the one the
    synchronisation leaves. *)
Theorem SyncUserFromLdap_found_runs_sync
    (organization ldapId userName password lang : string)
    (pre rest : list Ldap.t) (ldapServer : Ldap.t) (s : St)
    (c : LdapConn.t Conn) (res : list LdapUser.t) (err : option error) :
  GetLdaps organization (St.world s) = (pre ++ ldapServer :: rest, None) ->
  Forall (yields_nothing ldapId userName s) pre ->
  server_selected ldapId ldapServer ->
  fst (GetLdapConn (R := LdapLookup) ldapServer s) = Val (Some c, None) ->
  fst (GetLdapUsers (R := LdapLookup) c ldapServer
         (Some (searched_user userName)) s) = Val (res, err) ->
  res <> [] ->
  snd (CheckLdapUserPassword (searched_user userName) password lang
         (St.world s)) = None ->
  call (R' := LdapLookup)
    (SyncUserFromLdap organization ldapId userName password lang) s
  = (found_outcome res
       (fst (run_SyncLdapUsers organization (AutoAdjustLdapUser res)
               (Ldap.Id ldapServer) s)),
     snd (run_SyncLdapUsers organization (AutoAdjustLdapUser res)
            (Ldap.Id ldapServer) s)).
Proof.
  intros Hldaps Hpre Hsel Hconn Husers Hne Hpw.
  unfold call, SyncUserFromLdap. unfold bind at 1, query at 1, gets at 1.
  rewrite Hldaps. fold (searched_user userName).
  unfold bind at 1.
  rewrite (@try_servers_skip organization ldapId userName password lang pre
             (ldapServer :: rest) s Hpre).
  rewrite (@try_servers_found organization ldapId userName password lang
             ldapServer rest s c res err Hsel Hconn Husers Hne).
  rewrite Hpw.
  destruct (run_SyncLdapUsers organization (AutoAdjustLdapUser res)
              (Ldap.Id ldapServer) s) as [[[[ex fl] er]|[[ex fl] er]|why] s1];
    reflexivity.
Qed.

End FoundProperties.

(** ** The directory code on the in-memory network *)

Module DirectoryExamples.
Import Mem Demo Lab.

Lemma buildAuthFilterString_shape_witness :
  buildAuthFilterString backup (searched_user "dave")
  = "(&(objectClass=person)(|(uid=dave)(mail=)))"%string.
Proof.
  destruct (buildAuthFilterString_shape backup (searched_user "dave"))
    as (_ & H & _).
  rewrite H; [reflexivity | discriminate].
Defined.

Lemma GetLdapUsers_users_iff_no_error_witness :
  snd (GetLdapUsers (R := unit) (dir := nobody) plain_conn (directory false)
         None (start two_servers)) = start two_servers /\
  ((Some "no result" : option error) <> None <-> @nil LdapUser.t = []).
Proof.
  destruct (@GetLdapUsers_users_iff_no_error Mem.t nobody unit
              plain_conn (directory false) None (start two_servers))
    as (Hs & _ & H).
  split; [exact Hs|].
  apply (H [] (Some "no result")). vm_compute; reflexivity.
Defined.

Lemma GetLdapUsers_panics_iff_valueless_witness :
  exists why,
    fst (GetLdapUsers (R := unit) (dir := has_eve) plain_conn
           (directory false) None (start two_servers)) = Panic why.
Proof.
  apply (@GetLdapUsers_panics_iff_valueless Mem.t has_eve unit
           plain_conn (directory false) None (start two_servers) [eve_entry]).
  - reflexivity.
  - intros req; reflexivity.
  - discriminate.
Defined.

Lemma GetLdapUsers_reads_first_value_only_witness :
  fst (GetLdapUsers (R := unit) (dir := trimmed_at_night) plain_conn
         (directory false) None (start at_night))
  = fst (GetLdapUsers (R := unit) (dir := trimmed_at_night) plain_conn
           (directory false) None (start two_servers)).
Proof.
  apply (@GetLdapUsers_reads_first_value_only Mem.t trimmed_at_night
           unit plain_conn (directory false) None (start two_servers)
           (start at_night) [dave_entry]).
  - reflexivity.
  - reflexivity.
  - intros req; reflexivity.
  - intros req; reflexivity.
Defined.

Lemma isMicrosoftAD_rule_witness :
  isMicrosoftAD (R := unit) (dir := active_directory) "ldap.example.com:389"
    (start two_servers)
  = (Val (true, None), start two_servers).
Proof.
  apply (@isMicrosoftAD_rule Mem.t active_directory unit
           "ldap.example.com:389" (start two_servers) [ad_root]).
  - intros req; reflexivity.
  - discriminate.
  - reflexivity.
Defined.

Lemma GetLdapConn_result_witness :
  exists c,
    fst (GetLdapConn (R := unit) (dir := active_directory) (directory false)
           (start two_servers)) = Val (Some c, None) /\
    LdapConn.IsAD c = true /\
    bind_accepted (dir := active_directory) (directory false)
      (LdapConn.Conn_ c) two_servers.
Proof.
  destruct (@GetLdapConn_result Mem.t active_directory unit
              (directory false) (start two_servers)) as (_ & _ & H).
  destruct (H (Some (LdapConn.mk "ldap.example.com:389" true)) None)
    as [(e & Hc & _) | (c & Hc & _ & Hb & _)].
  - vm_compute; reflexivity.
  - discriminate Hc.
  - exists c. injection Hc as <-.
    split; [vm_compute; reflexivity|]. split; [reflexivity | exact Hb].
Defined.

Lemma GetLdapConn_plain_ignores_certificates_witness :
  GetLdapConn (R := unit) (dir := has_dave) with_certificates
    (start two_servers)
  = GetLdapConn (R := unit) (dir := has_dave) (directory false)
      (start two_servers).
Proof.
  apply (@GetLdapConn_plain_ignores_certificates Mem.t has_dave
           unit with_certificates (directory false) (start two_servers)).
  - reflexivity.
  - reflexivity.
  - repeat split.
Defined.

(** A server that answers with a value-less attribute brings the whole
    login down instead of being skipped. *)
Example valueless_attribute_panics_login :
  exists why,
    fst (call (R' := LdapLookup)
           (SyncUserFromLdap (dir := has_eve) "acme" "" "eve" "pw" "en")
           (start two_servers)) = Panic why.
Proof. eexists. vm_compute. reflexivity. Qed.

(** Of three records, one is present, one is refused by [AddUser]
    (it has no name) and one is created: two creations are tried, one
    succeeds, and one link is written, for the record that was created. *)
Example refused_creation_gets_no_link :
  let out := outcome false [alice_local] [alice; nameless; carol] in
  let evs := St.trace (snd out) in
  let made := in_worlds (world false [alice_local]) evs in
  count_events is_add_user evs = 2 /\
  length (filter is_created made) = 1 /\
  map UserIdProvider.UserId (links (St.world (snd out))) = ["id-carol"].
Proof. repeat split; vm_compute; reflexivity. Qed.

Lemma SyncLdapUsers_panics_without_settings_witness :
  exists why,
    run_SyncLdapUsers "acme" [alice] "no-such-ldap" (start (world false []))
    = (Panic why, start (world false [])).
Proof.
  apply (@SyncLdapUsers_panics_without_settings Mem.t Mem.store "acme" [alice]
           "no-such-ldap" (start (world false []))).
  right. reflexivity.
Defined.

Lemma SyncLdapUsers_empty_batch_witness :
  run_SyncLdapUsers "acme" [] "ldap-1" (start (world false [alice_local]))
  = (Val ([], [], None), start (world false [alice_local])).
Proof.
  apply (@SyncLdapUsers_empty_batch Mem.t Mem.store "acme" "ldap-1"
           (start (world false [alice_local])) (Some acme) (directory false)
           None).
  - reflexivity.
  - reflexivity.
Defined.

Lemma SyncLdapUsers_unchanged_batch_is_noop_witness :
  exists d' evs,
    run_SyncLdapUsers "acme" [alice] "ldap-1"
      (St.mk (world false [alice_local]) 0 [])
    = (Val ([alice], [], None),
       St.mk (world false [alice_local]) d' ([] ++ evs)) /\
    filter is_write evs = [].
Proof.
  apply (@SyncLdapUsers_unchanged_batch_is_noop Mem.t Mem.store "acme" "ldap-1"
           [alice] (Some acme) (directory false) (world false [alice_local])
           0 []).
  - reflexivity.
  - reflexivity.
  - reflexivity.
  - reflexivity.
  - intros r [<- | []]. split; [reflexivity|].
    exists alice_local. split; [left; reflexivity|]. split; reflexivity.
Defined.

Lemma SyncUserFromLdap_wrong_password_stops_witness :
  call (R' := LdapLookup)
    (SyncUserFromLdap (dir := rejecting) "acme" "" "dave" "pw" "en")
    (start two_servers)
  = (Val (None, Some "invalid credentials"), start two_servers).
Proof.
  apply (@SyncUserFromLdap_wrong_password_stops Mem.t Mem.store rejecting
           "acme" "" "dave" "pw" "en" [] [backup] (directory false)
           (start two_servers) plain_conn
           (fst (match fst (GetLdapUsers (R := LdapLookup) (dir := rejecting)
                              plain_conn (directory false)
                              (Some (searched_user "dave"))
                              (start two_servers)) with
                 | Val r => r
                 | _ => ([], None)
                 end))
           None "invalid credentials").
  - reflexivity.
  - constructor.
  - left; reflexivity.
  - vm_compute; reflexivity.
  - vm_compute; reflexivity.
  - vm_compute; discriminate.
  - reflexivity.
Defined.

Lemma SyncUserFromLdap_found_runs_sync_witness :
  exists u,
    fst (call (R' := LdapLookup)
           (SyncUserFromLdap (dir := has_dave) "acme" "" "dave" "pw" "en")
           (start two_servers)) = Val (Some u, None) /\
    LdapUser.Uuid u = "uuid-dave" /\ LdapUser.Mail u = "dave@example.com" /\
    LdapUser.Email u = "".
Proof.
  pose (res := fst (match fst (GetLdapUsers (R := LdapLookup) (dir := has_dave)
                                 plain_conn (directory false)
                                 (Some (searched_user "dave"))
                                 (start two_servers)) with
                    | Val r => r
                    | _ => ([], None)
                    end)).
  rewrite (@SyncUserFromLdap_found_runs_sync Mem.t Mem.store has_dave
             "acme" "" "dave" "pw" "en" [] [backup] (directory false)
             (start two_servers) plain_conn res None).
  - eexists. split; [vm_compute; reflexivity|].
    repeat split.
  - reflexivity.
  - constructor.
  - left; reflexivity.
  - vm_compute; reflexivity.
  - vm_compute; reflexivity.
  - vm_compute; discriminate.
  - reflexivity.
Defined.

End DirectoryExamples.

(** * Further properties of the login controller *)

Lemma effects_since_app {W Sess} (s s' : CSt.t W Sess) evs :
  CSt.effects s' = CSt.effects s ++ evs -> effects_since s s' = evs.
Proof.
  intros H. unfold effects_since. rewrite H.
  rewrite skipn_app, skipn_all, Nat.sub_diag. reflexivity.
Qed.

Lemma skipn_length_app {A} (l evs : list A) :
  skipn (length l) (l ++ evs) = evs.
Proof.
  rewrite skipn_app, skipn_all, Nat.sub_diag. reflexivity.
Qed.

(** ** [HandleLoggedIn] *)

Section CompletionProperties.
Context {W Sess : Type} {backend : Backend W} {web : WebSession Sess}.
Variable req : Request.t.

Local Abbreviation CSt := (CSt.t W Sess).

Lemma complete_stage (application : Application.t) (user : User.t)
    (form : AuthForm.t) (userId sid : string) (s : CSt) :
  stage_outcome (complete req application user form userId sid s) s.
Proof.
  destruct s as [w se ef]. unfold stage_outcome, count_effects.
  unfold complete, complete_code, sign_in_for_prompt, deref, when.
  unfold_controller. cbn.
  repeat (first [break_innermost | progress cbn in * ]);
    rewrite <- ?app_assoc; cbn;
    (first [ exists []; split; [now rewrite app_nil_r|]
           | eexists; split; [reflexivity|] ]; cbn; repeat split; auto;
     congruence).
Qed.

Lemma check_tag_run (application : Application.t) (user : User.t) (s : CSt) :
  check_tag req application user s = (Val tt, s) \/
  exists r,
    check_tag req application user s
    = (Ret None,
       CSt.mk (CSt.world s) (CSt.sess s) (CSt.effects s ++ [Replied r])).
Proof.
  unfold check_tag. unfold_controller.
  repeat break_innermost; eauto.
Qed.

Lemma check_subscription_run (application : Application.t) (user : User.t)
    (s : CSt) :
  check_subscription req application user s = (Val tt, s) \/
  exists r,
    check_subscription req application user s
    = (Ret None,
       CSt.mk (CSt.world s) (CSt.sess s) (CSt.effects s ++ [Replied r])).
Proof.
  unfold check_subscription. unfold_controller.
  repeat (first [break_innermost | progress cbn beta iota]); eauto.
Qed.

Lemma record_session_run (application : Application.t) (user : User.t)
    (form : AuthForm.t) (resp : Response.t) (s : CSt) :
  record_session req application user form resp s =
  if String.eqb (Response.Status resp) "ok" then
    let se := if negb (AuthForm.AutoSignin form)
              then setExpireForSession (CSt.sess s) else CSt.sess s in
    let '(_, err, w') := AddSession (session_entry req application user)
                           (CSt.world s) in
    (Ret (Some resp),
     CSt.mk w' se
       (CSt.effects s ++
          Called (OpAddSession (session_entry req application user))
          :: match err with
             | Some e => [Replied (ResponseError e [VNil])]
             | None => []
             end))
  else (Ret (Some resp), s).
Proof.
  destruct s as [w se ef].
  unfold record_session, session_entry, when. unfold_controller. cbn.
  destruct (Response.Status resp =? "ok")%string eqn:E; cbn;
    [|reflexivity].
  all: destruct (AuthForm.AutoSignin form); cbn.
  all: match goal with |- context [AddSession ?x ?w] =>
         destruct (AddSession x w) as [[b [e|]] w'] end; cbn;
         rewrite <- ?app_assoc; reflexivity.
Qed.

(** X14. What a call of [HandleLoggedIn] does to the client and how
    often it calls [AddSession], whatever its arguments.  It replies at
    most once, issues at most one artifact and calls [AddSession] at most
    once.  A nil result means it replied (once) and did not call
    [AddSession].  A non-nil result with status ok means it called
    [AddSession] exactly once, whether or not that call added the entry; a
    non-nil result with another status means it did not call it and did
    not reply.  It has replied next to a non-nil result only when the
    status is ok (the call of [AddSession] failed).  A panic comes before
    any reply and any call of [AddSession]. *)
Theorem HandleLoggedIn_replies_and_sessions (R : Type)
    (application : Application.t) (user : User.t) (form : AuthForm.t)
    (s : CSt) :
  logged_in_outcome s (HandleLoggedIn (R := R) req application user form s).
Proof.
  destruct s as [w se ef].
  assert (Hone : forall (r : Reply) w' se',
             logged_in_outcome (R := R) (CSt.mk w se ef)
               (Val None, CSt.mk w' se' (ef ++ [Replied r]))).
  { intros r w' se'. unfold logged_in_outcome. cbn [fst snd].
    rewrite (effects_since_app (CSt.mk w se ef) (CSt.mk w' se' (ef ++ [Replied r]))
               [Replied r] eq_refl).
    cbn. repeat split; lia. }
  unfold HandleLoggedIn, call, HandleLoggedIn_body.
  unfold bind at 1, session_do at 1. cbn [CSt.sess CSt.world CSt.effects].
  destruct (getSid (User_GetId user) se) as [sid se1].
  destruct (User.Type_ user =? "invited-user")%string.
  { unfold reject, reply, effect, modify, bind, return_.
    cbn [fst snd CSt.world CSt.sess CSt.effects].
    apply Hone. }
  unfold bind at 1, ask at 1, gets at 1. cbn [CSt.world].
  destruct (CheckLoginPermission (User_GetId user) application w)
    as [allowed [e|]].
  { unfold reject, reply, effect, modify, bind, return_.
    cbn [fst snd CSt.world CSt.sess CSt.effects].
    apply Hone. }
  destruct allowed; cbn [negb].
  2:{ unfold reject, reply, effect, modify, bind, return_.
    cbn [fst snd CSt.world CSt.sess CSt.effects].
      apply Hone. }
  unfold bind at 1.
  destruct (check_tag_run application user (CSt.mk w se1 ef)) as [-> | (r & ->)].
  2:{ cbn [fst snd CSt.world CSt.sess CSt.effects].
      apply Hone. }
  unfold bind at 1.
  destruct (check_subscription_run application user (CSt.mk w se1 ef))
    as [-> | (r & ->)].
  2:{ cbn [fst snd CSt.world CSt.sess CSt.effects].
      apply Hone. }
  clear Hone. unfold bind at 1.
  destruct (complete_stage application user form (User_GetId user) sid
              (CSt.mk w se1 ef)) as (evs1 & Htr & Hadd & Hart & Hrep).
  destruct (complete req application user form (User_GetId user) sid
              (CSt.mk w se1 ef)) as [[resp | r | why] s2];
    cbn [fst snd CSt.effects] in *.
  - rewrite record_session_run. unfold logged_in_outcome, count_effects in *.
    destruct (Response.Status resp =? "ok")%string eqn:Hok.
    + cbn zeta.
      destruct (AddSession (session_entry req application user) (CSt.world s2))
        as [[b err] w'].
      cbn [fst snd].
      match goal with |- context [effects_since ?a ?b] =>
        rewrite (effects_since_app a b
                   (evs1 ++ Called (OpAddSession
                                      (session_entry req application user))
                      :: match err with
                         | Some e => [Replied (ResponseError e [VNil])]
                         | None => []
                         end))
          by (cbn [CSt.effects]; rewrite Htr, <- app_assoc; reflexivity)
      end.
      rewrite !filter_app, Hadd, Hrep. rewrite !length_app.
      pose proof (proj1 (String.eqb_eq _ _) Hok) as Hok'. rewrite Hok.
      destruct err as [e|]; cbn; repeat split; auto; lia.
    + cbn [fst snd].
      rewrite (effects_since_app (CSt.mk w se ef) s2 evs1 Htr).
      rewrite Hadd, Hrep, Hok. cbn. repeat split; auto; try lia; discriminate.
  - destruct Hrep as [-> Hrep]. unfold logged_in_outcome, count_effects in *.
    cbn [fst snd].
    rewrite (effects_since_app (CSt.mk w se ef) s2 evs1 Htr).
    rewrite Hadd, Hrep. cbn. repeat split; auto.
  - unfold logged_in_outcome, count_effects in *. cbn [fst snd].
    rewrite (effects_since_app (CSt.mk w se ef) s2 evs1 Htr).
    rewrite Hadd, Hrep. cbn. repeat split; auto.
Qed.

Lemma gates_pass_run (R : Type) (application : Application.t) (user : User.t)
    (form : AuthForm.t) (w : W) (se : Sess) (ef : list Effect) :
  gates_pass application user w ->
  HandleLoggedIn (R := R) req application user form (CSt.mk w se ef)
  = call (R' := R)
      (resp <- complete req application user form (User_GetId user)
                 (fst (getSid (User_GetId user) se)) ;;
       record_session req application user form resp)
      (CSt.mk w (snd (getSid (User_GetId user) se)) ef).
Proof.
  intros (Hinv & Hperm & Htag & Hpaid).
  apply String.eqb_neq in Hinv, Hpaid.
  unfold HandleLoggedIn, call, HandleLoggedIn_body.
  unfold bind at 1, session_do at 1. cbn [CSt.sess CSt.world CSt.effects].
  destruct (getSid (User_GetId user) se) as [sid se1]. cbn [fst snd].
  rewrite Hinv.
  unfold bind at 1, ask at 1, gets at 1. cbn [CSt.world]. rewrite Hperm.
  cbn [negb].
  assert (Ht : check_tag req application user (CSt.mk w se1 ef)
               = (Val tt, CSt.mk w se1 ef)).
  { unfold check_tag.
    destruct Htag as [H | [H | [H | H]]]; rewrite H; cbn;
      rewrite ?andb_false_r; try reflexivity.
    destruct (_ && _); reflexivity. }
  assert (Hs : check_subscription req application user (CSt.mk w se1 ef)
               = (Val tt, CSt.mk w se1 ef)).
  { unfold check_subscription. rewrite Hpaid. reflexivity. }
  unfold bind at 1. rewrite Ht.
  unfold bind at 1. rewrite Hs. reflexivity.
Qed.

Lemma turned_away_run (R : Type) (application : Application.t)
    (user : User.t) (form : AuthForm.t) (s : CSt) :
  turned_away application user (CSt.world s) ->
  exists msg data,
    HandleLoggedIn (R := R) req application user form s
    = (Val None,
       CSt.mk (CSt.world s) (snd (getSid (User_GetId user) (CSt.sess s)))
         (CSt.effects s ++ [Replied (ResponseError msg data)])).
Proof.
  destruct s as [w se ef]. cbn [CSt.world CSt.sess CSt.effects].
  unfold turned_away. intros H.
  unfold HandleLoggedIn, call, HandleLoggedIn_body.
  unfold bind at 1, session_do at 1. cbn [CSt.sess CSt.world CSt.effects].
  destruct (getSid (User_GetId user) se) as [sid se1]. cbn [fst snd].
  destruct (User.Type_ user =? "invited-user")%string eqn:Hinv.
  { do 2 eexists. reflexivity. }
  apply String.eqb_neq in Hinv.
  unfold bind at 1, ask at 1, gets at 1. cbn [CSt.world].
  destruct (CheckLoginPermission (User_GetId user) application w)
    as [allowed [e|]] eqn:Hp; rewrite ?Hp in H; cbn [fst snd] in H.
  { do 2 eexists. reflexivity. }
  destruct allowed; cbn [negb].
  - destruct H as [H | [H | H]]; [contradiction | discriminate | contradiction].
  - do 2 eexists. reflexivity.
Qed.

(** X15. A user who is turned away at the head of [HandleLoggedIn] (an
    invited user, whatever the permission check would say; or a user the
    permission check denies or fails on) gets a nil result after exactly
    one error reply; nothing was called, the store is untouched and the
    session is only what [getSid] made of it: the user is not signed in. *)
Theorem HandleLoggedIn_turned_away (R : Type) (application : Application.t)
    (user : User.t) (form : AuthForm.t) (s : CSt) :
  turned_away application user (CSt.world s) ->
  exists msg data,
    HandleLoggedIn (R := R) req application user form s
    = (Val None,
       CSt.mk (CSt.world s) (snd (getSid (User_GetId user) (CSt.sess s)))
         (CSt.effects s ++ [Replied (ResponseError msg data)])).
Proof.
  destruct s as [w se ef]. cbn [CSt.world CSt.sess CSt.effects].
  unfold turned_away. intros H.
  unfold HandleLoggedIn, call, HandleLoggedIn_body.
  unfold bind at 1, session_do at 1. cbn [CSt.sess CSt.world CSt.effects].
  destruct (getSid (User_GetId user) se) as [sid se1]. cbn [fst snd].
  destruct (User.Type_ user =? "invited-user")%string eqn:Hinv.
  { do 2 eexists. reflexivity. }
  apply String.eqb_neq in Hinv.
  unfold bind at 1, ask at 1, gets at 1. cbn [CSt.world].
  destruct (CheckLoginPermission (User_GetId user) application w)
    as [allowed [e|]] eqn:Hp; rewrite ?Hp in H; cbn [fst snd] in H.
  { do 2 eexists. reflexivity. }
  destruct allowed; cbn [negb].
  - destruct H as [H | [H | H]]; [contradiction | discriminate | contradiction].
  - do 2 eexists. reflexivity.
Qed.

(** X16. A sign-in whose session entry cannot be added is answered
    twice over.  For response type login and a user who passes the checks,
    a failing [AddSession] makes [HandleLoggedIn] reply with that error
    and still return the ok response it had built (the bare [return]
    keeps the named result); the session has been given the user name
    before, and stays so. *)
Theorem HandleLoggedIn_session_failure_keeps_response (R : Type)
    (application : Application.t) (user : User.t) (form : AuthForm.t)
    (w w' : W) (se : Sess) (ef : list Effect) (b : bool) (e : error) :
  gates_pass application user w ->
  AuthForm.Type_ form = ResponseTypeLogin ->
  AddSession (session_entry req application user) w = ((b, Some e), w') ->
  let userId := User_GetId user in
  let se1 := SetSessionUsername userId (snd (getSid userId se)) in
  HandleLoggedIn (R := R) req application user form (CSt.mk w se ef)
  = (Val (Some (Response.mk "ok" "" (VString userId) VNil)),
     CSt.mk w'
       (if negb (AuthForm.AutoSignin form) then setExpireForSession se1 else se1)
       (ef ++ [LogInfo ("API: [" ++ userId ++ "] signed in")%string;
               Called (OpAddSession (session_entry req application user));
               Replied (ResponseError e [VNil])])).
Proof.
  intros Hgates Hty Hadd. cbn zeta.
  rewrite (gates_pass_run R form se ef Hgates).
  unfold call, complete. rewrite Hty. cbn [String.eqb].
  change (ResponseTypeLogin =? ResponseTypeLogin)%string with true. cbn iota.
  unfold bind at 1.
  unfold bind at 1 2, session_set, effect, modify, ret.
  cbn [CSt.world CSt.sess CSt.effects].
  rewrite record_session_run.
  cbn [Response.Status String.eqb Ascii.eqb Bool.eqb CSt.world CSt.sess
       CSt.effects].
  rewrite Hadd. rewrite <- app_assoc. reflexivity.
Qed.

Lemma invalid_grant_run (R : Type) (application : Application.t)
    (user : User.t) (form : AuthForm.t) (w : W) (se : Sess)
    (ef : list Effect) :
  AuthForm.Type_ form = ResponseTypeToken \/
  AuthForm.Type_ form = ResponseTypeIdToken ->
  IsGrantTypeValid (AuthForm.Type_ form) (Application.GrantTypes application)
  = false ->
  let se1 := snd (getSid (User_GetId user) se) in
  (exists r,
     HandleLoggedIn (R := R) req application user form (CSt.mk w se ef)
     = (Val None, CSt.mk w se1 (ef ++ [Replied r]))) \/
  HandleLoggedIn (R := R) req application user form (CSt.mk w se ef)
  = (Val (Some (Response.mk "error"
                  ("error: grant_type: " ++ AuthForm.Type_ form
                     ++ " is not supported in this application")%string
                  (VString "") VNil)),
     CSt.mk w se1 ef).
Proof.
  intros Hty Hgrant. cbn zeta.
  assert (Hc : forall userId sid s1,
             complete req application user form userId sid s1
             = (Val (Response.mk "error"
                       ("error: grant_type: " ++ AuthForm.Type_ form
                          ++ " is not supported in this application")%string
                       (VString "") VNil), s1)).
  { intros userId sid s1. unfold complete. rewrite Hgrant.
    destruct Hty as [-> | ->]; reflexivity. }
  remember (HandleLoggedIn (R := R) req application user form (CSt.mk w se ef))
    as out eqn:Hout.
  revert Hout.
  unfold HandleLoggedIn, call, HandleLoggedIn_body.
  unfold bind at 1, session_do at 1. cbn [CSt.sess CSt.world CSt.effects].
  destruct (getSid (User_GetId user) se) as [sid se1]. cbn [fst snd].
  destruct (User.Type_ user =? "invited-user")%string.
  { intros ->. left. eexists. reflexivity. }
  unfold bind at 1, ask at 1, gets at 1. cbn [CSt.world].
  destruct (CheckLoginPermission (User_GetId user) application w)
    as [allowed [e|]].
  { intros ->. left. eexists. reflexivity. }
  destruct allowed; cbn [negb].
  2:{ intros ->. left. eexists. reflexivity. }
  unfold bind at 1.
  destruct (check_tag_run application user (CSt.mk w se1 ef)) as [-> | (r & ->)].
  2:{ intros ->. left. eexists. reflexivity. }
  unfold bind at 1.
  destruct (check_subscription_run application user (CSt.mk w se1 ef))
    as [-> | (r & ->)].
  2:{ intros ->. left. eexists. reflexivity. }
  unfold bind at 1. rewrite Hc. rewrite record_session_run.
  intros ->. right. reflexivity.
Qed.

(** X17. The implicit flow with a grant type the application does not
    allow issues nothing.  For response type token or id_token and an
    invalid grant type, a call of [HandleLoggedIn] calls no collaborator
    that acts on the store and leaves the store as it was; when it yields
    a response, that response has status error, no reply was made and the
    session is only what [getSid] made of it. *)
Theorem HandleLoggedIn_invalid_grant_issues_nothing (R : Type)
    (application : Application.t) (user : User.t) (form : AuthForm.t)
    (s : CSt) :
  AuthForm.Type_ form = ResponseTypeToken \/
  AuthForm.Type_ form = ResponseTypeIdToken ->
  IsGrantTypeValid (AuthForm.Type_ form) (Application.GrantTypes application)
  = false ->
  let out := HandleLoggedIn (R := R) req application user form s in
  filter is_call (effects_since s (snd out)) = [] /\
  CSt.world (snd out) = CSt.world s /\
  (forall resp,
     fst out = Val (Some resp) ->
     Response.Status resp = "error" /\
     snd out = CSt.mk (CSt.world s)
                 (snd (getSid (User_GetId user) (CSt.sess s))) (CSt.effects s)).
Proof.
  intros Hty Hgrant. cbn zeta. destruct s as [w se ef].
  destruct (@invalid_grant_run R application user form w se ef Hty Hgrant)
    as [(r & ->) | ->]; cbn [fst snd CSt.world CSt.sess CSt.effects].
  - rewrite (effects_since_app (CSt.mk w se ef)
               (CSt.mk w (snd (getSid (User_GetId user) se))
                  (ef ++ [Replied r])) [Replied r] eq_refl).
    split; [reflexivity|]. split; [reflexivity | discriminate].
  - rewrite (effects_since_app (CSt.mk w se ef)
               (CSt.mk w (snd (getSid (User_GetId user) se)) ef) [])
      by (cbn; now rewrite app_nil_r).
    split; [reflexivity|]. split; [reflexivity|].
    intros resp [= <-]. split; reflexivity.
Qed.

End CompletionProperties.

(** ** [Login]: the branches decided by the session *)

Section SessionBranchProperties.
Context {W Sess : Type} {backend : Backend W} {web : WebSession Sess}
  {current : CurrentUser W Sess}.
Variable req : Request.t.
Variable password_branch : AuthForm.t -> M (CSt.t W Sess) unit (option Response.t).
Variable signup_branch :
  AuthForm.t -> ProviderCtx -> M (CSt.t W Sess) unit (option Response.t).

Local Abbreviation CSt := (CSt.t W Sess).

Lemma HandleLoggedIn_no_ret (R : Type) (application : Application.t)
    (user : User.t) (form : AuthForm.t) (s : CSt) (r : R) :
  fst (HandleLoggedIn (R := R) req application user form s) <> Ret r.
Proof.
  unfold HandleLoggedIn, call.
  destruct (HandleLoggedIn_body req application user form s) as [[a|a|why] s1];
    discriminate.
Qed.

(** C8. An MFA-pending attempt with a wrong passcode is answered with the
    reply "OTP was wrong", sent as an unprocessable-entity reply and not as
    the generic error reply; the handler returns, and the session,
    including the MFA-pending marker, is exactly as before.  A later
    attempt from that state whose passcode [Verify] accepts, for an
    application that exists and a user who need not change the password,
    is completed by [HandleLoggedIn]: whatever response it yields is
    served, after the marker was reset and the success was recorded.  In
    particular, for response type login, a user who passes the checks of
    [HandleLoggedIn] and whose session entry is added is signed in: the
    session carries the user's id, the marker is empty, and the ok
    response with the id is served. *)
Theorem wrong_otp_keeps_mfa_pending (authForm : AuthForm.t) (s : CSt)
    (user : User.t) (mfaUtil : MfaUtil) (e : error) (w' : W) :
  mfa_attempt req authForm ->
  getMfaUserSession (CSt.sess s) <> "" ->
  GetUser (getMfaUserSession (CSt.sess s)) (CSt.world s) = (Some user, None) ->
  GetMfaUtil (AuthForm.MfaType authForm) (GetPreferredMfaProps user false)
    = Some mfaUtil ->
  MfaVerify mfaUtil (AuthForm.Passcode authForm) (CSt.world s) = (Some e, w') ->
  let s1 := after_wrong_otp s (AuthForm.Passcode authForm) w' in
  Login req password_branch signup_branch s = (Val tt, s1) /\
  getMfaUserSession (CSt.sess s1) = getMfaUserSession (CSt.sess s) /\
  forall (req2 : Request.t) (authForm2 : AuthForm.t) (user2 : User.t)
         (mfaUtil2 : MfaUtil) (w2 : W) (application : Application.t),
    mfa_attempt req2 authForm2 ->
    GetUser (getMfaUserSession (CSt.sess s)) w' = (Some user2, None) ->
    GetMfaUtil (AuthForm.MfaType authForm2) (GetPreferredMfaProps user2 false)
      = Some mfaUtil2 ->
    MfaVerify mfaUtil2 (AuthForm.Passcode authForm2) w' = (None, w2) ->
    GetApplication ("admin/" ++ AuthForm.Application authForm2)%string w2
      = (Some application, None) ->
    IsPasswordChangeRequired user2 = false ->
    let verified :=
      CSt.effects s1 ++ [Called (OpMfaVerify (AuthForm.Passcode authForm2))] in
    let recorded :=
      [WithOrganization (Application.Organization application);
       WithUsername (User.Name user2); AddReason "MFA success"] in
    (forall (resp : option Response.t) (s3 : CSt),
        HandleLoggedIn (R := unit) req2 application user2 authForm2
          (CSt.mk w2 (CSt.sess s) verified) = (Val resp, s3) ->
        Login req2 password_branch signup_branch s1
        = (Val tt,
           CSt.mk (CSt.world s3) (setMfaUserSession "" (CSt.sess s3))
             (CSt.effects s3 ++ recorded ++ [Replied (ServeJSON resp)])))
    /\
    (forall (b : bool) (w3 : W),
        AuthForm.Type_ authForm2 = ResponseTypeLogin ->
        gates_pass application user2 w2 ->
        AddSession (session_entry req2 application user2) w2 = ((b, None), w3) ->
        let userId := User_GetId user2 in
        let se1 := SetSessionUsername userId (snd (getSid userId (CSt.sess s))) in
        Login req2 password_branch signup_branch s1
        = (Val tt,
           CSt.mk w3
             (setMfaUserSession ""
                (if negb (AuthForm.AutoSignin authForm2)
                 then setExpireForSession se1 else se1))
             (verified ++
                [LogInfo ("API: [" ++ userId ++ "] signed in")%string;
                 Called (OpAddSession (session_entry req2 application user2))]
                ++ recorded
                ++ [Replied
                      (ServeJSON
                         (Some (Response.mk "ok" "" (VString userId) VNil)))]))).
Proof.
  intros Hatt Hmfa Huser Hutil Hverify. cbn zeta.
  split; [|split; [reflexivity|]].
  - rewrite (@Login_mfa_branch W Sess backend web current password_branch
               signup_branch req authForm s Hatt Hmfa).
    destruct Hatt as (_ & _ & _ & Hpass). apply String.eqb_neq in Hpass.
    destruct s as [w se ef]. cbn [CSt.world CSt.sess CSt.effects] in *.
    unfold mfa_branch, after_wrong_otp. unfold_controller.
    cbn -[check_second_factor mfa_complete]. rewrite Huser.
    unfold check_second_factor. rewrite Hpass, Hutil. unfold_controller.
    cbn -[mfa_complete]. rewrite Hverify. cbn -[mfa_complete].
    rewrite <- !app_assoc. reflexivity.
  - intros req2 authForm2 user2 mfaUtil2 w2 application Hatt2 Huser2 Hutil2
      Hverify2 Happ Hchange.
    assert (Hserved :
      forall (resp : option Response.t) (s3 : CSt),
        HandleLoggedIn (R := unit) req2 application user2 authForm2
          (CSt.mk w2 (CSt.sess s)
             (CSt.effects (after_wrong_otp s (AuthForm.Passcode authForm) w')
                ++ [Called (OpMfaVerify (AuthForm.Passcode authForm2))]))
        = (Val resp, s3) ->
        Login req2 password_branch signup_branch
          (after_wrong_otp s (AuthForm.Passcode authForm) w')
        = (Val tt,
           CSt.mk (CSt.world s3) (setMfaUserSession "" (CSt.sess s3))
             (CSt.effects s3 ++
                [WithOrganization (Application.Organization application);
                 WithUsername (User.Name user2); AddReason "MFA success"]
                ++ [Replied (ServeJSON resp)]))).
    { intros resp s3 Hrun.
      rewrite (@Login_mfa_branch W Sess backend web current password_branch
                 signup_branch req2 authForm2
                 (after_wrong_otp s (AuthForm.Passcode authForm) w') Hatt2 Hmfa).
      destruct Hatt2 as (_ & _ & _ & Hpass2). apply String.eqb_neq in Hpass2.
      destruct s as [w se ef]. cbn [CSt.world CSt.sess CSt.effects] in *.
      unfold mfa_branch, after_wrong_otp in *. unfold_controller.
      cbn -[check_second_factor mfa_complete HandleLoggedIn] in *.
      rewrite Huser2.
      unfold check_second_factor. rewrite Hpass2, Hutil2. unfold_controller.
      cbn -[mfa_complete HandleLoggedIn]. rewrite Hverify2.
      cbn -[mfa_complete HandleLoggedIn].
      unfold mfa_complete, load_application. unfold_controller.
      unfold_controller.
      cbn -[HandleLoggedIn]. cbn in Happ. rewrite Happ.
      cbn -[HandleLoggedIn]. rewrite Hchange.
      rewrite Hrun. destruct s3 as [w3 se3 ef3].
      cbn [CSt.world CSt.sess CSt.effects]. rewrite <- !app_assoc.
      reflexivity. }
    split; [exact Hserved|].
    intros b w3 Hty Hgates Hadd. cbn zeta.
    erewrite Hserved.
    2:{ rewrite (@gates_pass_run W Sess backend web req2 unit application
                   user2 authForm2 w2 (CSt.sess s) _ Hgates).
        unfold call, complete. rewrite Hty.
        change (ResponseTypeLogin =? ResponseTypeLogin)%string with true.
        cbn iota. unfold bind at 1.
        unfold bind at 1 2, session_set, effect, modify, ret.
        cbn [CSt.world CSt.sess CSt.effects].
        rewrite record_session_run.
        cbn [Response.Status String.eqb Ascii.eqb Bool.eqb CSt.world CSt.sess
             CSt.effects].
        rewrite Hadd. reflexivity. }
    cbn [CSt.world CSt.sess CSt.effects]. rewrite <- !app_assoc.
    reflexivity.
Qed.

(** X18. An accepted second factor is used up.  In an MFA-pending
    attempt whose passcode [Verify] accepts and whose application exists,
    [Login] resets the MFA-pending marker of the session in every outcome
    short of a panic: when the user is sent on to change the password,
    when [HandleLoggedIn] yields a response, and also when
    [HandleLoggedIn] turns the user away. *)
Theorem accepted_second_factor_is_used_up (authForm : AuthForm.t) (s : CSt)
    (user : User.t) (mfaUtil : MfaUtil) (w1 : W)
    (application : Application.t) :
  mfa_attempt req authForm ->
  getMfaUserSession (CSt.sess s) <> "" ->
  GetUser (getMfaUserSession (CSt.sess s)) (CSt.world s) = (Some user, None) ->
  GetMfaUtil (AuthForm.MfaType authForm) (GetPreferredMfaProps user false)
    = Some mfaUtil ->
  MfaVerify mfaUtil (AuthForm.Passcode authForm) (CSt.world s) = (None, w1) ->
  GetApplication ("admin/" ++ AuthForm.Application authForm)%string w1
    = (Some application, None) ->
  marker_cleared (Login req password_branch signup_branch s).
Proof.
  intros Hatt Hmfa Huser Hutil Hverify Happ.
  rewrite (@Login_mfa_branch W Sess backend web current password_branch
             signup_branch req authForm s Hatt Hmfa).
  destruct Hatt as (_ & _ & _ & Hpass). apply String.eqb_neq in Hpass.
  destruct s as [w se ef]. cbn [CSt.world CSt.sess CSt.effects] in *.
  unfold mfa_branch. unfold_controller.
  cbn -[check_second_factor mfa_complete]. rewrite Huser.
  unfold check_second_factor. rewrite Hpass, Hutil. unfold_controller.
  cbn -[mfa_complete]. rewrite Hverify. cbn -[mfa_complete].
  unfold mfa_complete, load_application. unfold_controller. unfold_controller.
  cbn -[HandleLoggedIn]. cbn in Happ. rewrite Happ. cbn -[HandleLoggedIn].
  destruct (IsPasswordChangeRequired user).
  - cbn. eexists. reflexivity.
  - match goal with |- context [HandleLoggedIn ?r ?a ?u ?f ?s0] =>
      pose proof (@HandleLoggedIn_no_ret unit a u f s0) as Hnr;
      destruct (HandleLoggedIn (R := unit) r a u f s0) as [[resp|x|why] s2]
    end; cbn in *.
    + eexists. reflexivity.
    + exfalso. apply (Hnr x). reflexivity.
    + exact I.
Qed.

(** A form that names neither a user nor a provider, sent from a
    session that is not signed in and has no login in progress, is
    refused: [Login] records the reason, replies with the error "Unknown
    authentication type" (with the form echoed back) and returns; nothing
    is looked up or called and store and session are as before. *)
Theorem Login_anonymous_session_form_refused (authForm : AuthForm.t)
    (s : CSt) :
  session_form req authForm ->
  no_pending_step (CSt.sess s) ->
  GetSessionUsername (CSt.sess s) = "" ->
  Login req password_branch signup_branch s
  = (Val tt,
     CSt.mk (CSt.world s) (CSt.sess s)
       (CSt.effects s ++
          [AddReason
             "Login error: Unknown authentication type (not password or provider)";
           Replied
             (ResponseError
                (Sprintf
                   (tr req "auth:Unknown authentication type (not password or provider), form = %s")
                   [StructToJson authForm]) [])])).
Proof.
  intros (Hbody & Huser & Hprov) (Hmfa & Hcp) Hsess.
  destruct s as [w se ef]. cbn [CSt.world CSt.sess CSt.effects] in *.
  unfold Login, Login_body. rewrite Hbody, Huser, Hprov. cbn [String.eqb negb].
  unfold quick_branch. unfold_controller. cbn.
  rewrite Hmfa. cbn. rewrite Hcp. cbn. rewrite Hsess. cbn.
  rewrite <- app_assoc. reflexivity.
Qed.

(** X19. The password-change gate.  While the session carries the
    change-password marker and the user it names is still required to
    change the password, [Login] only answers with the change-password
    form again: nobody is signed in, nothing is called, and store and
    session, marker included, stay as they are. *)
Theorem Login_password_change_still_required (authForm : AuthForm.t)
    (s : CSt) (user : User.t) :
  session_form req authForm ->
  getMfaUserSession (CSt.sess s) = "" ->
  getChangePasswordUserSession (CSt.sess s) <> "" ->
  GetUser (getChangePasswordUserSession (CSt.sess s)) (CSt.world s)
    = (Some user, None) ->
  IsPasswordChangeRequired user = true ->
  Login req password_branch signup_branch s
  = (Val tt,
     CSt.mk (CSt.world s) (CSt.sess s)
       (CSt.effects s ++ [Replied (ResponseOk [VString NextChangePasswordForm])])).
Proof.
  intros (Hbody & Huser & Hprov) Hmfa Hcp Hget Hreq.
  apply String.eqb_neq in Hcp.
  destruct s as [w se ef]. cbn [CSt.world CSt.sess CSt.effects] in *.
  unfold Login, Login_body. rewrite Hbody, Huser, Hprov. cbn [String.eqb negb].
  unfold change_password_branch. unfold_controller. cbn -[HandleLoggedIn].
  rewrite Hmfa. cbn -[HandleLoggedIn]. rewrite Hcp. cbn -[HandleLoggedIn].
  rewrite Hget, Hreq. reflexivity.
Qed.

(** X20. A refused quick sign-in is answered twice and logged as a
    sign-in.  When a signed-in session with no login in progress sends a
    form that names neither user nor provider, the application exists and
    [HandleLoggedIn] turns the current user away, [Login] still goes on
    after the error reply: it tags the audit record with the
    organisation, the user name and the reason "Quick sign in", and then
    serves the nil response as a second reply. *)
Theorem Login_refused_quick_sign_in_replies_twice (authForm : AuthForm.t)
    (s : CSt) (application : Application.t) (user : User.t) :
  session_form req authForm ->
  no_pending_step (CSt.sess s) ->
  GetSessionUsername (CSt.sess s) <> "" ->
  GetApplication ("admin/" ++ AuthForm.Application authForm)%string (CSt.world s)
    = (Some application, None) ->
  getCurrentUser (CSt.sess s) (CSt.world s) = Some user ->
  turned_away application user (CSt.world s) ->
  exists msg data,
    Login req password_branch signup_branch s
    = (Val tt,
       CSt.mk (CSt.world s) (snd (getSid (User_GetId user) (CSt.sess s)))
         (CSt.effects s ++
            [Replied (ResponseError msg data);
             WithOrganization (Application.Organization application);
             WithUsername (User.Name user);
             AddReason "Quick sign in";
             Replied (ServeJSON None)])).
Proof.
  intros (Hbody & Huser & Hprov) (Hmfa & Hcp) Hsess Happ Hcur Hturn.
  apply String.eqb_neq in Hsess.
  destruct (@turned_away_run W Sess backend web req unit application user
              authForm s Hturn) as (msg & data & Hrun).
  exists msg, data.
  destruct s as [w se ef]. cbn [CSt.world CSt.sess CSt.effects] in *.
  unfold Login, Login_body. rewrite Hbody, Huser, Hprov. cbn [String.eqb negb].
  unfold quick_branch, load_application. unfold_controller. unfold_controller.
  cbn -[HandleLoggedIn]. rewrite Hmfa. cbn -[HandleLoggedIn].
  rewrite Hcp. cbn -[HandleLoggedIn]. rewrite Hsess. cbn -[HandleLoggedIn].
  cbn in Happ. rewrite Happ. cbn -[HandleLoggedIn]. rewrite Hcur.
  cbn -[HandleLoggedIn]. rewrite Hrun. cbn.
  rewrite <- !app_assoc. reflexivity.
Qed.

End SessionBranchProperties.

(** ** [Login]: the exchange with an external identity provider *)

Section ExchangeProperties.
Context {W Sess : Type} {backend : Backend W} {web : WebSession Sess}
  {current : CurrentUser W Sess}.
Variable req : Request.t.

Local Abbreviation CSt := (CSt.t W Sess).

(** X21. In the OAuth / Web3 exchange of [Login], the user-info request
    is made at most once and only after the one token request of the
    exchange came back without error and with a valid token.  So an
    unsupported provider type, a failing HTTP client, a state mismatch, a
    failed token request or an invalid token all end the exchange without
    the provider being asked about any user. *)
Theorem oauth_exchange_user_info_after_valid_token (authForm : AuthForm.t)
    (application : Application.t) (provider : Provider.t) (s : CSt) :
  user_info_needs_token authForm (CSt.world s)
    (effects_since s
       (snd (oauth_exchange req authForm application provider s))).
Proof.
  destruct s as [w se ef].
  unfold oauth_exchange, setHttpClient, internal_error.
  unfold_controller. unfold_controller. cbn.
  repeat (first [break_innermost | progress cbn in * ]).
  all: rewrite <- ?app_assoc;
       first [ rewrite skipn_all | rewrite skipn_length_app ].
  all: unfold user_info_needs_token, count_effects; cbn.
  all: try (left; reflexivity).
  all: right; subst;
       repeat match goal with
              | H : negb _ = false |- _ => apply negb_false_iff in H
              end;
       do 3 eexists; repeat split; eassumption.
Qed.

End ExchangeProperties.

(** ** The login controller on the in-memory site, continued *)

Module ControllerExamples2.
Import Site SiteDemo SiteLab.

Lemma HandleLoggedIn_turned_away_witness :
  exists msg data,
    HandleLoggedIn (R := unit) (bare "login") portal guest
      (form "login" "" "" "" "") (state [guest] anonymous)
    = (Val None,
       CSt.mk (site [guest]) anonymous [Replied (ResponseError msg data)]).
Proof.
  apply (@HandleLoggedIn_turned_away Site.t Sess Site.backend Site.web
           (bare "login") unit portal guest (form "login" "" "" "" "")
           (state [guest] anonymous)).
  left. reflexivity.
Defined.

Lemma HandleLoggedIn_session_failure_keeps_response_witness :
  HandleLoggedIn (R := unit) (backend := read_only) (bare "login") portal
    carol (form "login" "" "" "" "") (state everyone anonymous)
  = (Val (Some (Response.mk "ok" "" (VString "acme/carol") VNil)),
     CSt.mk (site everyone) (signed_in "acme/carol")
       [LogInfo "API: [acme/carol] signed in";
        Called (OpAddSession
                  (Session.mk "acme" "carol" "portal" ["session-1"]));
        Replied (ResponseError "session table is read-only" [VNil])]).
Proof.
  apply (@HandleLoggedIn_session_failure_keeps_response Site.t Sess read_only
           Site.web (bare "login") unit portal carol
           (form "login" "" "" "" "") (site everyone) (site everyone)
           anonymous [] false "session table is read-only").
  - repeat split; try discriminate.
    right; right; left; reflexivity.
  - reflexivity.
  - reflexivity.
Defined.

Lemma HandleLoggedIn_invalid_grant_issues_nothing_witness :
  filter is_call
    (effects_since (state everyone anonymous)
       (snd (HandleLoggedIn (R := unit) (bare "token") portal carol
               (form "token" "" "" "" "") (state everyone anonymous)))) = [] /\
  CSt.world (snd (HandleLoggedIn (R := unit) (bare "token") portal carol
                    (form "token" "" "" "" "") (state everyone anonymous)))
  = site everyone.
Proof.
  destruct (@HandleLoggedIn_invalid_grant_issues_nothing Site.t Sess
              Site.backend Site.web (bare "token") unit portal carol
              (form "token" "" "" "" "") (state everyone anonymous))
    as (H1 & H2 & _).
  - left. reflexivity.
  - reflexivity.
  - split; assumption.
Defined.

Lemma wrong_otp_keeps_mfa_pending_witness :
  let s0 := state everyone (mfa_pending "acme/alice") in
  let s1 := after_wrong_otp s0 "000000" (site everyone) in
  Site.login (otp "000000") s0 = (Val tt, s1) /\
  exists s2,
    Site.login (otp "123456") s1 = (Val tt, s2) /\
    CSt.sess s2 = signed_in "acme/alice" /\
    sessions (CSt.world s2)
      = [Session.mk "acme" "alice" "portal" ["session-1"]].
Proof.
  cbn zeta.
  destruct (@wrong_otp_keeps_mfa_pending Site.t Site.Sess Site.backend
              Site.web Site.current (otp "000000") Site.no_branch
              (fun f _ => Site.no_branch f)
              (form "login" "" "" "" "000000")
              (state everyone (mfa_pending "acme/alice")) alice "123456"
              "invalid passcode" (site everyone))
    as (Hwrong & _ & Hnext).
  - repeat split; discriminate.
  - discriminate.
  - vm_compute; reflexivity.
  - vm_compute; reflexivity.
  - vm_compute; reflexivity.
  - split; [exact Hwrong|].
    destruct (Hnext (otp "123456") (form "login" "" "" "" "123456") alice
                "123456" (site everyone) portal) as (_ & Hlogin).
    + repeat split; discriminate.
    + vm_compute; reflexivity.
    + vm_compute; reflexivity.
    + vm_compute; reflexivity.
    + vm_compute; reflexivity.
    + vm_compute; reflexivity.
    + eexists. split.
      * apply (Hlogin true
                 (mk (db (site everyone)) (apps (site everyone))
                    (providers (site everyone))
                    [Session.mk "acme" "alice" "portal" ["session-1"]])).
        -- reflexivity.
        -- repeat split; try discriminate. right; right; left; reflexivity.
        -- vm_compute; reflexivity.
      * split; vm_compute; reflexivity.
Defined.

Lemma accepted_second_factor_is_used_up_witness :
  marker_cleared (login (otp "123456") (state everyone (mfa_pending "acme/alice"))).
Proof.
  apply (@accepted_second_factor_is_used_up Site.t Sess Site.backend Site.web
           Site.current (otp "123456") no_branch (fun form _ => no_branch form)
           (form "login" "" "" "" "123456")
           (state everyone (mfa_pending "acme/alice")) alice "123456"
           (site everyone) portal).
  - repeat split; discriminate.
  - discriminate.
  - reflexivity.
  - reflexivity.
  - reflexivity.
  - reflexivity.
Defined.

(** After the accepted passcode the marker is empty and alice is signed
    in. *)
Example used_up_marker_is_empty :
  let se := CSt.sess (snd (login (otp "123456")
                             (state everyone (mfa_pending "acme/alice")))) in
  getMfaUserSession se = "" /\ GetSessionUsername se = "acme/alice".
Proof. split; vm_compute; reflexivity. Qed.

Lemma Login_anonymous_session_form_refused_witness :
  login (bare "login") (state everyone anonymous)
  = (Val tt,
     CSt.mk (site everyone) anonymous
       [AddReason
          "Login error: Unknown authentication type (not password or provider)";
        Replied
          (ResponseError
             "Unknown authentication type (not password or provider), form = login"
             [])]).
Proof.
  apply (@Login_anonymous_session_form_refused Site.t Sess Site.backend
           Site.web Site.current (bare "login") no_branch
           (fun form _ => no_branch form) (form "login" "" "" "" "")
           (state everyone anonymous)).
  - repeat split.
  - split; reflexivity.
  - reflexivity.
Defined.

Lemma Login_password_change_still_required_witness :
  login (bare "login") (state [dora] (password_change_pending "acme/dora"))
  = (Val tt,
     CSt.mk (site [dora]) (password_change_pending "acme/dora")
       [Replied (ResponseOk [VString "NextChangePasswordForm"])]).
Proof.
  apply (@Login_password_change_still_required Site.t Sess Site.backend
           Site.web Site.current (bare "login") no_branch
           (fun form _ => no_branch form) (form "login" "" "" "" "")
           (state [dora] (password_change_pending "acme/dora")) dora).
  - repeat split.
  - reflexivity.
  - discriminate.
  - reflexivity.
  - reflexivity.
Defined.

Lemma Login_refused_quick_sign_in_replies_twice_witness :
  exists msg data,
    login (bare "login") (state [guest] (signed_in "acme/guest"))
    = (Val tt,
       CSt.mk (site [guest]) (signed_in "acme/guest")
         [Replied (ResponseError msg data);
          WithOrganization "acme"; WithUsername "guest";
          AddReason "Quick sign in"; Replied (ServeJSON None)]).
Proof.
  apply (@Login_refused_quick_sign_in_replies_twice Site.t Sess Site.backend
           Site.web Site.current (bare "login") no_branch
           (fun form _ => no_branch form) (form "login" "" "" "" "")
           (state [guest] (signed_in "acme/guest")) portal guest).
  - repeat split.
  - split; reflexivity.
  - discriminate.
  - reflexivity.
  - reflexivity.
  - left. reflexivity.
Defined.

End ControllerExamples2.

(** * Properties of the smaller handlers *)

(** ** The webhook mailbox *)

Section WebhookProperties.
Variable Unmarshal : string -> option Hook.Data.

Lemma HandleOfficialAccountEvent_scan (body : option string) (g : Hook.t) :
  fst (HandleOfficialAccountEvent Unmarshal body g) = Val tt /\
  Hook.wechatScanType (snd (HandleOfficialAccountEvent Unmarshal body g))
  = match scan_of Unmarshal body with
    | Some e => e
    | None => Hook.wechatScanType g
    end.
Proof.
  unfold HandleOfficialAccountEvent, HandleOfficialAccountEvent_body, scan_of,
    call, hook_write, bind, modify, ret, return_.
  destruct body as [bytes|]; [|split; reflexivity].
  destruct (Unmarshal bytes) as [data|]; [|split; reflexivity].
  destruct (Hook.EventKey data =? "")%string; split; reflexivity.
Qed.

Lemma deliver_all_scan (bodies : list (option string)) (g : Hook.t) :
  Hook.wechatScanType (deliver_all Unmarshal bodies g)
  = pending_scan Unmarshal bodies (Hook.wechatScanType g).
Proof.
  unfold deliver_all, pending_scan.
  revert g; induction bodies as [|b bs IH]; intros g; cbn [fold_left];
    [reflexivity|].
  rewrite IH.
  destruct (HandleOfficialAccountEvent_scan b g) as [_ ->]. reflexivity.
Qed.

(** X22. The webhook is a one-slot mailbox that is emptied by reading.
    After any sequence of deliveries, handled one after the other,
    [GetWebhookEventType] answers with the event of the last delivery
    whose body could be read and decoded and carried an event key (or
    with what the variable held before, if there was none), and it resets
    the variable; so earlier events are lost and a second poll right after
    answers with the empty string.  No delivery panics. *)
Theorem webhook_poll_returns_last_event (bodies : list (option string))
    (g : Hook.t) :
  let g1 := deliver_all Unmarshal bodies g in
  let scan := pending_scan Unmarshal bodies (Hook.wechatScanType g) in
  GetWebhookEventType g1
  = (Val tt, Hook.mk "" (Hook.outputs g1 ++ [scan_answer scan])) /\
  GetWebhookEventType (snd (GetWebhookEventType g1))
  = (Val tt,
     Hook.mk "" (Hook.outputs g1 ++ [scan_answer scan; scan_answer ""])) /\
  (forall body g0, fst (HandleOfficialAccountEvent Unmarshal body g0) = Val tt).
Proof.
  cbn zeta.
  assert (H1 : GetWebhookEventType (deliver_all Unmarshal bodies g)
               = (Val tt,
                  Hook.mk ""
                    (Hook.outputs (deliver_all Unmarshal bodies g)
                       ++ [scan_answer
                             (pending_scan Unmarshal bodies
                                (Hook.wechatScanType g))]))).
  { rewrite <- deliver_all_scan. reflexivity. }
  split; [exact H1|]. split.
  - rewrite H1. cbn [snd].
    unfold GetWebhookEventType, GetWebhookEventType_body, call, hook_write,
      bind, modify, gets, ret. cbn.
    rewrite <- app_assoc. reflexivity.
  - intros body g0. apply HandleOfficialAccountEvent_scan.
Qed.

End WebhookProperties.

(** ** The SAML relay *)

Lemma Split_length (s : string) (sep : ascii) :
  length (Strings.Split s sep) = S (count_char sep s).
Proof.
  induction s as [|c rest IH]; [reflexivity|].
  cbn [Strings.Split count_char].
  destruct (Ascii.eqb c sep); cbn [length Nat.add].
  - now rewrite IH.
  - destruct (Strings.Split rest sep) as [|w ws]; cbn in *; lia.
Qed.

Section SamlRelayProperties.
Variable DecodeString : string -> option string.
Variable QueryEscape : string -> string.
Variable req : Request.t.

(** X23. [HandleSamlLogin] needs a relay state of five fields.  When the
    relay state decodes, the handler panics (index out of range, nothing
    written) if the decoded text has fewer than four ampersands;
    otherwise it redirects, with status 303, to the fifth
    ampersand-separated field of the decoded text, taken as it is, with
    the escaped relay state and SAML response appended as query
    parameters. *)
Theorem HandleSamlLogin_needs_five_fields (decode : string)
    (out : list Hook.Output) :
  DecodeString (Request.Input req "RelayState") = Some decode ->
  if Nat.ltb (count_char "&" decode) 4 then
    exists why,
      HandleSamlLogin DecodeString QueryEscape req out = (Panic why, out)
  else
    exists target,
      nth_error (Strings.Split decode "&") 4 = Some target /\
      HandleSamlLogin DecodeString QueryEscape req out
      = (Val tt, out ++ [relay_redirect QueryEscape req target]).
Proof.
  intros Hdec.
  unfold HandleSamlLogin, HandleSamlLogin_body, call. rewrite Hdec.
  pose proof (Split_length decode "&") as Hlen.
  destruct (Nat.ltb_spec (count_char "&" decode) 4) as [Hlt|Hge].
  - assert (Hnone : nth_error (Strings.Split decode "&") 4 = None).
    { apply nth_error_None. lia. }
    rewrite Hnone. eexists. reflexivity.
  - destruct (nth_error (Strings.Split decode "&") 4) as [target|] eqn:Hnth.
    + exists target. split; reflexivity.
    + apply nth_error_None in Hnth. lia.
Qed.

End SamlRelayProperties.

(** ** [GetApplicationLogin] *)

Section LoginPageProperties.
Context {W Sess : Type} {backend : Backend W} {page : LoginPage W}.
Variable req : Request.t.

Local Abbreviation CSt := (CSt.t W Sess).

(** X24. [GetApplicationLogin] answers every request with exactly one
    reply and changes neither store nor session, and it cannot panic.
    The reply is ok with the masked application, an error with the
    masked application or with no data, or the internal server error.  A
    request whose login type is neither code nor cas is answered ok with
    the masked nil application, without any check. *)
Theorem GetApplicationLogin_replies_once (s : CSt) :
  exists r,
    GetApplicationLogin (Sess := Sess) req s
    = (Val tt,
       CSt.mk (CSt.world s) (CSt.sess s) (CSt.effects s ++ [Replied r])) /\
    login_page_reply r /\
    (Request.Input req "type" <> "code" ->
     Request.Input req "type" <> "cas" ->
     r = ResponseOk [masked_application None]).
Proof.
  destruct s as [w se ef].
  unfold GetApplicationLogin, GetApplicationLogin_body.
  unfold_controller. cbn.
  destruct (String.eqb_spec (Request.Input req "type") "code") as [Hc|Hc];
    [|destruct (String.eqb_spec (Request.Input req "type") "cas") as [Hs|Hs]].
  all: repeat (first [break_innermost | progress cbn in * ]).
  all: eexists; split; [reflexivity|]; split;
         [cbn; eauto
         | intros; try contradiction; try discriminate; try reflexivity].
Qed.

End LoginPageProperties.

(** ** The smaller handlers on examples *)

Module HandlerExamples.
Import Site SiteDemo HandlerLab.

(** Two scans and a malformed delivery, then two polls: the first poll
    sees only the second scan, the second poll sees nothing. *)
Example two_scans_one_answer :
  let g1 := deliver_all unmarshal
              [Some "k1|SCAN"; Some "k2|subscribe"; Some "garbage"; None] idle in
  Hook.outputs (snd (GetWebhookEventType (snd (GetWebhookEventType g1))))
  = [Hook.WriteString ""; Hook.WriteString "";
     Hook.Reply_ (ResponseBadRequest "unmarshall body error");
     Hook.Reply_ (ResponseBadRequest "read body error");
     scan_answer "subscribe"; scan_answer ""].
Proof. vm_compute. reflexivity. Qed.

Lemma HandleSamlLogin_needs_five_fields_witness :
  HandleSamlLogin decode escape
    (relay "=a&b&c&d&https://portal.example.com/acs") []
  = (Val tt,
     [Hook.Redirect
        "https://portal.example.com/acs?relayState==a&b&c&d&https://portal.example.com/acs&samlResponse=assertion"
        303]).
Proof.
  destruct (@HandleSamlLogin_needs_five_fields decode escape
              (relay "=a&b&c&d&https://portal.example.com/acs")
              "a&b&c&d&https://portal.example.com/acs" [] eq_refl)
    as (target & Hnth & Hrun).
  rewrite Hrun. injection Hnth as <-. reflexivity.
Defined.

(** A relay state of four fields brings the handler down. *)
Example short_relay_state_panics :
  exists why,
    HandleSamlLogin decode escape (relay "=a&b&c&d") [] = (Panic why, []).
Proof. eexists. vm_compute. reflexivity. Qed.

Lemma GetApplicationLogin_replies_once_witness :
  GetApplicationLogin (Sess := Sess) (page_request "saml")
    (state everyone anonymous)
  = (Val tt,
     CSt.mk (site everyone) anonymous [Replied (ResponseOk [VNil])]).
Proof.
  destruct (@GetApplicationLogin_replies_once Site.t Sess Site.backend page
              (page_request "saml") (state everyone anonymous))
    as (r & Hrun & _ & Hr).
  rewrite Hrun, Hr; [reflexivity | discriminate | discriminate].
Defined.

End HandlerExamples.

(** * Further properties of the provider branch of [Login] *)

Section ProviderBranchProperties.
Context {W Sess : Type} {backend : Backend W} {web : WebSession Sess}
  {current : CurrentUser W Sess}.
Variable req : Request.t.
Variable password_branch : AuthForm.t -> M (CSt.t W Sess) unit (option Response.t).
Variable signup_branch :
  AuthForm.t -> ProviderCtx -> M (CSt.t W Sess) unit (option Response.t).

Local Abbreviation CSt := (CSt.t W Sess).

Lemma Login_provider_branch (authForm : AuthForm.t) (s : CSt) :
  provider_form req authForm ->
  Login req password_branch signup_branch s
  = call (R' := unit)
      (bind (provider_branch req signup_branch authForm)
         (fun resp => reply (ServeJSON resp))) s.
Proof.
  intros (Hbody & Huser & Hprov). apply String.eqb_neq in Hprov.
  unfold Login, Login_body. rewrite Hbody, Huser, Hprov. reflexivity.
Qed.

(** X25. A provider login for an application that does not exist is not
    reported: when the application look-up returns neither an
    application nor an error, [Login] panics (the error text is taken
    from the nil error), before anything is replied or recorded. *)
Theorem provider_login_unknown_application_panics (authForm : AuthForm.t)
    (s : CSt) :
  provider_form req authForm ->
  lookup_application authForm (CSt.world s) = (None, None) ->
  exists why, Login req password_branch signup_branch s = (Panic why, s).
Proof.
  intros Hform Happ. rewrite (Login_provider_branch s Hform).
  unfold lookup_application in Happ.
  destruct s as [w se ef]. cbn [CSt.world] in Happ.
  unfold call, provider_branch, provider_prelude, internal_error.
  unfold_controller. unfold_controller. cbn [CSt.world CSt.sess CSt.effects].
  destruct (negb (AuthForm.ClientId authForm =? ""))%string;
    cbn [CSt.world CSt.sess CSt.effects];
    rewrite Happ; cbn [CSt.world CSt.sess CSt.effects]; eauto.
Qed.

(** X26. A failing organisation look-up does not stop a provider login.
    [Login] records the reason and replies with the error, but does not
    return: it goes on to the provider look-up, and when that fails too
    the client gets a second reply. *)
Theorem provider_login_goes_on_without_organization (authForm : AuthForm.t)
    (s : CSt) (application : Application.t)
    (organization : option Organization.t) (provider : option Provider.t)
    (e e2 : error) :
  provider_form req authForm ->
  lookup_application authForm (CSt.world s) = (Some application, None) ->
  GetOrganization (util_GetId "admin" (Application.Organization application))
    (CSt.world s) = (organization, Some e) ->
  GetProvider (util_GetId "admin" (AuthForm.Provider authForm)) (CSt.world s)
    = (provider, Some e2) ->
  Login req password_branch signup_branch s
  = (Val tt,
     CSt.mk (CSt.world s) (CSt.sess s)
       (CSt.effects s ++
          [AddReason ("Login error: " ++ e);
           Replied (ResponseError (tr req e) []);
           AddReason ("Login error: " ++ e2);
           Replied (ResponseInternalServerError "internal server error")])).
Proof.
  intros Hform Happ Horg Hprov. rewrite (Login_provider_branch s Hform).
  unfold lookup_application in Happ.
  destruct s as [w se ef]. cbn [CSt.world CSt.sess CSt.effects] in *.
  unfold call, provider_branch, provider_prelude, internal_error.
  unfold_controller. unfold_controller. cbn [CSt.world CSt.sess CSt.effects].
  destruct (negb (AuthForm.ClientId authForm =? ""))%string;
    cbn [CSt.world CSt.sess CSt.effects];
    rewrite Happ; cbn [CSt.world CSt.sess CSt.effects];
    rewrite Horg; cbn [CSt.world CSt.sess CSt.effects];
    rewrite Hprov; cbn [CSt.world CSt.sess CSt.effects];
    rewrite <- !app_assoc; reflexivity.
Qed.

End ProviderBranchProperties.

(** * Properties of the password branch and the sign-up branch *)

Section OpenBranchProperties.
Context {W Sess : Type} {backend : Backend W} {web : WebSession Sess}
  {current : CurrentUser W Sess} {accounts : @Accounts W backend}
  {store : Store W} {dir : Directory W}.
Variable req : Request.t.
Variable more : PasswordFields.t.
Variable WithAction : string -> M (CSt.t W Sess) unit unit.
Variable signup : AuthForm.t -> ProviderCtx -> M (CSt.t W Sess) unit (option Response.t).

Local Abbreviation CSt := (CSt.t W Sess).

Lemma Login_password_branch (authForm : AuthForm.t) (s : CSt) :
  password_form req authForm ->
  Login req (password_branch req more) signup s
  = call (R' := unit)
      (bind (password_branch req more authForm)
         (fun resp => reply (ServeJSON resp))) s.
Proof.
  intros (Hbody & Huser & _). apply String.eqb_neq in Huser.
  unfold Login, Login_body. rewrite Hbody, Huser. reflexivity.
Qed.

(** the head of the password branch when the session test lets the
    request through *)
Lemma password_branch_head (authForm : AuthForm.t) (w : W) (se : Sess)
    (ef : list Effect) :
  may_sign_in authForm se ->
  AuthForm.Password authForm <> "" ->
  password_branch req more authForm (CSt.mk w se ef)
  = bind (password_signin req more authForm)
      (fun '(user, msg, authForm') =>
         if negb (String.eqb msg "") then
           ret (Some (Response.mk "error" msg VNil VNil))
         else password_complete req authForm' user)
      (CSt.mk w se (ef ++ [WithUsername (AuthForm.Username authForm)])).
Proof.
  intros Hmay Hpw. apply String.eqb_neq in Hpw.
  unfold password_branch. rewrite Hpw.
  unfold bind at 1.
  assert (Hhead :
            (if (AuthForm.Type_ authForm =? ResponseTypeLogin)%string
             then
               sessionUser <- session_get GetSessionUsername ;;
               (if negb (sessionUser =? "")%string
                then
                  effect (AddReason "Login error: please sign out first") ;;;
                  reject
                    (ResponseError (tr req "account:Please sign out first")
                       [VString sessionUser]) tt
                else ret tt)
             else ret tt) (CSt.mk w se ef)
            = (Val tt, CSt.mk (Sess := Sess) w se ef)).
  { destruct Hmay as [Hty | Hse].
    - apply String.eqb_neq in Hty. rewrite Hty. reflexivity.
    - destruct (AuthForm.Type_ authForm =? ResponseTypeLogin)%string;
        [|reflexivity].
      unfold bind, session_get, gets. cbn [CSt.sess]. rewrite Hse. reflexivity. }
  rewrite Hhead. unfold bind at 1, effect at 1, modify at 1.
  cbn [CSt.world CSt.sess CSt.effects]. reflexivity.
Qed.

(** X27. A failed captcha is not a failed password.  When the captcha is
    switched on for a password sign-in and its verification fails or
    says that the client is not human, [Login] answers with an error and
    returns; the store and the session are as before, so the password
    was not checked and no failed attempt was counted. *)
Theorem failed_captcha_leaves_password_unchecked (authForm : AuthForm.t)
    (s : CSt) (application : Application.t) (isHuman : bool)
    (err : option error) :
  password_form req authForm ->
  may_sign_in authForm (CSt.sess s) ->
  GetApplication ("admin/" ++ AuthForm.Application authForm)%string (CSt.world s)
    = (Some application, None) ->
  method_refused authForm application = false ->
  CheckToEnableCaptcha application (AuthForm.Organization authForm)
    (AuthForm.Username authForm) (CSt.world s) = (true, None) ->
  VerifyCaptchaByCaptchaType (PasswordFields.CaptchaType more)
    (PasswordFields.CaptchaToken more) (PasswordFields.ClientSecret more)
    (CSt.world s) = (isHuman, err) ->
  isHuman = false \/ err <> None ->
  exists reason r,
    Login req (password_branch req more) signup s
    = (Val tt,
       CSt.mk (CSt.world s) (CSt.sess s)
         (CSt.effects s ++
            [WithUsername (AuthForm.Username authForm); AddReason reason;
             Replied r])) /\
    is_error_reply r = true.
Proof.
  intros Hform Hmay Happ Hmeth Hcap Hver Hfail.
  rewrite (Login_password_branch s Hform).
  destruct Hform as (_ & _ & Hpw).
  destruct s as [w se ef]. cbn [CSt.world CSt.sess CSt.effects] in *.
  unfold call. unfold bind at 1.
  rewrite (password_branch_head w ef Hmay Hpw).
  unfold bind at 1. unfold password_signin.
  unfold bind at 1, ask at 1, gets at 1. cbn [CSt.world]. cbn in Happ.
  cbn [String.append]. rewrite Happ.
  unfold method_refused in Hmeth. apply orb_false_iff in Hmeth as [Hm1 Hm2].
  rewrite Hm1, Hm2.
  unfold bind at 1, ask at 1, gets at 1. cbn [CSt.world]. rewrite Hcap.
  unfold bind at 1. unfold bind at 1, ask at 1, gets at 1. cbn [CSt.world].
  rewrite Hver.
  destruct err as [e|].
  - unfold internal_error, reject, reply, effect, modify, bind, return_.
    cbn [CSt.world CSt.sess CSt.effects]. rewrite <- !app_assoc.
    do 2 eexists. split; reflexivity.
  - destruct Hfail as [-> | H]; [|contradiction].
    unfold reject, reply, effect, modify, bind, return_.
    cbn [negb CSt.world CSt.sess CSt.effects]. rewrite <- !app_assoc.
    do 2 eexists. split; reflexivity.
Qed.

(** X28. A refused password does not sign in, and it is the message that
    decides.  In a password sign-in that is not via LDAP and needs no
    captcha, when [CheckUserPassword] fails, returns no user, and the
    message derived from its error is not empty, [Login] serves an error
    response with that message; the reason is recorded twice, the session
    is as before (nobody is signed in) and the store is as
    [CheckUserPassword] left it. *)
Theorem refused_password_is_served_as_error (authForm : AuthForm.t)
    (s : CSt) (application : Application.t) (e : error) (w' : W) :
  password_form req authForm ->
  may_sign_in authForm (CSt.sess s) ->
  GetApplication ("admin/" ++ AuthForm.Application authForm)%string (CSt.world s)
    = (Some application, None) ->
  method_refused authForm application = false ->
  AuthForm.SigninMethod authForm <> "LDAP" ->
  CheckToEnableCaptcha application (AuthForm.Organization authForm)
    (AuthForm.Username authForm) (CSt.world s) = (false, None) ->
  CheckUserPassword (AuthForm.Organization authForm)
    (AuthForm.Username authForm) (AuthForm.Password authForm)
    (request_lang req) false false (password_with_ldap authForm application)
    (CSt.world s) = ((None, Some e), w') ->
  CheckPassErrorToMessage e (request_lang req) <> "" ->
  Login req (password_branch req more) signup s
  = (Val tt,
     CSt.mk w' (CSt.sess s)
       (CSt.effects s ++
          [WithUsername (AuthForm.Username authForm);
           AddReason ("Error: " ++ e); AddReason ("Error: " ++ e);
           Replied
             (ServeJSON
                (Some (Response.mk "error"
                         (CheckPassErrorToMessage e (request_lang req))
                         VNil VNil)))])).
Proof.
  intros Hform Hmay Happ Hmeth Hldap Hcap Hcheck Hmsg.
  rewrite (Login_password_branch s Hform).
  destruct Hform as (_ & _ & Hpw).
  apply String.eqb_neq in Hldap, Hmsg.
  destruct s as [w se ef]. cbn [CSt.world CSt.sess CSt.effects] in *.
  unfold call. unfold bind at 1.
  rewrite (password_branch_head w ef Hmay Hpw).
  unfold bind at 1. unfold password_signin.
  unfold bind at 1, ask at 1, gets at 1. cbn [CSt.world]. cbn in Happ.
  cbn [String.append]. rewrite Happ.
  unfold method_refused in Hmeth. apply orb_false_iff in Hmeth as [Hm1 Hm2].
  rewrite Hm1, Hm2.
  unfold bind at 1, ask at 1, gets at 1. cbn [CSt.world]. rewrite Hcap.
  rewrite Hldap. unfold password_with_ldap in Hcheck.
  unfold bind at 1, ret at 1. unfold bind at 1, ret at 1.
  unfold bind at 1, change at 1. cbn [CSt.world]. rewrite Hcheck.
  unfold bind, reply, effect, modify, ret.
  cbn [CSt.world CSt.sess CSt.effects]. rewrite Hmsg.
  cbn [negb CSt.world CSt.sess CSt.effects]. rewrite <- !app_assoc.
  reflexivity.
Qed.

(** X29. A sign-up through a provider that is neither OAuth, Web3 nor
    SAML signs in the zero user.  No user is looked up: the branch calls
    [HandleLoggedIn] for the user [User{}].  For response type login,
    when the zero user passes the checks and the session entry and the
    identity-provider row are written, the session is signed in under the
    id of the zero user and that id is served as the result. *)
Theorem signup_other_category_signs_in_zero_user (authForm : AuthForm.t)
    (ctx : ProviderCtx) (w w1 w2 : W) (se : Sess) (ef : list Effect)
    (b : bool) (organization : Organization.t) (userInfo : UserInfo.t) :
  external_category (Provider.Category (ctx_provider ctx)) = false ->
  gates_pass (ctx_application ctx) User.zero w ->
  AuthForm.Type_ authForm = ResponseTypeLogin ->
  AddSession (session_entry req (ctx_application ctx) User.zero) w
    = ((b, None), w1) ->
  ctx_organization ctx = Some organization ->
  ctx_userInfo ctx = Some userInfo ->
  UpdateUserIdProvider
    (refreshed_link organization (ctx_provider ctx) userInfo (GetCurrentTime w1))
    "provider_name" w1 = (None, w2) ->
  let userId := User_GetId User.zero in
  let se1 := SetSessionUsername userId (snd (getSid userId se)) in
  signup_branch req WithAction authForm ctx (CSt.mk w se ef)
  = (Val (Some (Response.mk "ok" "" (VString userId) VNil)),
     CSt.mk w2
       (if negb (AuthForm.AutoSignin authForm) then setExpireForSession se1
        else se1)
       (ef ++
          [LogInfo ("API: [" ++ userId ++ "] signed in")%string;
           Called (OpAddSession (session_entry req (ctx_application ctx)
                                   User.zero));
           WithUsername "";
           WithOrganization (Application.Organization (ctx_application ctx));
           AddReason "User logged in"]
          ++ provider_reason (ctx_provider ctx))).
Proof.
  intros Hcat Hgates Hty Hadd Horg Hinfo Hupd. cbn zeta.
  unfold signup_branch. rewrite Hcat.
  unfold bind at 1, ret at 1. cbn [User.zero User.IsDeleted negb].
  change (User.IsDeleted User.zero) with false. cbn [negb].
  unfold bind at 1, deref at 1, ret at 1.
  change (User.IsForbidden User.zero) with false. cbn iota.
  unfold bind at 1.
  rewrite (@gates_pass_run W Sess backend web req unit (ctx_application ctx)
             User.zero authForm w se ef Hgates).
  unfold call, complete. rewrite Hty.
  change (ResponseTypeLogin =? ResponseTypeLogin)%string with true. cbn iota.
  unfold bind at 1.
  unfold bind at 1 2, session_set, effect, modify, ret.
  cbn [CSt.world CSt.sess CSt.effects].
  rewrite record_session_run.
  cbn [Response.Status String.eqb Ascii.eqb Bool.eqb CSt.world CSt.sess
       CSt.effects].
  rewrite Hadd. rewrite Horg, Hinfo.
  unfold provider_reason, refreshed_link in *.
  unfold bind, deref, ask, gets, change, ret, reject, reply, effect, modify.
  cbn [CSt.world CSt.sess CSt.effects User.zero User.Name].
  destruct (Provider_json (ctx_provider ctx)) as [j|];
    cbn [CSt.world CSt.sess CSt.effects]; rewrite Hupd;
    cbn [CSt.world CSt.sess CSt.effects]; rewrite <- ?app_assoc;
    cbn [app]; rewrite ?app_nil_r; reflexivity.
Qed.

(** X30. A sign-up that is not allowed creates nothing.  When the
    provider is an OAuth, Web3 or SAML provider, no account is linked to
    the external identity, linking by e-mail is off and the application
    allows neither internal nor provider sign-up, the sign-up branch
    records the reason and answers with an error; no account is created
    and store and session are as before. *)
Theorem signup_not_allowed_creates_nothing (authForm : AuthForm.t)
    (ctx : ProviderCtx) (s : CSt) (userInfo : UserInfo.t) :
  external_category (Provider.Category (ctx_provider ctx)) = true ->
  ctx_userInfo ctx = Some userInfo ->
  GetUserByField (Application.Organization (ctx_application ctx))
    (Provider.Type_ (ctx_provider ctx)) (UserInfo.Id userInfo) (CSt.world s)
    = (None, None) ->
  EnableLinkWithEmail (ctx_application ctx) = false ->
  EnableInternalSignUp (ctx_application ctx) = false ->
  EnableIdpSignUp (ctx_application ctx) = false ->
  exists reason msg,
    signup_branch req WithAction authForm ctx s
    = (Ret tt,
       CSt.mk (CSt.world s) (CSt.sess s)
         (CSt.effects s ++ [AddReason reason; Replied (ResponseError msg [])])).
Proof.
  intros Hcat Hinfo Hfind Hlink Hint Hidp.
  destruct s as [w se ef]. cbn [CSt.world CSt.sess CSt.effects] in *.
  unfold signup_branch, create_account. rewrite Hcat, Hinfo, Hlink, Hint, Hidp.
  unfold_controller. unfold_controller.
  cbn -[String.append]. rewrite Hfind.
  cbn -[String.append]. rewrite <- ?app_assoc.
  do 2 eexists. reflexivity.
Qed.

End OpenBranchProperties.

(** ** The password branch and the sign-up branch on the in-memory site *)

Module BranchExamples.
Import Site SiteDemo SiteLab BranchLab.

Lemma provider_login_unknown_application_panics_witness :
  exists why,
    Login (request (form "login" "github" "" "casdoor" "") [])
      (fun form => no_branch form) (fun form _ => no_branch form)
      (CSt.mk retired anonymous [])
    = (Panic why, CSt.mk retired anonymous []).
Proof.
  apply (@provider_login_unknown_application_panics Site.t Sess Site.backend
           Site.web Site.current
           (request (form "login" "github" "" "casdoor" "") [])
           (fun form => no_branch form) (fun form _ => no_branch form)
           (form "login" "github" "" "casdoor" "")
           (CSt.mk retired anonymous [])).
  - repeat split; discriminate.
  - reflexivity.
Defined.

Lemma provider_login_goes_on_without_organization_witness :
  Login (backend := tables_down)
    (request (form "login" "github" "" "casdoor" "") [])
    (fun form => no_branch form) (fun form _ => no_branch form)
    (state everyone anonymous)
  = (Val tt,
     CSt.mk (site everyone) anonymous
       [AddReason "Login error: db:database is locked";
        Replied (ResponseError "database is locked" []);
        AddReason "Login error: db:database is locked";
        Replied (ResponseInternalServerError "internal server error")]).
Proof.
  rewrite (@provider_login_goes_on_without_organization Site.t Sess
             tables_down Site.web Site.current
             (request (form "login" "github" "" "casdoor" "") [])
             (fun form => no_branch form) (fun form _ => no_branch form)
             (form "login" "github" "" "casdoor" "")
             (state everyone anonymous) portal None None
             "db:database is locked" "db:database is locked").
  - vm_compute. reflexivity.
  - repeat split; discriminate.
  - reflexivity.
  - reflexivity.
  - reflexivity.
Defined.

Lemma failed_captcha_leaves_password_unchecked_witness :
  exists reason r,
    Login (password_request "hunter2")
      (password_branch (accounts := accounts true (false, None) false)
         (password_request "hunter2") no_fields)
      (fun form _ => no_branch form) (state [erin] anonymous)
    = (Val tt,
       CSt.mk (site [erin]) anonymous
         [WithUsername "erin"; AddReason reason; Replied r]) /\
    is_error_reply r = true.
Proof.
  apply (@failed_captcha_leaves_password_unchecked Site.t Sess Site.backend
           Site.web Site.current (accounts true (false, None) false) store
           offline (password_request "hunter2") no_fields
           (fun form _ => no_branch form) (password_form_of "hunter2")
           (state [erin] anonymous) portal false None).
  - repeat split; discriminate.
  - left. discriminate.
  - reflexivity.
  - reflexivity.
  - reflexivity.
  - reflexivity.
  - left. reflexivity.
Defined.

Lemma refused_password_is_served_as_error_witness :
  Login (password_request "letmein")
    (password_branch (accounts := accounts false (true, None) false)
       (password_request "letmein") no_fields)
    (fun form _ => no_branch form) (state [erin] anonymous)
  = (Val tt,
     CSt.mk (site [erin]) anonymous
       [WithUsername "erin";
        AddReason "Error: password incorrect";
        AddReason "Error: password incorrect";
        Replied (ServeJSON (Some (Response.mk "error" "password incorrect"
                                    VNil VNil)))]).
Proof.
  apply (@refused_password_is_served_as_error Site.t Sess Site.backend
           Site.web Site.current (accounts false (true, None) false) store
           offline (password_request "letmein") no_fields
           (fun form _ => no_branch form) (password_form_of "letmein")
           (state [erin] anonymous) portal "password incorrect"
           (site [erin])).
  - repeat split; discriminate.
  - left. discriminate.
  - reflexivity.
  - reflexivity.
  - discriminate.
  - reflexivity.
  - reflexivity.
  - discriminate.
Defined.

(** With the right password erin gets her authorization code. *)
Example right_password_signs_in :
  last (CSt.effects
          (snd (Login (password_request "hunter2")
                  (password_branch (accounts := accounts false (true, None) false)
                     (password_request "hunter2") no_fields)
                  (fun form _ => no_branch form) (state [erin] anonymous))))
    (AddReason "")
  = Replied (ServeJSON (Some (Response.mk "ok" "" (VString "code-for-acme/erin")
                                VNil))).
Proof. vm_compute. reflexivity. Qed.

Lemma signup_other_category_signs_in_zero_user_witness :
  let out := signup_branch (accounts := accounts false (true, None) false)
               (bare "login") no_action signup_form mailer_ctx
               (state everyone anonymous) in
  fst out = Val (Some (Response.mk "ok" "" (VString "/") VNil)) /\
  GetSessionUsername (CSt.sess (snd out)) = "/".
Proof.
  cbn zeta. unfold state.
  erewrite (@signup_other_category_signs_in_zero_user Site.t Sess Site.backend
              Site.web (accounts false (true, None) false) store
              (bare "login") no_action signup_form mailer_ctx
              (site everyone) _ _ anonymous [] _ Demo.acme UserInfo.zero).
  - split; reflexivity.
  - reflexivity.
  - repeat split; try discriminate. right; right; left; reflexivity.
  - reflexivity.
  - reflexivity.
  - reflexivity.
  - reflexivity.
  - reflexivity.
Defined.

Lemma signup_not_allowed_creates_nothing_witness :
  exists reason msg,
    signup_branch (accounts := accounts false (true, None) false)
      (bare "login") no_action (form "login" "github" "signup" "casdoor" "")
      github_ctx (state [carol] anonymous)
    = (Ret tt,
       CSt.mk (site [carol]) anonymous
         [AddReason reason; Replied (ResponseError msg [])]).
Proof.
  apply (@signup_not_allowed_creates_nothing Site.t Sess Site.backend Site.web
           (accounts false (true, None) false) store (bare "login") no_action
           (form "login" "github" "signup" "casdoor" "") github_ctx
           (state [carol] anonymous) octocat).
  - reflexivity.
  - reflexivity.
  - reflexivity.
  - reflexivity.
  - reflexivity.
  - reflexivity.
Defined.

(** When sign-up is open, the account is created, linked and signed in. *)
Example open_signup_creates_account :
  let out := signup_branch (accounts := accounts false (true, None) true)
               (bare "login") no_action
               (form "login" "github" "signup" "casdoor" "") github_ctx
               (state [carol] anonymous) in
  map User.Name (Mem.users (db (CSt.world (snd out)))) = ["carol"; "octocat"] /\
  GetSessionUsername (CSt.sess (snd out)) = "acme/octocat".
Proof. split; vm_compute; reflexivity. Qed.

End BranchExamples.
